(** * NPY depth map importer: depth normalisation and mesh construction

    A shallow embedding of [blender_npy_depth_import.py].

    Conventions of the embedding.
    - A numpy array is its shape together with its elements in row-major
      order.  The arrays that [np.load] returns are of dtype float64 or
      int64; other dtypes are not modelled.
    - An element of a float64 array is an IEEE value ([float]): a finite
      number, NaN or an infinity.  A finite float is a rational ([Q]).
      The result of an operation on finite numbers is the exact result
      when it is in the range of float64, and an infinity when it
      overflows: rounding inside the range is left out, overflow and the
      arithmetic of NaN and the infinities are not.  The sign of a zero
      is not modelled.  Equality of computed numbers is [Qeq] ([==]).
      The x and y coordinates of a vertex, which lie between -0.5 and
      0.5, are rationals.
    - An element of an int64 array is an integer ([Z]); int64 arithmetic
      wraps around.
    - A Python exception is a value of [exn]; code that can raise returns
      [res].
    - Blender is the host.  Three of its decisions are parameters of the
      development: whether [bmesh.faces.new] raises, the name it gives
      to a new object (a name that is taken gets a suffix), and whether
      the calls that change the selection raise (the operator
      [select_all] does outside Object Mode). *)

From Stdlib Require Import QArith Qminmax ZArith List String Ascii Lia.
From stdpp Require Import base list.

Local Open Scope string_scope.
Local Open Scope list_scope.
Local Open Scope Q_scope.

(** ** Exceptions *)

Inductive exn : Type :=
| ValueError (msg : string)
| IndexError (msg : string)
| KeyError (msg : string)
| TypeError (msg : string)
| RuntimeError (msg : string).

(** [str(e)] *)
Definition str (e : exn) : string :=
  match e with
  | ValueError msg => msg
  | IndexError msg => msg
  | KeyError msg => msg
  | TypeError msg => msg
  | RuntimeError msg => msg
  end.

Inductive res (A : Type) : Type :=
| Ok (a : A)
| Raise (e : exn).
Arguments Ok {A} a.
Arguments Raise {A} e.

#[global] Instance res_ret : MRet res := fun _ a => Ok a.

#[global] Instance res_bind : MBind res := fun _ _ k c =>
  match c with
  | Ok a => k a
  | Raise e => Raise e
  end.

(** [x < y] on finite numbers, as a test. *)
Definition Qltb (x y : Q) : bool :=
  match x ?= y with
  | Lt => true
  | _ => false
  end.

(** ** numpy *)

Module Np.

(** *** float64 *)

(** An element of a float64 array. *)
Inductive float : Type :=
| Fin (q : Q)
| NaN
| PInf
| NInf.

(** [np.finfo(np.float64).max], that is (2^53 - 1) * 2^971. *)
Definition float_max : Q := inject_Z ((2 ^ 53 - 1) * 2 ^ 971).

(** Half a unit in the last place above [float_max], 2^1024 - 2^970:
    a result of this size or more rounds to an infinity. *)
Definition overflow_bound : Q := inject_Z (2 ^ 1024 - 2 ^ 970).

(** The float64 that an operation returns when its exact result is [q]:
    an infinity from [overflow_bound] on, the largest float below it,
    and [q] itself in the range of float64. *)
Definition float_of (q : Q) : float :=
  if Qle_bool overflow_bound q then PInf
  else if Qle_bool q (- overflow_bound) then NInf
  else if Qltb float_max q then Fin float_max
  else if Qltb q (- float_max) then Fin (- float_max)
  else Fin q.

(** The infinity of a sign. *)
Definition inf (negative : bool) : float := if negative then NInf else PInf.

Definition is_neg (x : float) : bool :=
  match x with
  | Fin q => Qltb q 0
  | NInf => true
  | _ => false
  end.

Definition is_zero (x : float) : bool :=
  match x with
  | Fin q => Qeq_bool q 0
  | _ => false
  end.

(** [x < y]; NaN compares with nothing. *)
Definition float_ltb (x y : float) : bool :=
  match x, y with
  | NaN, _ | _, NaN => false
  | NInf, NInf => false
  | NInf, _ => true
  | _, NInf => false
  | PInf, _ => false
  | _, PInf => true
  | Fin a, Fin b => Qltb a b
  end.

(** [x <= y] *)
Definition float_leb (x y : float) : bool :=
  match x, y with
  | NaN, _ | _, NaN => false
  | _, _ => negb (float_ltb y x)
  end.

(** [x - y] *)
Definition fsub (x y : float) : float :=
  match x, y with
  | NaN, _ | _, NaN => NaN
  | Fin a, Fin b => float_of (a - b)
  | PInf, PInf | NInf, NInf => NaN
  | PInf, _ | _, NInf => PInf
  | NInf, _ | _, PInf => NInf
  end.

(** [x * y] *)
Definition fmul (x y : float) : float :=
  match x, y with
  | NaN, _ | _, NaN => NaN
  | Fin a, Fin b => float_of (a * b)
  | _, _ =>
      if is_zero x || is_zero y then NaN
      else inf (xorb (is_neg x) (is_neg y))
  end.

(** [x / y], as numpy divides: a division by zero gives an infinity, or
    NaN for 0 / 0. *)
Definition fdiv (x y : float) : float :=
  match x, y with
  | NaN, _ | _, NaN => NaN
  | Fin a, Fin b =>
      if Qeq_bool b 0
      then (if Qeq_bool a 0 then NaN else inf (is_neg x))
      else float_of (a / b)
  | Fin _, _ => Fin 0
  | _, Fin _ => inf (xorb (is_neg x) (is_neg y))
  | _, _ => NaN
  end.

(** [np.minimum] and [np.maximum]: NaN wins. *)
Definition fmin (x y : float) : float :=
  match x, y with
  | NaN, _ | _, NaN => NaN
  | _, _ => if float_ltb y x then y else x
  end.

Definition fmax (x y : float) : float :=
  match x, y with
  | NaN, _ | _, NaN => NaN
  | _, _ => if float_ltb x y then y else x
  end.

(** *** int64 *)

(** The int64 that an operation returns when its exact result is [z]. *)
Definition wrap64 (z : Z) : Z := ((z + 2 ^ 63) mod 2 ^ 64 - 2 ^ 63)%Z.

(** An int64 as a float64. *)
Definition of_int (z : Z) : float := Fin (inject_Z z).

(** *** Arrays *)

Record ndarray (A : Type) : Type := mk_ndarray {
  shape : list nat;
  data : list A
}.
Arguments mk_ndarray {A} shape data.
Arguments shape {A} n.
Arguments data {A} n.

(** An array of one of the two dtypes. *)
Inductive nparray : Type :=
| Float64 (a : ndarray float)
| Int64 (a : ndarray Z).

Definition ndim {A : Type} (a : ndarray A) : nat := length (shape a).

(** [a.shape] and [a.ndim] whatever the dtype. *)
Definition shape_of (a : nparray) : list nat :=
  match a with
  | Float64 a => shape a
  | Int64 a => shape a
  end.

Definition ndim_of (a : nparray) : nat := length (shape_of a).

(** [a.size] *)
Definition size (a : nparray) : nat :=
  match a with
  | Float64 a => length (data a)
  | Int64 a => length (data a)
  end.

(** Number of elements a shape asks for. *)
Definition size_of (sh : list nat) : nat := fold_right Nat.mul 1%nat sh.

(** The arrays numpy can build: as many elements as the shape says. *)
Definition wf {A : Type} (a : ndarray A) : Prop :=
  length (data a) = size_of (shape a).

(** Element-wise operation; the result is a new array. *)
Definition amap {A B : Type} (f : A -> B) (a : ndarray A) : ndarray B :=
  mk_ndarray (shape a) (map f (data a)).

(** The finite number that [np.nan_to_num] puts for an element. *)
Definition nan_to_num_elt (v : float) : Q :=
  match v with
  | Fin q => q
  | NaN => 0
  | PInf => float_max
  | NInf => - float_max
  end.

(** [np.nan_to_num(a)] (copy=True) on a float64 array: a new array. *)
Definition nan_to_num (a : ndarray float) : ndarray float :=
  amap (fun v => Fin (nan_to_num_elt v)) a.

(** [np.min(a)] on a float64 array: raises on an array without
    elements. *)
Definition min (a : ndarray float) : res float :=
  match data a with
  | [] => Raise (ValueError
      "zero-size array to reduction operation minimum which has no identity")
  | x :: l => Ok (fold_left fmin l x)
  end.

(** [np.max(a)] *)
Definition max (a : ndarray float) : res float :=
  match data a with
  | [] => Raise (ValueError
      "zero-size array to reduction operation maximum which has no identity")
  | x :: l => Ok (fold_left fmax l x)
  end.

(** [np.min(a)] and [np.max(a)] on an int64 array. *)
Definition imin (a : ndarray Z) : res Z :=
  match data a with
  | [] => Raise (ValueError
      "zero-size array to reduction operation minimum which has no identity")
  | x :: l => Ok (fold_left Z.min l x)
  end.

Definition imax (a : ndarray Z) : res Z :=
  match data a with
  | [] => Raise (ValueError
      "zero-size array to reduction operation maximum which has no identity")
  | x :: l => Ok (fold_left Z.max l x)
  end.

(** The exception of [a *= s] for an int64 array [a] and a Python float
    [s]: the float64 product cannot be stored in [a]. *)
Definition cast_error : exn :=
  TypeError "Cannot cast ufunc 'multiply' output from dtype('float64') to dtype('int64') with casting rule 'same_kind'".

(** [a[r, c]] for a 2-dimensional array and indices that are not
    negative. *)
Definition getitem2 {A : Type} (a : ndarray A) (r c : nat) : res A :=
  match shape a with
  | [h; w] =>
      if (r <? h)%nat && (c <? w)%nat then
        match data a !! (r * w + c)%nat with
        | Some v => Ok v
        | None => Raise (IndexError "index out of bounds")
        end
      else Raise (IndexError "index out of bounds")
  | _ => Raise (IndexError "too many indices for array")
  end.

(** The rows of a [h] x [w] array. *)
Fixpoint rows {A : Type} (h w : nat) (l : list A) : list (list A) :=
  match h with
  | O => []
  | S h' => take w l :: rows h' w (drop w l)
  end.

(** Padding of the elements of an array of shape [sh] by one cell of
    value [c] at both ends of every axis. *)
Fixpoint pad_data {A : Type} (c : A) (sh : list nat) (l : list A) : list A :=
  match sh with
  | [] => l
  | n :: sh' =>
      let block := size_of (map (fun k => S (S k)) sh') in
      replicate block c
      ++ concat (map (pad_data c sh') (rows n (size_of sh') l))
      ++ replicate block c
  end.

(** [np.pad(a, pad_width=1, mode='constant', constant_values=c)]: a new
    array with one more cell on every side. *)
Definition pad1 {A : Type} (c : A) (a : ndarray A) : ndarray A :=
  mk_ndarray (map (fun k => S (S k)) (shape a)) (pad_data c (shape a) (data a)).

End Np.
Import Np.

(** ** The operator and its properties *)

Record operator : Type := mk_operator {
  use_cube : bool;
  depth_scale : Q
}.

(** The bounds of the [depth_scale] property ([min=0.001], [max=1000.0]):
    Blender clamps the property into them. *)
Definition depth_scale_valid (self : operator) : Prop :=
  1 # 1000 <= depth_scale self /\ depth_scale self <= 1000.

(** ** process_depth_array

    The function as it runs on an array of each dtype.  On an int64
    array [np.nan_to_num] returns a copy, the subtractions are int64
    subtractions and the division gives a float64 array; when the
    normalisation is skipped the array is still int64 and
    [depth_array *= self.depth_scale] raises. *)

Definition process_depth_array (self : operator) (depth_array : nparray)
  : res (ndarray float) :=
  match depth_array with
  | Float64 depth_array =>
      let depth_array := nan_to_num depth_array in
      depth_min ← Np.min depth_array;
      depth_max ← Np.max depth_array;
      let depth_array :=
        if float_ltb (Fin 0) (fsub depth_max depth_min)
        then amap (fun v => fdiv (fsub v depth_min) (fsub depth_max depth_min))
               depth_array
        else depth_array in
      Ok (amap (fun v => fmul v (Fin (depth_scale self))) depth_array)
  | Int64 depth_array =>
      depth_min ← Np.imin depth_array;
      depth_max ← Np.imax depth_array;
      if (0 <? wrap64 (depth_max - depth_min))%Z
      then
        let depth_array :=
          amap (fun v => fdiv (of_int (wrap64 (v - depth_min)))
                              (of_int (wrap64 (depth_max - depth_min))))
            depth_array in
        Ok (amap (fun v => fmul v (Fin (depth_scale self))) depth_array)
      else Raise cast_error
  end.

(** ** Python control structures *)

(** [try: c  except: h] *)
Definition try_except {A : Type} (c : res A) (h : exn -> res A) : res A :=
  match c with
  | Ok a => Ok a
  | Raise e => h e
  end.

(** [for a in l: s = body a s] *)
Fixpoint for_in {S A : Type} (l : list A) (body : A -> S -> res S) (s : S)
  : res S :=
  match l with
  | [] => Ok s
  | a :: l' => s' ← body a s; for_in l' body s'
  end.

(** [range(start, stop)] for bounds that are not negative; a stop below
    the start gives the empty range, as in Python. *)
Definition range (start stop : nat) : list nat := seq start (stop - start).

(** The integer [n] as a number. *)
Definition Qnat (n : nat) : Q := inject_Z (Z.of_nat n).

(** ** bmesh *)

(** A vertex: [x] and [y] are computed from the grid position, [z] is an
    element of the array. *)
Record vertex : Type := mk_vertex { vx : Q; vy : Q; vz : float }.

(** A face is the sequence of its vertices; a vertex of a mesh
    ([BMVert]) is named by its index in [verts]. *)
Definition face : Type := list nat.

Record bmesh : Type := mk_bmesh {
  verts : list vertex;
  faces : list face
}.

(** [bmesh.new()] *)
Definition bmesh_new : bmesh := mk_bmesh [] [].

(** [bm.verts.new(co)] *)
Definition verts_new (co : vertex) (bm : bmesh) : bmesh :=
  mk_bmesh (verts bm ++ [co]) (faces bm).

(** [bm.verts[i]], after [ensure_lookup_table]. *)
Definition verts_getitem (bm : bmesh) (i : nat) : res nat :=
  if (i <? length (verts bm))%nat then Ok i
  else Raise (IndexError "BMElemSeq[index]: index out of range").

(** ** The scene and the operator's reports *)

Inductive level : Type := ERROR | INFO.

Inductive status : Type := FINISHED | CANCELLED.

Record object : Type := mk_object {
  obj_name : string;
  obj_mesh : bmesh;
  selected : bool
}.

Record world : Type := mk_world {
  objects : list object;
  active : option nat;
  reports : list (level * string)
}.

(** The calls of [execute] that change the selection. *)
Inductive host_call : Type :=
| SelectAll
| SelectSet
| SetActive.

(** A command runs in the scene and returns or raises; what it did to
    the scene before raising stays done. *)
Definition cmd (A : Type) : Type := world -> res A * world.

Definition ret {A : Type} (a : A) : cmd A := fun w => (Ok a, w).

Definition lift {A : Type} (c : res A) : cmd A := fun w => (c, w).

Definition seq_cmd {A B : Type} (c : cmd A) (k : A -> cmd B) : cmd B :=
  fun w =>
    match c w with
    | (Ok a, w') => k a w'
    | (Raise e, w') => (Raise e, w')
    end.

(** [try: c  except Exception as e: h e] *)
Definition try_cmd {A : Type} (c : cmd A) (h : exn -> cmd A) : cmd A :=
  fun w =>
    match c w with
    | (Ok a, w') => (Ok a, w')
    | (Raise e, w') => h e w'
    end.

(** [self.report({level}, msg)] *)
Definition report (l : level) (msg : string) : cmd unit :=
  fun w => (Ok tt, mk_world (objects w) (active w) (reports w ++ [(l, msg)])).

(** [bm.to_mesh(mesh)] for the mesh of object [obj]. *)
Definition to_mesh (bm : bmesh) (obj : nat) : cmd unit :=
  fun w => (Ok tt,
            mk_world (alter (fun o => mk_object (obj_name o) bm (selected o))
                            obj (objects w))
                     (active w) (reports w)).

(** [obj.name] *)
Definition name_of (obj : nat) : cmd string :=
  fun w => (Ok (from_option obj_name "" (objects w !! obj)), w).

(** What [np.load] returns: an array, or an archive of named arrays. *)
Inductive npfile : Type :=
| NpyArray (a : nparray)
| NpzFile (entries : list (string * nparray)).

(** [data[key]] for an archive. *)
Fixpoint npz_getitem (entries : list (string * nparray)) (key : string)
  : res nparray :=
  match entries with
  | [] => Raise (KeyError (key ++ " is not a file in the archive"))
  | (k, a) :: entries' =>
      if String.eqb k key then Ok a else npz_getitem entries' key
  end.

(** [data.files[0]] *)
Definition first_key (entries : list (string * nparray)) : res string :=
  match map fst entries with
  | [] => Raise (IndexError "list index out of range")
  | k :: _ => Ok k
  end.

Section Importer.

(** Blender decides whether [faces.new] raises (too few vertices, a
    vertex used twice, a face that exists already); [None] means the
    face is created. *)
Variable faces_new_error : bmesh -> face -> option exn.

(** Blender names the object: [unique_name name w] is the name that an
    object made under [name] gets in the scene [w]. *)
Variable unique_name : string -> world -> string.

(** Blender decides whether a call that changes the selection raises in
    the scene it is made in. *)
Variable host_error : host_call -> world -> option exn.

#[local] Instance cmd_ret : MRet cmd := @ret.
#[local] Instance cmd_bind : MBind cmd := fun _ _ k c => seq_cmd c k.

(** [bm.faces.new(vs)] *)
Definition faces_new (bm : bmesh) (vs : face) : res bmesh :=
  match faces_new_error bm vs with
  | Some e => Raise e
  | None => Ok (mk_bmesh (verts bm) (faces bm ++ [vs]))
  end.

(** [height, width = depth_array.shape] *)
Definition unpack_shape {A : Type} (a : ndarray A) : res (nat * nat) :=
  match shape a with
  | [h; w] => Ok (h, w)
  | _ :: _ :: _ :: _ =>
      Raise (ValueError "too many values to unpack (expected 2)")
  | _ => Raise (ValueError "not enough values to unpack (expected 2)")
  end.

Definition mesh_size (height width : nat) : Q * Q :=
  let mesh_width := 1 in
  let mesh_height := 1 in
  if (height <? width)%nat then (mesh_width, Qnat height / Qnat width)
  else if (width <? height)%nat then (Qnat width / Qnat height, mesh_height)
  else (mesh_width, mesh_height).

Definition x_norm (width : nat) (mesh_width : Q) (x : nat) : Q :=
  if (1 <? width)%nat then Qnat x / Qnat (width - 1) * mesh_width else 0.

Definition y_norm (height : nat) (mesh_height : Q) (y : nat) : Q :=
  if (1 <? height)%nat then Qnat y / Qnat (height - 1) * mesh_height else 0.

(** Body of the vertex loop. *)
Definition add_vertex (depth_array : ndarray float) (height width : nat)
    (mesh_width mesh_height : Q) (y x : nat) (mesh : bmesh) : res bmesh :=
  z ← getitem2 depth_array (height - 1 - y) x;
  Ok (verts_new (mk_vertex (x_norm width mesh_width x - (1 # 2))
                           (y_norm height mesh_height y - (1 # 2)) z) mesh).

(** Body of the face loop: the [try] block with its bare [except]. *)
Definition add_quad (width : nat) (y x : nat) (mesh : bmesh) : res bmesh :=
  let v1 := (y * width + x)%nat in
  let v2 := (y * width + (x + 1))%nat in
  let v3 := ((y + 1) * width + (x + 1))%nat in
  let v4 := ((y + 1) * width + x)%nat in
  try_except
    (a ← verts_getitem mesh v1;
     b ← verts_getitem mesh v2;
     c ← verts_getitem mesh v3;
     d ← verts_getitem mesh v4;
     faces_new mesh [a; b; c; d])
    (fun _ => Ok mesh).

Definition create_depthmap_bmesh (depth_array : ndarray float) : res bmesh :=
  '(height, width) ← unpack_shape depth_array;
  let mesh := bmesh_new in
  let '(mesh_width, mesh_height) := mesh_size height width in
  mesh ← for_in (range 0 height) (fun y =>
            for_in (range 0 width)
              (add_vertex depth_array height width mesh_width mesh_height y))
          mesh;
  mesh ← for_in (range 0 (height - 1)) (fun y =>
            for_in (range 0 (width - 1)) (add_quad width y))
          mesh;
  Ok mesh.

(** [base_verts.append(bm.verts[i])] *)
Definition append_vert (bm : bmesh) (i : nat) (base_verts : face) : res face :=
  v ← verts_getitem bm i;
  Ok (base_verts ++ [v]).

(** The four loops of [create_cube_mesh] that collect the vertices of
    the base face.  [height] and [width] are those of the padded array,
    so both are at least 2 and [height - 1] is not negative. *)
Definition collect_base_verts (bm : bmesh) (height width : nat) : res face :=
  let base_verts := [] in
  base_verts ← for_in (range 0 (height - 1))
    (fun y => append_vert bm (y * width)) base_verts;
  base_verts ← for_in (range 1 (width - 1))
    (fun x => append_vert bm ((height - 1) * width + x)) base_verts;
  base_verts ← for_in (rev (range 0 (height - 2)))
    (fun y => append_vert bm (y * width + (width - 1))) base_verts;
  base_verts ← for_in (rev (range 1 (width - 2)))
    (fun x => append_vert bm x) base_verts;
  Ok base_verts.

(** [bpy.data.meshes.new(name)], [bpy.data.objects.new(name, mesh)] and
    [context.collection.objects.link(obj)]: a new object with an empty
    mesh, referred to by its position in the scene.  Its name is the one
    Blender gives it. *)
Definition new_object (name : string) : cmd nat :=
  fun w => (Ok (length (objects w)),
            mk_world (objects w ++ [mk_object (unique_name name w) bmesh_new false])
                     (active w) (reports w)).

(** A call of the host that changes the selection: it raises when the
    host says so, and makes its change to the scene otherwise. *)
Definition host_cmd (c : host_call) (change : world -> world) : cmd unit :=
  fun w =>
    match host_error c w with
    | Some e => (Raise e, w)
    | None => (Ok tt, change w)
    end.

(** [bpy.ops.object.select_all(action='DESELECT')] *)
Definition select_all_deselect : cmd unit :=
  host_cmd SelectAll (fun w =>
    mk_world (map (fun o => mk_object (obj_name o) (obj_mesh o) false)
                  (objects w))
             (active w) (reports w)).

(** [obj.select_set(True)] *)
Definition select_set (obj : nat) : cmd unit :=
  host_cmd SelectSet (fun w =>
    mk_world (alter (fun o => mk_object (obj_name o) (obj_mesh o) true)
                    obj (objects w))
             (active w) (reports w)).

(** [context.view_layer.objects.active = obj] *)
Definition set_active (obj : nat) : cmd unit :=
  host_cmd SetActive (fun w => mk_world (objects w) (Some obj) (reports w)).

(** *** create_plane_mesh *)

Definition create_plane_mesh (self : operator) (depth_array : ndarray float)
  : cmd nat :=
  obj ← new_object "DepthMap_Plane";
  bm ← lift (create_depthmap_bmesh depth_array);
  to_mesh bm obj;;
  ret obj.

(** *** create_cube_mesh *)

Definition create_cube_mesh (self : operator) (depth_array : ndarray float)
  : cmd nat :=
  base_z ← lift (Np.max depth_array);
  let depth_array := pad1 base_z depth_array in
  obj ← new_object "DepthMap_Cube";
  bm ← lift (create_depthmap_bmesh depth_array);
  '(height, width) ← lift (unpack_shape depth_array);
  base_verts ← lift (collect_base_verts bm height width);
  bm ← try_cmd (lift (faces_new bm base_verts))
        (fun e =>
           report ERROR ("Failed to create base face: " ++ str e);;
           ret bm);
  to_mesh bm obj;;
  ret obj.

(** *** execute *)

(** The body of the [try] block of [execute]; [loaded] is the outcome
    of [np.load(self.filepath)]. *)
Definition execute_body (self : operator) (loaded : res npfile) : cmd status :=
  data ← lift loaded;
  depth_array ←
    match data with
    | NpzFile entries =>
        array_key ← lift (first_key entries);
        lift (npz_getitem entries array_key)
    | NpyArray a => ret a
    end;
  if negb (ndim_of depth_array =? 2)%nat then
    report ERROR "Depth map must be 2D";;
    ret CANCELLED
  else
    depth_array ← lift (process_depth_array self depth_array);
    mesh_obj ←
      (if use_cube self then create_cube_mesh self depth_array
       else create_plane_mesh self depth_array);
    select_all_deselect;;
    select_set mesh_obj;;
    set_active mesh_obj;;
    name ← name_of mesh_obj;
    report INFO ("Successfully imported " ++ name);;
    ret FINISHED.

Definition execute (self : operator) (loaded : res npfile) : cmd status :=
  try_cmd (execute_body self loaded)
    (fun e =>
       report ERROR ("Failed to import: " ++ str e);;
       ret CANCELLED).

End Importer.

(** ** process_depth_array on array objects

    [process_depth_array] above computes with array values.  Here the
    arrays are objects in a store and the function receives and returns
    references, so that what it allocates and what it updates in place
    ([depth_array *= self.depth_scale]) is explicit. *)

Module Store.

(** The store: array objects, referred to by their position. *)
Abbreviation heap := (list nparray).

(** A new object; its reference is the next free position. *)
Definition alloc (o : nparray) (h : heap) : nat * heap :=
  (length h, h ++ [o]).

(** [np.nan_to_num(a)]: the new array. *)
Definition nan_to_num_obj (o : nparray) : nparray :=
  match o with
  | Float64 a => Float64 (nan_to_num a)
  | Int64 a => Int64 a
  end.

(** [a *= s] for a Python float [s]: the object itself is updated, or
    the product is refused and the object stays as it is. *)
Definition imul (s : Q) (o : nparray) : res nparray :=
  match o with
  | Float64 a => Ok (Float64 (amap (fun v => fmul v (Fin s)) a))
  | Int64 _ => Raise cast_error
  end.

(** The normalisation of the array [o]: [None] when it is skipped, the
    new array otherwise. *)
Definition normalised (o : nparray) : res (option nparray) :=
  match o with
  | Float64 a =>
      depth_min ← Np.min a;
      depth_max ← Np.max a;
      Ok (if float_ltb (Fin 0) (fsub depth_max depth_min)
          then Some (Float64
                 (amap (fun v => fdiv (fsub v depth_min)
                                      (fsub depth_max depth_min)) a))
          else None)
  | Int64 a =>
      depth_min ← Np.imin a;
      depth_max ← Np.imax a;
      Ok (if (0 <? wrap64 (depth_max - depth_min))%Z
          then Some (Float64
                 (amap (fun v => fdiv (of_int (wrap64 (v - depth_min)))
                                      (of_int (wrap64 (depth_max - depth_min))))
                    a))
          else None)
  end.

(** [None] only for a reference to no object, which Python does not
    have. *)
Definition process_depth_array_ref (self : operator) (depth_array : nat)
    (h : heap) : option (res nat * heap) :=
  o ← h !! depth_array;
  let '(depth_array, h) := alloc (nan_to_num_obj o) h in
  o ← h !! depth_array;
  match normalised o with
  | Raise e => Some (Raise e, h)
  | Ok n =>
      let '(depth_array, h) :=
        match n with
        | Some o' => alloc o' h
        | None => (depth_array, h)
        end in
      o ← h !! depth_array;
      match imul (depth_scale self) o with
      | Raise e => Some (Raise e, h)
      | Ok o' => Some (Ok depth_array, <[depth_array := o']> h)
      end
  end.

End Store.

(** ** What the statements below speak of *)

(** A 2-dimensional array of [height] rows and [width] columns. *)
Definition is_2d {A : Type} (a : ndarray A) (height width : nat) : Prop :=
  shape a = [height; width] /\ wf a.

(** Equality of IEEE values as numbers; NaN is equal to nothing. *)
Definition feq (x y : float) : Prop :=
  match x, y with
  | Fin a, Fin b => a == b
  | PInf, PInf | NInf, NInf => True
  | _, _ => False
  end.

(** Every element is zero. *)
Definition all_zero (a : ndarray float) : Prop :=
  Forall (fun v => feq v (Fin 0)) (data a).

(** Every element, once made finite, has the value [c]. *)
Definition constant_array (c : Q) (a : ndarray float) : Prop :=
  Forall (fun v => nan_to_num_elt v == c) (data a).

(** The elements of the array once [np.nan_to_num] made them finite. *)
Definition finite_values (a : ndarray float) : list Q :=
  map nan_to_num_elt (data a).

(** Minimum and maximum of a list of finite numbers. *)
Definition list_min (x : Q) (l : list Q) : Q := fold_left Qmin l x.
Definition list_max (x : Q) (l : list Q) : Q := fold_left Qmax l x.

(** The array of shape [sh] with the finite values [l]. *)
Definition finite_array (sh : list nat) (l : list Q) : ndarray float :=
  mk_ndarray sh (map Fin l).

(** The finite values of the array go from [lo] to [hi], which are not
    equal, and their difference is in the range of float64: the
    normalisation is done and does not overflow. *)
Definition normalisable (a : ndarray float) (lo hi : Q) : Prop :=
  Np.min (nan_to_num a) = Ok (Fin lo) /\ Np.max (nan_to_num a) = Ok (Fin hi) /\
  lo < hi /\ hi - lo <= float_max.

(** No element is NaN. *)
Definition no_nan (a : ndarray float) : Prop :=
  Forall (fun v => v <> NaN) (data a).

(** The array that [execute] takes from what [np.load] returned: the
    array itself, or the first array of the archive. *)
Definition selects (loaded : npfile) (a : nparray) : Prop :=
  loaded = NpyArray a \/ exists k rest, loaded = NpzFile ((k, a) :: rest).

(** An array that numpy can build, whatever its dtype. *)
Definition wf_array (a : nparray) : Prop :=
  match a with
  | Float64 a => wf a
  | Int64 a => wf a
  end.

(** Every array of what [np.load] returned is one numpy can build. *)
Definition loaded_wf (loaded : res npfile) : Prop :=
  match loaded with
  | Ok (NpyArray a) => wf_array a
  | Ok (NpzFile entries) => Forall (fun e => wf_array e.2) entries
  | Raise _ => True
  end.

(** The numbers of [l] go from [lo] to [hi]: both are reached and none
    is outside. *)
Definition spans (l : list Q) (lo hi : Q) : Prop :=
  (exists v, In v l /\ v == lo) /\ (exists v, In v l /\ v == hi) /\
  (forall v, In v l -> lo <= v <= hi).

(** [spans], as a test. *)
Definition spansb (l : list Q) (lo hi : Q) : bool :=
  existsb (fun v => Qeq_bool v lo) l && existsb (fun v => Qeq_bool v hi) l &&
  forallb (fun v => Qle_bool lo v && Qle_bool v hi) l.

(** The host's refusals.  The comment of the face loop gives the reasons
    for which [faces.new] can raise: "Face might already exist or be
    degenerate".  A host refuses as documented when it refuses a face
    only for these reasons: fewer than three vertices, a vertex used
    twice, or all its vertices belonging to one face that exists. *)
Definition refuses_as_documented
    (faces_new_error : bmesh -> face -> option exn) : Prop :=
  forall m q e,
    faces_new_error m q = Some e ->
    (length q < 3)%nat \/ ~ NoDup q \/
    exists f, In f (faces m) /\ forall v, In v q -> In v f.

(** A host whose calls on the selection do not raise. *)
Definition selection_works (host_error : host_call -> world -> option exn)
  : Prop :=
  forall c w, host_error c w = None.

(** [obj_mesh] and [obj_name] kept, the object not selected. *)
Definition deselected (o : object) : object :=
  mk_object (obj_name o) (obj_mesh o) false.

(** The name under which [execute] asks for the object. *)
Definition object_name (self : operator) : string :=
  if use_cube self then "DepthMap_Cube" else "DepthMap_Plane".

(** ** Closed forms of the loops

    What the loops of [create_depthmap_bmesh] and [create_cube_mesh]
    build, written without loops; the lemmas of the properties part
    relate each of them to the code. *)

(** The vertex made for grid position [(x, y)]. *)
Definition grid_vertex (a : ndarray float) (height width y x : nat) : vertex :=
  mk_vertex
    (x_norm width (mesh_size height width).1 x - (1 # 2))
    (y_norm height (mesh_size height width).2 y - (1 # 2))
    (default (Fin 0) (data a !! ((height - 1 - y) * width + x)%nat)).

Definition grid_row (a : ndarray float) (height width y : nat) : list vertex :=
  grid_vertex a height width y <$> range 0 width.

Definition grid_verts (a : ndarray float) (height width : nat) : list vertex :=
  mjoin (grid_row a height width <$> range 0 height).

(** The quad whose first corner is grid position [(x, y)]. *)
Definition quad (width y x : nat) : face :=
  [(y * width + x)%nat; (y * width + (x + 1))%nat;
   ((y + 1) * width + (x + 1))%nat; ((y + 1) * width + x)%nat].

(** The quads in the order in which the face loop makes them. *)
Definition grid_quads (height width : nat) : list face :=
  mjoin ((fun y => quad width y <$> range 0 (width - 1))
         <$> range 0 (height - 1)).

(** One attempt at a face: the mesh with the face, or the mesh as it was
    when Blender refuses the face. *)
Definition attempt (faces_new_error : bmesh -> face -> option exn)
    (m : bmesh) (q : face) : bmesh :=
  match faces_new_error m q with
  | Some _ => m
  | None => mk_bmesh (verts m) (faces m ++ [q])
  end.

(** Every face of [qs] attempted in turn. *)
Definition attempt_all (faces_new_error : bmesh -> face -> option exn)
    (m : bmesh) (qs : list face) : bmesh :=
  fold_left (attempt faces_new_error) qs m.

(** The indices that the four loops of [create_cube_mesh] collect. *)
Definition base_vert_indices (height width : nat) : list nat :=
  ((fun y => (y * width)%nat) <$> range 0 (height - 1))
  ++ ((fun x => ((height - 1) * width + x)%nat) <$> range 1 (width - 1))
  ++ ((fun y => (y * width + (width - 1))%nat) <$> rev (range 0 (height - 2)))
  ++ rev (range 1 (width - 2)).

(** Index [i] is a vertex on the outer border of a [height] x [width]
    grid stored row by row. *)
Definition on_border (height width i : nat) : bool :=
  (i <? height * width)%nat &&
  ((i / width =? 0)%nat || (i / width =? height - 1)%nat ||
   (i mod width =? 0)%nat || (i mod width =? width - 1)%nat).

(** The border vertices of the grid, by increasing index. *)
Definition border_indices (height width : nat) : list nat :=
  filter (fun i => on_border height width i = true) (seq 0 (height * width)).

(** The mesh of the top surface of a [height] x [width] array: the
    vertices of the grid, and every quad of the grid attempted in turn. *)
Definition grid_mesh (faces_new_error : bmesh -> face -> option exn)
    (a : ndarray float) (height width : nat) : bmesh :=
  attempt_all faces_new_error (mk_bmesh (grid_verts a height width) [])
    (grid_quads height width).

(** The reports of the base face: an error when Blender refuses it. *)
Definition base_face_reports (e : option exn) : list (level * string) :=
  match e with
  | Some e => [(ERROR, ("Failed to create base face: " ++ str e)%string)]
  | None => []
  end.

(** The report and the status with which [execute] answers an
    exception. *)
Definition cancelled (e : exn) (w : world) : res status * world :=
  (Ok CANCELLED,
   mk_world (objects w) (active w)
     (reports w ++ [(ERROR, ("Failed to import: " ++ str e)%string)])).

(** The end of [execute] once the mesh object [obj] is in the scene:
    the three calls on the selection in turn, each of which can raise,
    and the report of the import. *)
Definition select_imported (host_error : host_call -> world -> option exn)
    (obj : nat) (w : world) : res status * world :=
  match host_error SelectAll w with
  | Some e => cancelled e w
  | None =>
      let w1 := mk_world (deselected <$> objects w) (active w) (reports w) in
      match host_error SelectSet w1 with
      | Some e => cancelled e w1
      | None =>
          let w2 := mk_world
                      (alter (fun o => mk_object (obj_name o) (obj_mesh o) true)
                         obj (objects w1))
                      (active w1) (reports w1) in
          match host_error SetActive w2 with
          | Some e => cancelled e w2
          | None =>
              (Ok FINISHED,
               mk_world (objects w2) (Some obj)
                 (reports w2
                  ++ [(INFO, ("Successfully imported "
                              ++ from_option obj_name "" (objects w2 !! obj))%string)]))
          end
      end
  end.

(** What can be said of every run of [execute] in the scene [w]. *)
Definition outcome (host_error : host_call -> world -> option exn)
    (w : world) (r : res status * world) : Prop :=
  exists st w',
    r = (Ok st, w') /\
    (st = CANCELLED -> exists msg, last (reports w') = Some (ERROR, msg)) /\
    (st = FINISHED ->
       length (objects w') = S (length (objects w)) /\
       active w' = Some (length (objects w)) /\
       exists msg, last (reports w') = Some (INFO, msg)) /\
    (objects w' = objects w \/
     length (objects w') = S (length (objects w))) /\
    (selection_works host_error -> st = CANCELLED ->
       objects w' = objects w /\ active w' = active w /\
       exists msg, reports w' = reports w ++ [(ERROR, msg)]).

(** ** Blender's answers in the examples *)

Fixpoint has_dup (f : face) : bool :=
  match f with
  | [] => false
  | v :: f' => existsb (Nat.eqb v) f' || has_dup f'
  end.

(** The same vertices, in any order. *)
Definition same_face (f g : face) : bool :=
  (length f =? length g)%nat && forallb (fun v => existsb (Nat.eqb v) g) f.

(** [faces.new] as Blender documents it: it raises on fewer than three
    vertices, on a vertex used twice and on a face that exists. *)
Definition blender_faces_new_error (m : bmesh) (q : face) : option exn :=
  if (length q <? 3)%nat then
    Some (ValueError "faces.new(verts): sequence expected at least 3 items")
  else if has_dup q then
    Some (ValueError
            "faces.new(verts): found the same (BMVert) used multiple times")
  else if existsb (same_face q) (faces m) then
    Some (ValueError "faces.new(verts): face already exists")
  else None.

(** A host that refuses every face of more than four vertices. *)
Definition quads_only (m : bmesh) (q : face) : option exn :=
  if (4 <? length q)%nat then Some (ValueError "faces.new(): face refused")
  else None.

(** A host that refuses the quad at the origin of the grid and accepts
    every other face. *)
Definition refuse_first_quad (m : bmesh) (q : face) : option exn :=
  match q with
  | O :: _ => Some (ValueError "faces.new(): face refused")
  | _ => None
  end.

(** The decimal digit [d] as a string. *)
Definition digit (d : nat) : string :=
  String (ascii_of_nat (48 + d mod 10)) EmptyString.

(** The suffix that Blender tries as number [n]: .001, .002, ... *)
Definition name_suffix (n : nat) : string :=
  ("." ++ digit (n / 100) ++ digit (n / 10) ++ digit n)%string.

Definition name_taken (name : string) (w : world) : bool :=
  existsb (fun o => String.eqb (obj_name o) name) (objects w).

(** Names as Blender gives them to objects asked for under a name
    without a suffix: the name itself when no object has it, else the
    name with the first suffix that is free. *)
Definition blender_unique_name (name : string) (w : world) : string :=
  if name_taken name w then
    from_option (fun n => (name ++ name_suffix n)%string) name
      (List.find (fun n => negb (name_taken (name ++ name_suffix n)%string w))
         (seq 1 (S (length (objects w)))))
  else name.

(** Object Mode: no call on the selection raises. *)
Definition object_mode (c : host_call) (w : world) : option exn := None.

(** Edit Mode: the operator [select_all] is not available. *)
Definition edit_mode (c : host_call) (w : world) : option exn :=
  match c with
  | SelectAll =>
      Some (RuntimeError
        "Operator bpy.ops.object.select_all.poll() failed, context is incorrect")
  | _ => None
  end.

(** ** Inputs of the examples *)

(** The scene before the import. *)
Definition empty_world : world := mk_world [] None [].

(** The array [[5, 5], [5, 5]] of the spec's example, as float64 and as
    int64. *)
Definition flat_fives : ndarray float :=
  mk_ndarray [2%nat; 2%nat] [Fin 5; Fin 5; Fin 5; Fin 5].

Definition flat_fives_int : ndarray Z :=
  mk_ndarray [2%nat; 2%nat] [5; 5; 5; 5]%Z.

Definition unit_scale (cube : bool) : operator := mk_operator cube 1.



(** [[0, 1], [1, 0]], [[0]], [[7]], a 2 x 4 and a 2 x 3 array of zeros,
    and an array of shape (0, 3). *)
Definition checker : ndarray float :=
  mk_ndarray [2%nat; 2%nat] [Fin 0; Fin 1; Fin 1; Fin 0].

Definition one_cell : ndarray float := mk_ndarray [1%nat; 1%nat] [Fin 0].

Definition one_cell_raw : ndarray float := mk_ndarray [1%nat; 1%nat] [Fin 7].

Definition zeros_2x4 : ndarray float :=
  mk_ndarray [2%nat; 4%nat] (replicate 8 (Fin 0)).

Definition zeros_2x3 : ndarray float :=
  mk_ndarray [2%nat; 3%nat] (replicate 6 (Fin 0)).

Definition no_rows : ndarray float := mk_ndarray [0%nat; 3%nat] [].

(** A 3-dimensional array with one element. *)
Definition cube_1x1x1 : ndarray float :=
  mk_ndarray [1%nat; 1%nat; 1%nat] [Fin 0].

(** A store with one loaded array, [[0, 1], [1, 0]], at reference 0. *)
Definition one_array_heap : Store.heap := [Float64 checker].

(** An archive with a 1-dimensional array first and a 2 x 2 array
    second. *)
Definition vector_first : npfile :=
  NpzFile [("v", Float64 (mk_ndarray [2%nat] [Fin 1; Fin 2]));
           ("depth", Float64 checker)].

(** A scene that has an object named DepthMap_Plane already. *)
Definition one_plane_world : world :=
  mk_world [mk_object "DepthMap_Plane" bmesh_new false] None [].

(** * Properties *)

(** ** Minimum and maximum of a list of numbers *)

Lemma Qltb_lt (x y : Q) : Qltb x y = true <-> x < y.
Proof.
  unfold Qltb. rewrite Qlt_alt. destruct (x ?= y); split; congruence.
Qed.

Lemma Qltb_ge (x y : Q) : Qltb x y = false <-> y <= x.
Proof.
  split; intros H.
  - apply Qnot_lt_le. intros Hlt. apply Qltb_lt in Hlt. congruence.
  - destruct (Qltb x y) eqn:E; [|reflexivity].
    apply Qltb_lt in E. exfalso. exact (Qlt_not_le _ _ E H).
Qed.

Lemma Qmin_cases (x y : Q) : (Qmin x y = x /\ x <= y) \/ (Qmin x y = y /\ y <= x).
Proof.
  unfold Qmin, GenericMinMax.gmin.
  destruct (x ?= y) eqn:E.
  - left. split; [reflexivity|]. apply Qeq_alt in E. rewrite E. apply Qle_refl.
  - left. split; [reflexivity|]. apply Qlt_alt in E. apply Qlt_le_weak, E.
  - right. split; [reflexivity|]. apply Qgt_alt in E. apply Qlt_le_weak, E.
Qed.

Lemma Qmax_cases (x y : Q) : (Qmax x y = y /\ x <= y) \/ (Qmax x y = x /\ y <= x).
Proof.
  unfold Qmax, GenericMinMax.gmax.
  destruct (x ?= y) eqn:E.
  - right. split; [reflexivity|]. apply Qeq_alt in E. rewrite E. apply Qle_refl.
  - left. split; [reflexivity|]. apply Qlt_alt in E. apply Qlt_le_weak, E.
  - right. split; [reflexivity|]. apply Qgt_alt in E. apply Qlt_le_weak, E.
Qed.

(** The minimum is an element of the list and a lower bound of it. *)
Lemma list_min_spec (l : list Q) (x : Q) :
  In (list_min x l) (x :: l) /\ (forall v, In v (x :: l) -> list_min x l <= v).
Proof.
  revert x. induction l as [|y l IH]; intros x; simpl.
  - split; [now left|]. intros v [<-|[]]. apply Qle_refl.
  - destruct (IH (Qmin x y)) as [Hin Hle]. fold (list_min (Qmin x y) l) in *.
    split.
    + destruct Hin as [Hin|Hin]; [|now right; right].
      rewrite <- Hin.
      destruct (Qmin_cases x y) as [[-> _]|[-> _]]; [now left|now right; left].
    + intros v Hv.
      assert (Hm : list_min (Qmin x y) l <= Qmin x y) by (apply Hle; now left).
      destruct Hv as [<-|[<-|Hv]].
      * eapply Qle_trans; [exact Hm|].
        destruct (Qmin_cases x y) as [[-> ?]|[-> ?]]; [apply Qle_refl|assumption].
      * eapply Qle_trans; [exact Hm|].
        destruct (Qmin_cases x y) as [[-> ?]|[-> ?]]; [assumption|apply Qle_refl].
      * apply Hle. now right.
Qed.

(** The maximum is an element of the list and an upper bound of it. *)
Lemma list_max_spec (l : list Q) (x : Q) :
  In (list_max x l) (x :: l) /\ (forall v, In v (x :: l) -> v <= list_max x l).
Proof.
  revert x. induction l as [|y l IH]; intros x; simpl.
  - split; [now left|]. intros v [<-|[]]. apply Qle_refl.
  - destruct (IH (Qmax x y)) as [Hin Hle]. fold (list_max (Qmax x y) l) in *.
    split.
    + destruct Hin as [Hin|Hin]; [|now right; right].
      rewrite <- Hin.
      destruct (Qmax_cases x y) as [[-> _]|[-> _]]; [now right; left|now left].
    + intros v Hv.
      assert (Hm : Qmax x y <= list_max (Qmax x y) l) by (apply Hle; now left).
      destruct Hv as [<-|[<-|Hv]].
      * eapply Qle_trans; [|exact Hm].
        destruct (Qmax_cases x y) as [[-> ?]|[-> ?]]; [assumption|apply Qle_refl].
      * eapply Qle_trans; [|exact Hm].
        destruct (Qmax_cases x y) as [[-> ?]|[-> ?]]; [apply Qle_refl|assumption].
      * apply Hle. now right.
Qed.

(** A monotone function commutes with the minimum and the maximum. *)
Lemma list_min_map (f : Q -> Q) (x : Q) (l : list Q) :
  (forall u v, In u (x :: l) -> In v (x :: l) -> u <= v -> f u <= f v) ->
  list_min (f x) (map f l) == f (list_min x l).
Proof.
  intros Hmono.
  destruct (list_min_spec l x) as [Hin Hle].
  destruct (list_min_spec (map f l) (f x)) as [Hin' Hle'].
  apply Qle_antisym.
  - apply Hle'. change (In (f (list_min x l)) (map f (x :: l))).
    apply in_map, Hin.
  - change (In (list_min (f x) (map f l)) (map f (x :: l))) in Hin'.
    apply in_map_iff in Hin' as (v & <- & Hv).
    apply Hmono; [exact Hin|exact Hv|apply Hle, Hv].
Qed.

Lemma list_max_map (f : Q -> Q) (x : Q) (l : list Q) :
  (forall u v, In u (x :: l) -> In v (x :: l) -> u <= v -> f u <= f v) ->
  list_max (f x) (map f l) == f (list_max x l).
Proof.
  intros Hmono.
  destruct (list_max_spec l x) as [Hin Hle].
  destruct (list_max_spec (map f l) (f x)) as [Hin' Hle'].
  apply Qle_antisym.
  - change (In (list_max (f x) (map f l)) (map f (x :: l))) in Hin'.
    apply in_map_iff in Hin' as (v & <- & Hv).
    apply Hmono; [exact Hv|exact Hin|apply Hle, Hv].
  - apply Hle'. change (In (f (list_max x l)) (map f (x :: l))).
    apply in_map, Hin.
Qed.

(** ** float64 *)

Lemma float_max_below_bound : float_max < overflow_bound.
Proof. vm_compute. reflexivity. Qed.

Lemma float_max_pos : 0 < float_max.
Proof. vm_compute. reflexivity. Qed.

Lemma float_max_ge_1000 : 1000 <= float_max.
Proof. vm_compute. discriminate. Qed.

(** In the range of float64 nothing overflows. *)
Lemma float_of_in_range (q : Q) :
  - float_max <= q -> q <= float_max -> float_of q = Fin q.
Proof.
  intros Hlo Hhi. unfold float_of.
  pose proof float_max_below_bound as Hb.
  destruct (Qle_bool overflow_bound q) eqn:E1.
  { apply Qle_bool_iff in E1. exfalso.
    apply (Qlt_irrefl float_max).
    eapply Qlt_le_trans; [exact Hb|]. eapply Qle_trans; eassumption. }
  destruct (Qle_bool q (- overflow_bound)) eqn:E2.
  { apply Qle_bool_iff in E2. exfalso.
    apply (Qlt_irrefl (- float_max)).
    eapply Qle_lt_trans; [exact Hlo|]. eapply Qle_lt_trans; [exact E2|].
    apply Qopp_lt_compat, Hb. }
  rewrite (proj2 (Qltb_ge float_max q) Hhi).
  rewrite (proj2 (Qltb_ge q (- float_max)) Hlo). reflexivity.
Qed.

Lemma float_of_nonneg (q : Q) :
  0 <= q -> q <= float_max -> float_of q = Fin q.
Proof.
  intros H0 H1. apply float_of_in_range; [|exact H1].
  eapply Qle_trans; [|exact H0].
  apply (Qopp_le_compat 0). apply Qlt_le_weak, float_max_pos.
Qed.

Lemma fmin_Fin (a b : Q) : fmin (Fin a) (Fin b) = Fin (Qmin a b).
Proof.
  unfold fmin, float_ltb, Qltb, Qmin, GenericMinMax.gmin.
  rewrite <- (Qcompare_antisym a b). destruct (a ?= b); reflexivity.
Qed.

Lemma fmax_Fin (a b : Q) : fmax (Fin a) (Fin b) = Fin (Qmax a b).
Proof.
  unfold fmax, float_ltb, Qltb, Qmax, GenericMinMax.gmax.
  destruct (a ?= b); reflexivity.
Qed.

Lemma fold_fmin_Fin (l : list Q) (x : Q) :
  fold_left fmin (map Fin l) (Fin x) = Fin (list_min x l).
Proof.
  revert x. induction l as [|y l IH]; intros x; [reflexivity|].
  cbn [map fold_left]. rewrite fmin_Fin. apply IH.
Qed.

Lemma fold_fmax_Fin (l : list Q) (x : Q) :
  fold_left fmax (map Fin l) (Fin x) = Fin (list_max x l).
Proof.
  revert x. induction l as [|y l IH]; intros x; [reflexivity|].
  cbn [map fold_left]. rewrite fmax_Fin. apply IH.
Qed.

(** Minimum and maximum of an array of finite numbers. *)
Lemma min_finite (sh : list nat) (x : Q) (l : list Q) :
  Np.min (mk_ndarray sh (map Fin (x :: l))) = Ok (Fin (list_min x l)).
Proof. unfold Np.min. cbn [data map]. rewrite fold_fmin_Fin. reflexivity. Qed.

Lemma max_finite (sh : list nat) (x : Q) (l : list Q) :
  Np.max (mk_ndarray sh (map Fin (x :: l))) = Ok (Fin (list_max x l)).
Proof. unfold Np.max. cbn [data map]. rewrite fold_fmax_Fin. reflexivity. Qed.

Lemma nan_to_num_data (a : ndarray float) :
  nan_to_num a = mk_ndarray (shape a) (map Fin (finite_values a)).
Proof.
  unfold nan_to_num, amap, finite_values. rewrite map_map. reflexivity.
Qed.

(** ** process_depth_array *)

(** On a float64 array with elements [process_depth_array] returns. *)
Lemma process_depth_array_unfold (self : operator) (a : ndarray float) (x : Q)
    (l : list Q) :
  finite_values a = x :: l ->
  process_depth_array self (Float64 a) =
  Ok (amap (fun v => fmul v (Fin (depth_scale self)))
        (if float_ltb (Fin 0) (float_of (list_max x l - list_min x l))
         then amap (fun v => fdiv (fsub v (Fin (list_min x l)))
                               (float_of (list_max x l - list_min x l)))
                (nan_to_num a)
         else nan_to_num a)).
Proof.
  intros H. unfold process_depth_array.
  rewrite nan_to_num_data, H, min_finite, max_finite. reflexivity.
Qed.

Lemma spread_nonneg (x : Q) (l : list Q) : 0 <= list_max x l - list_min x l.
Proof.
  destruct (list_min_spec l x) as [Hin _].
  destruct (list_max_spec l x) as [_ Hle].
  unfold Qminus. rewrite <- (Qplus_opp_r (list_min x l)).
  apply Qplus_le_compat; [apply Hle, Hin|apply Qle_refl].
Qed.

Lemma normalise_mono (m d s u v : Q) :
  0 < d -> 0 <= s -> u <= v -> (u - m) / d * s <= (v - m) / d * s.
Proof.
  intros Hd Hs Huv.
  apply Qmult_le_compat_r; [|exact Hs].
  unfold Qdiv. apply Qmult_le_compat_r.
  - unfold Qminus. apply Qplus_le_compat; [exact Huv|apply Qle_refl].
  - apply Qlt_le_weak, Qinv_lt_0_compat, Hd.
Qed.

(** The normalised value of an element of the array lies between 0 and
    the scale. *)
Lemma normalise_range (x : Q) (l : list Q) (s v : Q) :
  list_min x l < list_max x l -> 0 <= s -> In v (x :: l) ->
  0 <= v - list_min x l <= list_max x l - list_min x l /\
  0 <= (v - list_min x l) / (list_max x l - list_min x l) <= 1 /\
  0 <= (v - list_min x l) / (list_max x l - list_min x l) * s <= s.
Proof.
  intros Hlt Hs Hv.
  destruct (list_min_spec l x) as [_ Hlo].
  destruct (list_max_spec l x) as [_ Hhi].
  set (m := list_min x l) in *. set (M := list_max x l) in *.
  assert (Hd : 0 < M - m).
  { unfold Qminus. rewrite <- (Qplus_opp_r m).
    apply Qplus_lt_le_compat; [exact Hlt|apply Qle_refl]. }
  assert (H0 : 0 <= v - m).
  { unfold Qminus. rewrite <- (Qplus_opp_r m).
    apply Qplus_le_compat; [apply Hlo, Hv|apply Qle_refl]. }
  assert (H1 : v - m <= M - m).
  { unfold Qminus. apply Qplus_le_compat; [apply Hhi, Hv|apply Qle_refl]. }
  assert (Hq0 : 0 <= (v - m) / (M - m)).
  { apply Qle_shift_div_l; [exact Hd|]. rewrite Qmult_0_l. exact H0. }
  assert (Hq1 : (v - m) / (M - m) <= 1).
  { apply Qle_shift_div_r; [exact Hd|]. rewrite Qmult_1_l. exact H1. }
  split; [split; assumption|]. split; [split; assumption|]. split.
  - apply Qmult_le_0_compat; assumption.
  - rewrite <- (Qmult_1_l s) at 2. apply Qmult_le_compat_r; assumption.
Qed.

(** When the spread of the finite values is positive and does not
    overflow, and the scale is a float that is not negative, no
    operation of [process_depth_array] overflows: the result is the
    array of the normalised values, computed exactly. *)
Lemma process_depth_array_exact (self : operator) (a : ndarray float) (x : Q)
    (l : list Q) :
  finite_values a = x :: l ->
  list_min x l < list_max x l ->
  list_max x l - list_min x l <= float_max ->
  0 <= depth_scale self -> depth_scale self <= float_max ->
  process_depth_array self (Float64 a)
  = Ok (mk_ndarray (shape a)
          (map Fin
             (map (fun v => (v - list_min x l) / (list_max x l - list_min x l)
                            * depth_scale self) (x :: l)))).
Proof.
  intros E Hlt Hov Hs0 Hs1.
  rewrite (process_depth_array_unfold self a x l E).
  set (m := list_min x l) in *. set (M := list_max x l) in *.
  assert (Hd : 0 < M - m).
  { unfold Qminus. rewrite <- (Qplus_opp_r m).
    apply Qplus_lt_le_compat; [exact Hlt|apply Qle_refl]. }
  rewrite (float_of_nonneg (M - m)) by first [assumption|apply Qlt_le_weak; assumption].
  cbn [float_ltb]. rewrite (proj2 (Qltb_lt _ _) Hd).
  rewrite nan_to_num_data, E. unfold amap. cbn [shape data].
  f_equal. f_equal. rewrite !map_map. apply map_ext_in. intros v Hv.
  destruct (normalise_range x l (depth_scale self) v Hlt Hs0 Hv)
    as ([Ha0 Ha1] & [Hb0 Hb1] & [Hc0 Hc1]).
  fold m M in Ha0, Ha1, Hb0, Hb1, Hc0, Hc1.
  cbn [fsub]. rewrite (float_of_nonneg (v - m)).
  2: exact Ha0.
  2: eapply Qle_trans; [exact Ha1|exact Hov].
  cbn [fdiv].
  assert (Hne : Qeq_bool (M - m) 0 = false).
  { destruct (Qeq_bool (M - m) 0) eqn:E0; [|reflexivity].
    apply Qeq_bool_iff in E0. rewrite E0 in Hd.
    exfalso. exact (Qlt_irrefl _ Hd). }
  rewrite Hne. rewrite (float_of_nonneg ((v - m) / (M - m))).
  2: exact Hb0.
  2:{ eapply Qle_trans; [exact Hb1|].
      eapply Qle_trans; [|exact float_max_ge_1000]. discriminate. }
  cbn [fmul]. apply float_of_nonneg; [exact Hc0|].
  eapply Qle_trans; [exact Hc1|exact Hs1].
Qed.

Lemma depth_scale_valid_pos (self : operator) :
  depth_scale_valid self -> 0 < depth_scale self.
Proof.
  intros [H _]. eapply Qlt_le_trans; [|exact H]. reflexivity.
Qed.

Lemma depth_scale_valid_float (self : operator) :
  depth_scale_valid self -> depth_scale self <= float_max.
Proof.
  intros [_ H]. eapply Qle_trans; [exact H|exact float_max_ge_1000].
Qed.

(** C1: the code does not do what the claim (and the comment of the
    code, "Normalize to 0-1 range and apply scale") says of a flat
    array: the array [[5., 5.], [5., 5.]] is 2-dimensional and all its
    elements are 5, and at scale 1 it comes back with every element 5,
    not as zeros.  The normalisation is skipped and the raw values are
    multiplied by the scale. *)
Theorem flat_array_not_zeroed :
  is_2d flat_fives 2 2 /\ constant_array 5 flat_fives /\
  exists r, process_depth_array (unit_scale false) (Float64 flat_fives) = Ok r /\
            shape r = [2; 2]%nat /\
            Forall (fun v => feq v (Fin 5)) (data r) /\ ~ all_zero r.
Proof.
  split; [split; reflexivity|]. split.
  - repeat constructor.
  - eexists. split; [reflexivity|]. split; [reflexivity|]. split.
    + vm_compute. repeat constructor.
    + intros H. vm_compute in H. inversion H as [|? ? H0 _].
      discriminate H0.
Qed.




(** ** process_depth_array and the caller's array *)

Module StoreFacts.
Import Store.

Lemma alloc_lookup_old (o : nparray) (h : heap) (k : nat) (o' : nparray) :
  h !! k = Some o' -> (alloc o h).2 !! k = Some o'.
Proof.
  intros H. simpl. rewrite lookup_app_l; [exact H|].
  eapply lookup_lt_Some, H.
Qed.

Lemma alloc_lookup_new (o : nparray) (h : heap) :
  (alloc o h).2 !! (alloc o h).1 = Some o.
Proof. simpl. apply list_lookup_middle. reflexivity. Qed.

(** An update in place of an object allocated later leaves [k] as it
    was. *)
Lemma insert_lookup_old (x : nparray) (h h' : heap) (k l : nat)
    (o : nparray) :
  h !! k = Some o -> (length h <= l)%nat ->
  (forall j o', h !! j = Some o' -> h' !! j = Some o') ->
  <[l := x]> h' !! k = Some o.
Proof.
  intros Hk Hl Hext.
  rewrite list_lookup_insert_ne; [apply Hext, Hk|].
  apply lookup_lt_Some in Hk. lia.
Qed.

(** The store after [process_depth_array_ref] when the multiplication
    is done on the object at [l2] of the store [h2], which extends
    [h]. *)
Lemma scaled_in_place (self : operator) (h h2 : heap) (l l2 : nat)
    (o : nparray) (a2 : ndarray float) :
  h !! l = Some o ->
  (forall k o', h !! k = Some o' -> h2 !! k = Some o') ->
  (length h <= l2)%nat ->
  h2 !! l2 = Some (Float64 a2) ->
  exists r h',
    match imul (depth_scale self) (Float64 a2) with
    | Raise e => Some (Raise e, h2)
    | Ok o' => Some (Ok l2, <[l2 := o']> h2)
    end = Some (r, h') /\
    h' !! l = Some o /\
    (forall k o', h !! k = Some o' -> h' !! k = Some o') /\
    exists l', r = Ok l' /\ l' <> l /\ (length h <= l')%nat /\
               h' !! l' = Some (Float64
                  (amap (fun v => fmul v (Fin (depth_scale self))) a2)).
Proof.
  intros Hl Hext Hlen Hl2. cbn [imul].
  eexists. eexists. split; [reflexivity|].
  assert (Hlt : (l < length h)%nat) by (eapply lookup_lt_Some, Hl).
  split; [|split].
  - eapply insert_lookup_old; eassumption.
  - intros k o' Hk. eapply insert_lookup_old; eassumption.
  - eexists. split; [reflexivity|]. split; [lia|]. split; [exact Hlen|].
    apply list_lookup_insert_eq. eapply lookup_lt_Some, Hl2.
Qed.

End StoreFacts.

(** C10: [process_depth_array] leaves the array it was given as it was:
    every object of the store before the call, the caller's array among
    them, has the same content after the call; the reference returned is
    to an object allocated during the call, and that object holds the
    array that [process_depth_array] computes. *)
Theorem process_depth_array_keeps_input (self : operator) (h : Store.heap)
    (l : nat) (o : nparray) :
  h !! l = Some o ->
  exists r h',
    Store.process_depth_array_ref self l h = Some (r, h') /\
    h' !! l = Some o /\
    (forall k o', h !! k = Some o' -> h' !! k = Some o') /\
    match process_depth_array self o with
    | Ok a => exists l', r = Ok l' /\ l' <> l /\ (length h <= l')%nat /\
                         h' !! l' = Some (Float64 a)
    | Raise e => r = Raise e
    end.
Proof.
  intros Hl.
  unfold Store.process_depth_array_ref.
  rewrite Hl. cbn [mbind option_bind]. unfold Store.alloc at 1.
  set (o1 := Store.nan_to_num_obj o).
  set (h1 := h ++ [o1]).
  assert (Hnew : h1 !! length h = Some o1)
    by (apply list_lookup_middle; reflexivity).
  assert (Hold : forall k o', h !! k = Some o' -> h1 !! k = Some o')
    by (intros k o' Hk; exact (StoreFacts.alloc_lookup_old _ h k o' Hk)).
  assert (Hlen1 : length h1 = S (length h))
    by (unfold h1; rewrite length_app; simpl; lia).
  rewrite Hnew. cbn [mbind option_bind].
  assert (Hold2 : forall x k o', h !! k = Some o' -> (h1 ++ [x]) !! k = Some o').
  { intros x k o' Hk. rewrite lookup_app_l; [apply Hold, Hk|].
    rewrite Hlen1. apply lookup_lt_Some in Hk. lia. }
  assert (Hraise : forall e,
            exists r h', Some (Raise e, h1) = Some (r, h') /\
              h' !! l = Some o /\
              (forall k o', h !! k = Some o' -> h' !! k = Some o') /\
              r = @Raise nat e).
  { intros e. exists (Raise e), h1. repeat split; auto. }
  destruct o as [a|a]; unfold o1; cbn [Store.nan_to_num_obj Store.normalised
    process_depth_array].
  - set (a1 := nan_to_num a).
    destruct (Np.min a1) as [depth_min|e]; cbn [mbind res_bind];
      [|apply Hraise].
    destruct (Np.max a1) as [depth_max|e]; cbn [mbind res_bind];
      [|apply Hraise].
    destruct (float_ltb (Fin 0) (fsub depth_max depth_min)).
    + unfold Store.alloc. rewrite list_lookup_middle by reflexivity.
      cbn [mbind option_bind].
      apply (StoreFacts.scaled_in_place self h _ l (length h1) _ _ Hl).
      * intros k o' Hk. apply Hold2, Hk.
      * lia.
      * apply list_lookup_middle. reflexivity.
    + rewrite Hnew. cbn [mbind option_bind].
      apply (StoreFacts.scaled_in_place self h _ l (length h) _ _ Hl Hold);
        [lia|exact Hnew].
  - destruct (Np.imin a) as [depth_min|e]; cbn [mbind res_bind];
      [|apply Hraise].
    destruct (Np.imax a) as [depth_max|e]; cbn [mbind res_bind];
      [|apply Hraise].
    destruct (0 <? wrap64 (depth_max - depth_min))%Z.
    + unfold Store.alloc. rewrite list_lookup_middle by reflexivity.
      cbn [mbind option_bind].
      apply (StoreFacts.scaled_in_place self h _ l (length h1) _ _ Hl).
      * intros k o' Hk. apply Hold2, Hk.
      * lia.
      * apply list_lookup_middle. reflexivity.
    + rewrite Hnew. cbn [mbind option_bind Store.imul]. apply Hraise.
Qed.

Lemma process_depth_array_keeps_input_witness :
  exists r h',
    Store.process_depth_array_ref (unit_scale false) 0 one_array_heap
      = Some (r, h') /\
    h' !! 0%nat = Some (Float64 checker) /\
    (forall k o', one_array_heap !! k = Some o' -> h' !! k = Some o') /\
    match process_depth_array (unit_scale false) (Float64 checker) with
    | Ok a => exists l', r = Ok l' /\ l' <> 0%nat /\
                         (length one_array_heap <= l')%nat /\
                         h' !! l' = Some (Float64 a)
    | Raise e => r = Raise e
    end.
Proof.
  apply (process_depth_array_keeps_input (unit_scale false) one_array_heap 0
           (Float64 checker)).
  reflexivity.
Defined.
(** ** Loops *)

Lemma for_in_ok {S A : Type} (P : S -> Prop) (body : A -> S -> res S)
    (g : S -> A -> S) (l : list A) (s : S) :
  P s ->
  (forall a s, In a l -> P s -> body a s = Ok (g s a) /\ P (g s a)) ->
  for_in l body s = Ok (fold_left g l s) /\ P (fold_left g l s).
Proof.
  revert s. induction l as [|a l IH]; intros s Hs Hbody; simpl.
  - split; [reflexivity|exact Hs].
  - destruct (Hbody a s (or_introl eq_refl) Hs) as [-> Hs'].
    cbn [mbind res_bind]. apply IH; [exact Hs'|].
    intros a' s' Ha'. apply Hbody. now right.
Qed.

Lemma in_range (start stop i : nat) :
  In i (range start stop) <-> (start <= i < stop)%nat.
Proof. unfold range. rewrite in_seq. lia. Qed.

Lemma fold_left_join {S A : Type} (g : S -> A -> S) (ls : list (list A)) (s : S) :
  fold_left (fun s l => fold_left g l s) ls s = fold_left g (mjoin ls) s.
Proof.
  revert s. induction ls as [|l ls IH]; intros s; [reflexivity|].
  simpl. rewrite fold_left_app. apply IH.
Qed.

Lemma fold_left_fmap {S A B : Type} (g : S -> B -> S) (f : A -> B)
    (l : list A) (s : S) :
  fold_left (fun s a => g s (f a)) l s = fold_left g (f <$> l) s.
Proof.
  revert s. induction l as [|a l IH]; intros s; [reflexivity|]. simpl. apply IH.
Qed.

(** ** The vertex loop *)

Lemma is_2d_lookup {A : Type} (a : ndarray A) (height width r c : nat) :
  is_2d a height width -> (r < height)%nat -> (c < width)%nat ->
  exists v, data a !! (r * width + c)%nat = Some v /\ getitem2 a r c = Ok v.
Proof.
  intros [Hsh Hwf] Hr Hc.
  assert (Hlt : (r * width + c < length (data a))%nat).
  { rewrite Hwf, Hsh. simpl. nia. }
  destruct (lookup_lt_is_Some_2 _ _ Hlt) as [v Hv].
  exists v. split; [exact Hv|].
  unfold getitem2. rewrite Hsh.
  rewrite (proj2 (Nat.ltb_lt _ _) Hr), (proj2 (Nat.ltb_lt _ _) Hc). simpl.
  rewrite Hv. reflexivity.
Qed.

Lemma add_vertex_ok (a : ndarray float) (height width y x : nat) (m : bmesh) :
  is_2d a height width -> (y < height)%nat -> (x < width)%nat ->
  add_vertex a height width (mesh_size height width).1
    (mesh_size height width).2 y x m
  = Ok (verts_new (grid_vertex a height width y x) m).
Proof.
  intros H2 Hy Hx. unfold add_vertex.
  destruct (is_2d_lookup a height width (height - 1 - y) x H2 ltac:(lia) Hx)
    as (v & Hv & ->).
  cbn [mbind res_bind]. unfold grid_vertex. rewrite Hv. reflexivity.
Qed.

Lemma fold_verts_new (l : list vertex) (m : bmesh) :
  fold_left (fun m v => verts_new v m) l m = mk_bmesh (verts m ++ l) (faces m).
Proof.
  revert m. induction l as [|v l IH]; intros m; simpl.
  - rewrite app_nil_r. destruct m; reflexivity.
  - rewrite IH. simpl. rewrite <- app_assoc. reflexivity.
Qed.

(** The vertex loop adds the vertices of the grid, row after row. *)
Lemma vertex_loop_ok (a : ndarray float) (height width : nat) (m : bmesh) :
  is_2d a height width ->
  for_in (range 0 height) (fun y =>
    for_in (range 0 width)
      (add_vertex a height width (mesh_size height width).1
         (mesh_size height width).2 y)) m
  = Ok (mk_bmesh (verts m ++ grid_verts a height width) (faces m)).
Proof.
  intros H2.
  pose (g := fun (m : bmesh) (y : nat) =>
               fold_left (fun m v => verts_new v m) (grid_row a height width y) m).
  destruct (for_in_ok (fun _ => True) (fun y =>
    for_in (range 0 width)
      (add_vertex a height width (mesh_size height width).1
         (mesh_size height width).2 y)) g (range 0 height) m I) as [-> _].
  - intros y s Hy _. split; [|exact I]. apply in_range in Hy.
    destruct (for_in_ok (fun _ => True)
      (add_vertex a height width (mesh_size height width).1
         (mesh_size height width).2 y)
      (fun m x => verts_new (grid_vertex a height width y x) m)
      (range 0 width) s I) as [-> _].
    + intros x s' Hx _. apply in_range in Hx. split; [|exact I].
      apply add_vertex_ok; [exact H2|lia|lia].
    + unfold g, grid_row.
      rewrite (fold_left_fmap (fun m v => verts_new v m)). reflexivity.
  - unfold g.
    rewrite (fold_left_fmap (fun s l => fold_left (fun m v => verts_new v m) l s)
               (grid_row a height width)).
    rewrite fold_left_join, fold_verts_new. reflexivity.
Qed.

Lemma grid_row_length (a : ndarray float) (height width y : nat) :
  length (grid_row a height width y) = width.
Proof.
  unfold grid_row, range. rewrite length_fmap, length_seq. lia.
Qed.

Lemma grid_verts_length (a : ndarray float) (height width : nat) :
  length (grid_verts a height width) = (height * width)%nat.
Proof.
  unfold grid_verts. rewrite length_join.
  rewrite (sum_list_fmap_same width).
  - unfold range. rewrite length_fmap, length_seq. lia.
  - apply Forall_fmap, Forall_forall. intros y _. apply grid_row_length.
Qed.

Lemma grid_verts_lookup (a : ndarray float) (height width y x : nat) :
  (y < height)%nat -> (x < width)%nat ->
  grid_verts a height width !! (y * width + x)%nat
  = Some (grid_vertex a height width y x).
Proof.
  intros Hy Hx. unfold grid_verts.
  apply (join_lookup_Some_same_length' width).
  - apply Forall_fmap, Forall_forall. intros y' _. apply grid_row_length.
  - exact Hx.
  - exists (grid_row a height width y). split.
    + rewrite list_lookup_fmap. unfold range.
      rewrite lookup_seq_lt by lia. reflexivity.
    + unfold grid_row. rewrite list_lookup_fmap. unfold range.
      rewrite lookup_seq_lt by lia. reflexivity.
Qed.

(** ** The face loop *)

Section FaceLoop.

Variable faces_new_error : bmesh -> face -> option exn.

Lemma attempt_verts (m : bmesh) (q : face) :
  verts (attempt faces_new_error m q) = verts m.
Proof. unfold attempt. destruct (faces_new_error m q); reflexivity. Qed.

Lemma attempt_all_verts (qs : list face) (m : bmesh) :
  verts (attempt_all faces_new_error m qs) = verts m.
Proof.
  unfold attempt_all. revert m.
  induction qs as [|q qs IH]; intros m; [reflexivity|].
  simpl. rewrite IH. apply attempt_verts.
Qed.

Lemma verts_getitem_ok (m : bmesh) (i : nat) :
  (i < length (verts m))%nat -> verts_getitem m i = Ok i.
Proof.
  intros H. unfold verts_getitem.
  rewrite (proj2 (Nat.ltb_lt _ _) H). reflexivity.
Qed.

(** Inside the grid the four corners exist, so the only exception the
    [try] block can meet is Blender's refusal of the face. *)
Lemma add_quad_attempt (height width y x : nat) (m : bmesh) :
  length (verts m) = (height * width)%nat ->
  (y < height - 1)%nat -> (x < width - 1)%nat ->
  add_quad faces_new_error width y x m
  = Ok (attempt faces_new_error m (quad width y x)).
Proof.
  intros Hlen Hy Hx. unfold add_quad.
  rewrite !verts_getitem_ok by (rewrite Hlen; nia).
  cbn [mbind res_bind]. unfold faces_new, attempt, quad.
  destruct (faces_new_error m _); reflexivity.
Qed.

(** Whatever the mesh, the body of the face loop returns a mesh. *)
Lemma add_quad_total (width y x : nat) (m : bmesh) :
  exists m', add_quad faces_new_error width y x m = Ok m' /\
             verts m' = verts m.
Proof.
  unfold add_quad.
  destruct (_ ← verts_getitem m _; _) as [m'|e] eqn:E.
  - exists m'. split; [reflexivity|].
    destruct (verts_getitem m (y * width + x)); [|discriminate].
    destruct (verts_getitem m (y * width + (x + 1))); [|discriminate].
    destruct (verts_getitem m ((y + 1) * width + (x + 1))); [|discriminate].
    destruct (verts_getitem m ((y + 1) * width + x)); [|discriminate].
    cbn [mbind res_bind] in E. unfold faces_new in E.
    destruct (faces_new_error m _); [discriminate|].
    injection E as <-. reflexivity.
  - exists m. split; reflexivity.
Qed.

Lemma face_loop_ok (height width : nat) (m : bmesh) :
  length (verts m) = (height * width)%nat ->
  for_in (range 0 (height - 1)) (fun y =>
    for_in (range 0 (width - 1)) (add_quad faces_new_error width y)) m
  = Ok (attempt_all faces_new_error m (grid_quads height width)).
Proof.
  intros Hlen.
  pose (P := fun m : bmesh => length (verts m) = (height * width)%nat).
  pose (g := fun (m : bmesh) (y : nat) =>
               fold_left (attempt faces_new_error)
                 (quad width y <$> range 0 (width - 1)) m).
  destruct (for_in_ok P (fun y =>
    for_in (range 0 (width - 1)) (add_quad faces_new_error width y))
    g (range 0 (height - 1)) m Hlen) as [-> _].
  - intros y s Hy Hs. apply in_range in Hy.
    destruct (for_in_ok P (add_quad faces_new_error width y)
      (fun m x => attempt faces_new_error m (quad width y x))
      (range 0 (width - 1)) s Hs) as [-> HP].
    + intros x s' Hx Hs'. apply in_range in Hx. split.
      * apply (add_quad_attempt height); [exact Hs'|lia|lia].
      * unfold P. rewrite attempt_verts. exact Hs'.
    + unfold g.
      rewrite (fold_left_fmap (attempt faces_new_error)) in *.
      split; [reflexivity|exact HP].
  - unfold g, attempt_all, grid_quads.
    rewrite (fold_left_fmap
               (fun s l => fold_left (attempt faces_new_error) l s)
               (fun y => quad width y <$> range 0 (width - 1))).
    rewrite fold_left_join. reflexivity.
Qed.

(** [create_depthmap_bmesh] on a 2-dimensional array: the vertices of
    the grid, and every quad of the grid attempted in turn. *)
Lemma create_depthmap_bmesh_ok (a : ndarray float) (height width : nat) :
  is_2d a height width ->
  create_depthmap_bmesh faces_new_error a
  = Ok (attempt_all faces_new_error
          (mk_bmesh (grid_verts a height width) [])
          (grid_quads height width)).
Proof.
  intros H2. unfold create_depthmap_bmesh, unpack_shape.
  rewrite (proj1 H2). cbn [mbind res_bind].
  rewrite (surjective_pairing (mesh_size height width)).
  rewrite (vertex_loop_ok a height width bmesh_new H2).
  cbn [mbind res_bind verts faces bmesh_new app].
  rewrite (face_loop_ok height width).
  - reflexivity.
  - apply grid_verts_length.
Qed.

(** A face that Blender accepts in every mesh is in the result, however
    many other faces were refused. *)
Lemma attempt_all_keeps (qs : list face) (m : bmesh) (q : face) :
  In q qs -> (forall m', faces_new_error m' q = None) ->
  In q (faces (attempt_all faces_new_error m qs)).
Proof.
  intros Hin Hq.
  assert (Hmono : forall qs m f, In f (faces m) ->
                    In f (faces (attempt_all faces_new_error m qs))).
  { clear. intros qs. induction qs as [|q' qs IH]; intros m f Hf; [exact Hf|].
    simpl. apply IH. unfold attempt.
    destruct (faces_new_error m q'); [exact Hf|].
    simpl. apply in_or_app. now left. }
  revert m. induction qs as [|q' qs IH]; intros m; [destruct Hin|].
  destruct Hin as [->|Hin].
  - simpl. apply Hmono. unfold attempt. rewrite Hq. simpl.
    apply in_or_app. right. now left.
  - simpl. apply IH, Hin.
Qed.

(** A refused face leaves the mesh as it was, and the faces after it
    are attempted all the same. *)
Lemma attempt_all_skips (pre post : list face) (m : bmesh) (q : face)
    (e : exn) :
  faces_new_error (attempt_all faces_new_error m pre) q = Some e ->
  attempt_all faces_new_error m (pre ++ q :: post)
  = attempt_all faces_new_error m (pre ++ post).
Proof.
  intros H. unfold attempt_all in *. rewrite !fold_left_app. simpl.
  unfold attempt at 2. rewrite H. reflexivity.
Qed.

End FaceLoop.

(** ** Padding *)

Lemma rows_spec {A : Type} (n k : nat) (l : list A) :
  length l = (n * k)%nat ->
  length (rows n k l) = n /\ Forall (fun r => length r = k) (rows n k l).
Proof.
  revert l. induction n as [|n IH]; intros l Hl; simpl.
  - split; [reflexivity|constructor].
  - destruct (IH (drop k l)) as [Hn Hall].
    { rewrite length_drop. lia. }
    split; [now rewrite Hn|].
    constructor; [|exact Hall]. rewrite length_take. lia.
Qed.

Lemma length_concat_uniform {A : Type} (b : nat) (ls : list (list A)) :
  Forall (fun r => length r = b) ls -> length (concat ls) = (length ls * b)%nat.
Proof.
  induction 1 as [|r ls Hr _ IH]; [reflexivity|].
  simpl. rewrite length_app, IH, Hr. reflexivity.
Qed.

Lemma pad_data_length {A : Type} (c : A) (sh : list nat) (l : list A) :
  length l = size_of sh ->
  length (pad_data c sh l) = size_of (map (fun k => S (S k)) sh).
Proof.
  revert l. induction sh as [|n sh IH]; intros l Hl; [exact Hl|].
  cbn [pad_data]. destruct (rows_spec n (size_of sh) l Hl) as [Hn Hall].
  rewrite !length_app, !length_replicate.
  rewrite (length_concat_uniform (size_of (map (fun k => S (S k)) sh))).
  - rewrite length_map, Hn. simpl. lia.
  - apply List.Forall_map. eapply Forall_impl; [exact Hall|].
    intros r Hr. apply IH, Hr.
Qed.

Lemma is_2d_pad1 {A : Type} (c : A) (a : ndarray A) (height width : nat) :
  is_2d a height width -> is_2d (pad1 c a) (S (S height)) (S (S width)).
Proof.
  intros [Hsh Hwf]. split.
  - unfold pad1. simpl. rewrite Hsh. reflexivity.
  - unfold wf, pad1. cbn [data shape]. apply pad_data_length, Hwf.
Qed.

Lemma is_2d_max (a : ndarray float) (height width : nat) :
  is_2d a height width -> (1 <= height)%nat -> (1 <= width)%nat ->
  exists x l, data a = x :: l /\ Np.max a = Ok (fold_left fmax l x) /\
              Np.min a = Ok (fold_left fmin l x).
Proof.
  intros [Hsh Hwf] Hh Hw. unfold Np.max, Np.min.
  destruct (data a) as [|x l] eqn:E.
  - exfalso. unfold wf in Hwf. rewrite E, Hsh in Hwf. simpl in Hwf. nia.
  - exists x, l. repeat split.
Qed.

(** ** The base face *)

Lemma append_loop_ok (bm : bmesh) (g : nat -> nat) (l : list nat) (acc : face) :
  (forall a, In a l -> (g a < length (verts bm))%nat) ->
  for_in l (fun a => append_vert bm (g a)) acc = Ok (acc ++ (g <$> l)).
Proof.
  intros Hl.
  destruct (for_in_ok (fun _ => True) (fun a => append_vert bm (g a))
              (fun acc a => acc ++ [g a]) l acc I) as [-> _].
  - intros a s Ha _. split; [|exact I]. unfold append_vert, verts_getitem.
    rewrite (proj2 (Nat.ltb_lt _ _) (Hl a Ha)). reflexivity.
  - f_equal. clear Hl. revert acc.
    induction l as [|a l IH]; intros acc; simpl.
    + now rewrite app_nil_r.
    + rewrite IH, <- app_assoc. reflexivity.
Qed.

Lemma collect_base_verts_ok (bm : bmesh) (height width : nat) :
  length (verts bm) = (height * width)%nat ->
  (2 <= height)%nat -> (2 <= width)%nat ->
  collect_base_verts bm height width = Ok (base_vert_indices height width).
Proof.
  intros Hlen Hh Hw. unfold collect_base_verts.
  rewrite (append_loop_ok bm (fun y => (y * width)%nat)).
  2:{ intros y Hy. apply in_range in Hy. rewrite Hlen. nia. }
  cbn [mbind res_bind].
  rewrite (append_loop_ok bm (fun x => ((height - 1) * width + x)%nat)).
  2:{ intros x Hx. apply in_range in Hx. rewrite Hlen. nia. }
  cbn [mbind res_bind].
  rewrite (append_loop_ok bm (fun y => (y * width + (width - 1))%nat)).
  2:{ intros y Hy. apply in_rev, in_range in Hy. rewrite Hlen. nia. }
  cbn [mbind res_bind].
  rewrite (append_loop_ok bm (fun x => x)).
  2:{ intros x Hx. apply in_rev, in_range in Hx. rewrite Hlen. nia. }
  cbn [mbind res_bind]. unfold base_vert_indices.
  rewrite list_fmap_id. simpl. rewrite <- !app_assoc. reflexivity.
Qed.

Lemma grid_index_div_mod (width y x : nat) :
  (x < width)%nat ->
  ((y * width + x) / width = y /\ (y * width + x) mod width = x)%nat.
Proof.
  intros Hx. split.
  - symmetry. apply (Nat.div_unique _ _ _ x); [exact Hx|lia].
  - symmetry. apply (Nat.mod_unique _ _ y); [exact Hx|lia].
Qed.

Lemma on_border_grid (height width y x : nat) :
  (y < height)%nat -> (x < width)%nat ->
  (y = 0 \/ y = height - 1 \/ x = 0 \/ x = width - 1)%nat ->
  on_border height width (y * width + x) = true.
Proof.
  intros Hy Hx Hb. unfold on_border.
  destruct (grid_index_div_mod width y x Hx) as [-> ->].
  apply andb_true_intro. split; [apply Nat.ltb_lt; nia|].
  destruct Hb as [-> | [-> | [-> | ->] ] ];
    rewrite ?Nat.eqb_refl, ?orb_true_r; reflexivity.
Qed.

(** Every vertex of the base face is a border vertex of the grid. *)
Lemma base_vert_indices_on_border (height width : nat) :
  (2 <= height)%nat -> (2 <= width)%nat ->
  Forall (fun i => on_border height width i = true)
    (base_vert_indices height width).
Proof.
  intros Hh Hw. unfold base_vert_indices.
  repeat apply Forall_app_2; apply Forall_forall; intros i Hi;
    apply list_elem_of_In in Hi.
  - apply in_map_iff in Hi as (y & <- & Hy). apply in_range in Hy.
    replace (y * width)%nat with (y * width + 0)%nat by lia.
    apply on_border_grid; lia.
  - apply in_map_iff in Hi as (x & <- & Hx). apply in_range in Hx.
    apply on_border_grid; lia.
  - apply in_map_iff in Hi as (y & <- & Hy). apply in_rev, in_range in Hy.
    apply on_border_grid; lia.
  - apply in_rev, in_range in Hi.
    replace i with (0 * width + i)%nat by lia.
    apply on_border_grid; lia.
Qed.

(** ** The mesh objects *)

Lemma alter_last {A : Type} (f : A -> A) (l : list A) (x : A) :
  alter f (length l) (l ++ [x]) = l ++ [f x].
Proof.
  replace (length l) with (length l + 0)%nat by lia.
  rewrite alter_app_r. reflexivity.
Qed.

Section Objects.

Variable faces_new_error : bmesh -> face -> option exn.
Variable unique_name : string -> world -> string.

Lemma create_plane_mesh_ok (self : operator) (a : ndarray float)
    (height width : nat) (w : world) :
  is_2d a height width ->
  create_plane_mesh faces_new_error unique_name self a w
  = (Ok (length (objects w)),
     mk_world
       (objects w ++ [mk_object (unique_name "DepthMap_Plane" w) (grid_mesh faces_new_error a height width) false])
       (active w) (reports w)).
Proof.
  intros H2. unfold create_plane_mesh.
  unfold mbind, cmd_bind, seq_cmd, new_object, lift, to_mesh, ret.
  rewrite (create_depthmap_bmesh_ok faces_new_error a height width H2).
  cbn [objects active reports]. rewrite alter_last. reflexivity.
Qed.

Lemma create_cube_mesh_ok (self : operator) (a : ndarray float)
    (height width : nat) (w : world) (x : float) (l : list float) :
  is_2d a height width ->
  data a = x :: l ->
  let grid := grid_mesh faces_new_error (pad1 (fold_left fmax l x) a) (S (S height)) (S (S width)) in
  let base := base_vert_indices (S (S height)) (S (S width)) in
  create_cube_mesh faces_new_error unique_name self a w
  = (Ok (length (objects w)),
     mk_world
       (objects w ++ [mk_object (unique_name "DepthMap_Cube" w)
                        (attempt faces_new_error grid base) false])
       (active w)
       (reports w ++ base_face_reports (faces_new_error grid base))).
Proof.
  intros H2 Hd grid base. unfold create_cube_mesh.
  unfold mbind, cmd_bind, seq_cmd, try_cmd, new_object, lift, to_mesh, ret,
    report.
  unfold Np.max. rewrite Hd.
  pose proof (is_2d_pad1 (fold_left fmax l x) a height width H2) as H2p.
  rewrite (create_depthmap_bmesh_ok faces_new_error _ _ _ H2p).
  unfold unpack_shape. rewrite (proj1 H2p).
  fold (grid_mesh faces_new_error (pad1 (fold_left fmax l x) a) (S (S height)) (S (S width))).
  fold grid.
  rewrite (collect_base_verts_ok grid (S (S height)) (S (S width))).
  2:{ unfold grid, grid_mesh. rewrite attempt_all_verts. cbn [verts].
      apply grid_verts_length. }
  2,3: lia.
  fold base. unfold faces_new, attempt, base_face_reports.
  destruct (faces_new_error grid base) as [e|];
    cbn [objects active reports]; rewrite alter_last.
  - reflexivity.
  - rewrite app_nil_r. reflexivity.
Qed.

End Objects.

(** ** create_depthmap_bmesh: vertices *)

Lemma grid_vertex_z (a : ndarray float) (height width y x : nat) :
  is_2d a height width -> (y < height)%nat -> (x < width)%nat ->
  getitem2 a (height - 1 - y) x = Ok (vz (grid_vertex a height width y x)).
Proof.
  intros H2 Hy Hx.
  destruct (is_2d_lookup a height width (height - 1 - y) x H2 ltac:(lia) Hx)
    as (v & Hv & ->).
  unfold grid_vertex. cbn [vz]. rewrite Hv. reflexivity.
Qed.

Lemma Qnat_nonneg (n : nat) : 0 <= Qnat n.
Proof. unfold Qnat, Qle. simpl. lia. Qed.

Lemma Qnat_le (n m : nat) : (n <= m)%nat -> Qnat n <= Qnat m.
Proof. intros H. unfold Qnat, Qle. simpl. lia. Qed.

Lemma mesh_size_nonneg (height width : nat) :
  0 <= (mesh_size height width).1 /\ 0 <= (mesh_size height width).2.
Proof.
  assert (Hdiv : forall n m, 0 <= Qnat n / Qnat m).
  { intros n m. unfold Qdiv. apply Qmult_le_0_compat; [apply Qnat_nonneg|].
    apply Qinv_le_0_compat, Qnat_nonneg. }
  unfold mesh_size.
  destruct (height <? width)%nat; [|destruct (width <? height)%nat];
    simpl; split; try apply Hdiv; discriminate.
Qed.

Lemma y_norm_mono (height : nat) (mesh_height : Q) (y1 y2 : nat) :
  0 <= mesh_height -> (y1 <= y2)%nat ->
  y_norm height mesh_height y1 <= y_norm height mesh_height y2.
Proof.
  intros Hm Hy. unfold y_norm.
  destruct (1 <? height)%nat; [|apply Qle_refl].
  apply Qmult_le_compat_r; [|exact Hm].
  unfold Qdiv. apply Qmult_le_compat_r; [apply Qnat_le, Hy|].
  apply Qinv_le_0_compat, Qnat_nonneg.
Qed.

(** C5: the vertex made for grid position [(x, y)], stored at index
    [y * width + x], has for z the element [depth_array[height-1-y, x]];
    so the vertices of output row 0 sample the last source row, and the
    vertices that sample source row 0 are those of output row
    [height - 1], whose y coordinate is the largest of the mesh. *)
Theorem vertex_samples_flipped_row
    (faces_new_error : bmesh -> face -> option exn) (a : ndarray float)
    (height width x y : nat) :
  is_2d a height width -> (x < width)%nat -> (y < height)%nat ->
  exists m,
    create_depthmap_bmesh faces_new_error a = Ok m /\
    (exists v, verts m !! (y * width + x)%nat = Some v /\
               getitem2 a (height - 1 - y) x = Ok (vz v)) /\
    (exists v, verts m !! x = Some v /\
               getitem2 a (height - 1) x = Ok (vz v)) /\
    (exists v, verts m !! ((height - 1) * width + x)%nat = Some v /\
               getitem2 a 0 x = Ok (vz v) /\
               forall y' x' v', (y' < height)%nat -> (x' < width)%nat ->
                 verts m !! (y' * width + x')%nat = Some v' -> vy v' <= vy v).
Proof.
  intros H2 Hx Hy.
  rewrite (create_depthmap_bmesh_ok faces_new_error a height width H2).
  eexists. split; [reflexivity|].
  rewrite attempt_all_verts. cbn [verts].
  split; [|split].
  - exists (grid_vertex a height width y x). split.
    + apply grid_verts_lookup; assumption.
    + apply grid_vertex_z; assumption.
  - exists (grid_vertex a height width 0 x). split.
    + apply (grid_verts_lookup a height width 0 x); [lia|assumption].
    + rewrite <- (grid_vertex_z a height width 0 x H2) by lia.
      f_equal. lia.
  - exists (grid_vertex a height width (height - 1) x). split; [|split].
    + apply grid_verts_lookup; [lia|assumption].
    + rewrite <- (grid_vertex_z a height width (height - 1) x H2) by lia.
      f_equal. lia.
    + intros y' x' v' Hy' Hx' Hv'.
      rewrite (grid_verts_lookup a height width y' x' Hy' Hx') in Hv'.
      injection Hv' as <-. unfold grid_vertex. cbn [vy].
      unfold Qminus. apply Qplus_le_compat; [|apply Qle_refl].
      apply y_norm_mono; [apply mesh_size_nonneg|lia].
Qed.

Lemma vertex_samples_flipped_row_witness :
  exists m,
    create_depthmap_bmesh blender_faces_new_error checker = Ok m /\
    (exists v, verts m !! (1 * 2 + 0)%nat = Some v /\
               getitem2 checker (2 - 1 - 1) 0 = Ok (vz v)) /\
    (exists v, verts m !! 0%nat = Some v /\
               getitem2 checker (2 - 1) 0 = Ok (vz v)) /\
    (exists v, verts m !! ((2 - 1) * 2 + 0)%nat = Some v /\
               getitem2 checker 0 0 = Ok (vz v) /\
               forall y' x' v', (y' < 2)%nat -> (x' < 2)%nat ->
                 verts m !! (y' * 2 + x')%nat = Some v' -> vy v' <= vy v).
Proof.
  apply (vertex_samples_flipped_row blender_faces_new_error checker 2 2 0 1).
  - split; reflexivity.
  - lia.
  - lia.
Defined.

(** ** create_depthmap_bmesh: faces *)

(** C8: the grid build returns a mesh whatever faces Blender refuses.  A
    refused face is left out and the mesh is the one that the remaining
    faces, attempted in the same order, give; a face that Blender accepts
    is in the mesh however many faces were refused before it. *)
Theorem refused_faces_are_skipped
    (faces_new_error : bmesh -> face -> option exn) (a : ndarray float)
    (height width : nat) :
  is_2d a height width ->
  exists m,
    create_depthmap_bmesh faces_new_error a = Ok m /\
    verts m = grid_verts a height width /\
    (forall pre q post e,
       grid_quads height width = pre ++ q :: post ->
       faces_new faces_new_error
         (attempt_all faces_new_error
            (mk_bmesh (grid_verts a height width) []) pre) q = Raise e ->
       m = attempt_all faces_new_error
             (mk_bmesh (grid_verts a height width) []) (pre ++ post)) /\
    (forall q, In q (grid_quads height width) ->
       (forall m', faces_new_error m' q = None) -> In q (faces m)).
Proof.
  intros H2.
  rewrite (create_depthmap_bmesh_ok faces_new_error a height width H2).
  eexists. split; [reflexivity|]. split; [|split].
  - apply attempt_all_verts.
  - intros pre q post e Hsplit Hraise. rewrite Hsplit.
    unfold faces_new in Hraise.
    destruct (faces_new_error _ q) as [e'|] eqn:E; [|discriminate].
    apply (attempt_all_skips faces_new_error pre post _ q e'). exact E.
  - intros q Hq Hacc. apply attempt_all_keeps; assumption.
Qed.

Lemma refused_faces_are_skipped_witness :
  exists m,
    create_depthmap_bmesh blender_faces_new_error checker = Ok m /\
    verts m = grid_verts checker 2 2 /\
    (forall pre q post e,
       grid_quads 2 2 = pre ++ q :: post ->
       faces_new blender_faces_new_error
         (attempt_all blender_faces_new_error
            (mk_bmesh (grid_verts checker 2 2) []) pre) q = Raise e ->
       m = attempt_all blender_faces_new_error
             (mk_bmesh (grid_verts checker 2 2) []) (pre ++ post)) /\
    (forall q, In q (grid_quads 2 2) ->
       (forall m', blender_faces_new_error m' q = None) -> In q (faces m)).
Proof.
  apply (refused_faces_are_skipped blender_faces_new_error checker 2 2).
  split; reflexivity.
Defined.

(** ** Vertex counts *)

(** C6: the plane mesh of a [height] x [width] array has
    [height * width] vertices and the cube mesh has
    [(height + 2) * (width + 2)]; the vertices of the cube mesh are those
    of the grid of the padded array, and the base face is made of border
    vertices of that grid. *)
Theorem vertex_counts
    (faces_new_error : bmesh -> face -> option exn)
    (unique_name : string -> world -> string) (self : operator)
    (a : ndarray float) (height width : nat) (w : world) :
  is_2d a height width -> (1 <= height)%nat -> (1 <= width)%nat ->
  (exists obj w' o,
     create_plane_mesh faces_new_error unique_name self a w = (Ok obj, w') /\
     objects w' !! obj = Some o /\
     length (verts (obj_mesh o)) = (height * width)%nat) /\
  (exists obj w' o base_z grid base,
     create_cube_mesh faces_new_error unique_name self a w = (Ok obj, w') /\
     objects w' !! obj = Some o /\
     length (verts (obj_mesh o)) = ((height + 2) * (width + 2))%nat /\
     Np.max a = Ok base_z /\
     create_depthmap_bmesh faces_new_error (pad1 base_z a) = Ok grid /\
     collect_base_verts grid (height + 2) (width + 2) = Ok base /\
     verts (obj_mesh o) = verts grid /\
     Forall (fun i => on_border (height + 2) (width + 2) i = true) base /\
     Forall (fun i => (i < length (verts grid))%nat) base /\
     (faces (obj_mesh o) = faces grid \/
      faces (obj_mesh o) = faces grid ++ [base])).
Proof.
  intros H2 Hh Hw. split.
  - rewrite (create_plane_mesh_ok faces_new_error unique_name self a
      height width w H2).
    eexists. eexists. eexists. split; [reflexivity|]. split.
    + cbn [objects]. apply list_lookup_middle. reflexivity.
    + cbn [obj_mesh]. unfold grid_mesh. rewrite attempt_all_verts.
      apply grid_verts_length.
  - destruct (is_2d_max a height width H2 Hh Hw) as (x & l & Hd & Hmax & _).
    rewrite (create_cube_mesh_ok faces_new_error unique_name self a
        height width w x l H2 Hd).
    replace (height + 2)%nat with (S (S height)) by lia.
    replace (width + 2)%nat with (S (S width)) by lia.
    pose proof (is_2d_pad1 (fold_left fmax l x) a height width H2) as H2p.
    set (grid := grid_mesh faces_new_error (pad1 (fold_left fmax l x) a)
                   (S (S height)) (S (S width))).
    assert (Hlen : length (verts grid) = (S (S height) * S (S width))%nat).
    { unfold grid, grid_mesh. rewrite attempt_all_verts. apply grid_verts_length. }
    exists (length (objects w)). eexists. eexists.
    exists (fold_left fmax l x), grid, (base_vert_indices (S (S height)) (S (S width))).
    split; [reflexivity|]. split.
    { cbn [objects]. apply list_lookup_middle. reflexivity. }
    cbn [obj_mesh]. rewrite attempt_verts.
    split; [exact Hlen|]. split; [exact Hmax|]. split.
    { apply (create_depthmap_bmesh_ok faces_new_error _ _ _ H2p). }
    split; [apply collect_base_verts_ok; [exact Hlen|lia|lia]|].
    split; [reflexivity|].
    assert (Hb := base_vert_indices_on_border (S (S height)) (S (S width))
                    ltac:(lia) ltac:(lia)).
    split; [exact Hb|]. split.
    { eapply Forall_impl; [exact Hb|]. intros i Hi. cbv beta in Hi.
      unfold on_border in Hi. apply andb_prop in Hi as [Hi _].
      apply Nat.ltb_lt in Hi. rewrite Hlen. exact Hi. }
    unfold attempt. destruct (faces_new_error grid _); [now left|now right].
Qed.

Lemma vertex_counts_witness :
  (exists obj w' o,
     create_plane_mesh blender_faces_new_error blender_unique_name
         (unit_scale false) checker
       empty_world = (Ok obj, w') /\
     objects w' !! obj = Some o /\
     length (verts (obj_mesh o)) = (2 * 2)%nat) /\
  (exists obj w' o base_z grid base,
     create_cube_mesh blender_faces_new_error blender_unique_name
         (unit_scale true) checker
       empty_world = (Ok obj, w') /\
     objects w' !! obj = Some o /\
     length (verts (obj_mesh o)) = ((2 + 2) * (2 + 2))%nat /\
     Np.max checker = Ok base_z /\
     create_depthmap_bmesh blender_faces_new_error (pad1 base_z checker)
       = Ok grid /\
     collect_base_verts grid (2 + 2) (2 + 2) = Ok base /\
     verts (obj_mesh o) = verts grid /\
     Forall (fun i => on_border (2 + 2) (2 + 2) i = true) base /\
     Forall (fun i => (i < length (verts grid))%nat) base /\
     (faces (obj_mesh o) = faces grid \/
      faces (obj_mesh o) = faces grid ++ [base])).
Proof.
  destruct (vertex_counts blender_faces_new_error blender_unique_name
      (unit_scale false)
              checker 2 2 empty_world) as [Hplane _].
  { split; reflexivity. }
  { lia. }
  { lia. }
  split; [exact Hplane|].
  apply (vertex_counts blender_faces_new_error blender_unique_name
      (unit_scale true)
           checker 2 2 empty_world).
  - split; reflexivity.
  - lia.
  - lia.
Defined.

(** ** The base face *)

(** C9: when Blender refuses the base face, [create_cube_mesh] reports
    the error with its cause and goes on: the mesh of the padded grid
    (top surface and walls) is written to the object and the object is
    returned. *)
Theorem base_face_failure_is_reported
    (faces_new_error : bmesh -> face -> option exn)
    (unique_name : string -> world -> string) (self : operator)
    (a : ndarray float) (height width : nat) (w : world)
    (base_z : float) (grid : bmesh) (base : face) (e : exn) :
  is_2d a height width -> (1 <= height)%nat -> (1 <= width)%nat ->
  Np.max a = Ok base_z ->
  create_depthmap_bmesh faces_new_error (pad1 base_z a) = Ok grid ->
  collect_base_verts grid (height + 2) (width + 2) = Ok base ->
  faces_new faces_new_error grid base = Raise e ->
  exists obj w' o,
    create_cube_mesh faces_new_error unique_name self a w = (Ok obj, w') /\
    objects w' !! obj = Some o /\
    obj_mesh o = grid /\
    reports w' = reports w
                 ++ [(ERROR, ("Failed to create base face: " ++ str e)%string)].
Proof.
  intros H2 Hh Hw Hmax Hgrid Hbase Hraise.
  destruct (is_2d_max a height width H2 Hh Hw) as (x & l & Hd & Hmax' & _).
  rewrite Hmax' in Hmax. injection Hmax as <-.
  pose proof (is_2d_pad1 (fold_left fmax l x) a height width H2) as H2p.
  rewrite (create_depthmap_bmesh_ok faces_new_error _ _ _ H2p) in Hgrid.
  assert (Hg : grid = grid_mesh faces_new_error (pad1 (fold_left fmax l x) a)
                       (S (S height)) (S (S width)))
    by (unfold grid_mesh; congruence).
  clear Hgrid.
  replace (height + 2)%nat with (S (S height)) in Hbase by lia.
  replace (width + 2)%nat with (S (S width)) in Hbase by lia.
  rewrite collect_base_verts_ok in Hbase.
  2:{ rewrite Hg. unfold grid_mesh. rewrite attempt_all_verts.
      apply grid_verts_length. }
  2,3: lia.
  injection Hbase as <-.
  rewrite (create_cube_mesh_ok faces_new_error unique_name self a
      height width w x l H2 Hd).
  cbv zeta. rewrite <- Hg.
  unfold faces_new in Hraise.
  destruct (faces_new_error grid _) as [e'|] eqn:E; [|discriminate].
  injection Hraise as ->.
  eexists. eexists. eexists. split; [reflexivity|]. split.
  { cbn [objects]. apply list_lookup_middle. reflexivity. }
  cbn [obj_mesh reports base_face_reports]. split; [|reflexivity].
  unfold attempt. rewrite E. reflexivity.
Qed.

Lemma base_face_failure_is_reported_witness :
  exists obj w' o,
    create_cube_mesh quads_only blender_unique_name
        (unit_scale true) checker empty_world
      = (Ok obj, w') /\
    objects w' !! obj = Some o /\
    obj_mesh o = grid_mesh quads_only (pad1 (Fin 1) checker) 4 4 /\
    reports w' = reports empty_world
                 ++ [(ERROR, ("Failed to create base face: "
                              ++ str (ValueError "faces.new(): face refused"))%string)].
Proof.
  apply (base_face_failure_is_reported quads_only blender_unique_name
      (unit_scale true)
           checker 2 2 empty_world (Fin 1)
           (grid_mesh quads_only (pad1 (Fin 1) checker) 4 4)
           (base_vert_indices 4 4)
           (ValueError "faces.new(): face refused")).
  - split; reflexivity.
  - lia.
  - lia.
  - reflexivity.
  - vm_compute. reflexivity.
  - vm_compute. reflexivity.
  - vm_compute. reflexivity.
Defined.

(** ** Aspect *)

Lemma spansb_spans (l : list Q) (lo hi : Q) :
  spansb l lo hi = true <-> spans l lo hi.
Proof.
  unfold spansb, spans. rewrite !andb_true_iff, !existsb_exists, forallb_forall.
  split.
  - intros [[(v & Hv & Hlo) (u & Hu & Hhi)] Hall]. split; [|split].
    + exists v. split; [exact Hv|]. apply Qeq_bool_iff, Hlo.
    + exists u. split; [exact Hu|]. apply Qeq_bool_iff, Hhi.
    + intros x Hx. apply Hall in Hx. apply andb_true_iff in Hx as [H1 H2].
      split; apply Qle_bool_iff; assumption.
  - intros [(v & Hv & Hlo) [(u & Hu & Hhi) Hall]]. split; [split|].
    + exists v. split; [exact Hv|]. apply Qeq_bool_iff, Hlo.
    + exists u. split; [exact Hu|]. apply Qeq_bool_iff, Hhi.
    + intros x Hx. destruct (Hall x Hx) as [H1 H2].
      apply andb_true_iff. split; apply Qle_bool_iff; assumption.
Qed.

(** C7, as stated, fails: for width 4 and height 2 the y coordinates of
    the vertices go from -0.5 to 0, not from -0.25 to 0.25: 0.5 is taken
    off [y_norm], which goes from 0 to [mesh_height] = 0.5. *)
Lemma y_range_is_not_centred :
  is_2d zeros_2x4 2 4 /\
  exists m,
    create_depthmap_bmesh blender_faces_new_error zeros_2x4 = Ok m /\
    spans (vy <$> verts m) (- (1 # 2)) 0 /\
    ~ spans (vy <$> verts m) (- (1 # 4)) (1 # 4).
Proof.
  split; [split; reflexivity|].
  eexists. split; [reflexivity|]. split.
  - apply spansb_spans. vm_compute. reflexivity.
  - intros H. apply spansb_spans in H. vm_compute in H. discriminate H.
Qed.

(** C7 (amended): [mesh_width] and [mesh_height] are 1, except that
    [mesh_height] is [height / width] when the width is the larger and
    [mesh_width] is [width / height] when the height is the larger; for
    width 4 and height 2 the x coordinates of the vertices go from -0.5
    to 0.5 and the y coordinates from -0.5 to 0. *)
Theorem aspect_normalisation
    (faces_new_error : bmesh -> face -> option exn) (a : ndarray float) :
  is_2d a 2 4 ->
  (forall height width,
     ((height < width)%nat ->
        mesh_size height width = (1, Qnat height / Qnat width)) /\
     ((width < height)%nat ->
        mesh_size height width = (Qnat width / Qnat height, 1)) /\
     (height = width -> mesh_size height width = (1, 1))) /\
  (mesh_size 2 4).1 == 1 /\ (mesh_size 2 4).2 == 1 # 2 /\
  exists m,
    create_depthmap_bmesh faces_new_error a = Ok m /\
    spans (vx <$> verts m) (- (1 # 2)) (1 # 2) /\
    spans (vy <$> verts m) (- (1 # 2)) 0.
Proof.
  intros H2. split; [|split; [|split]].
  - intros height width. unfold mesh_size. split; [|split].
    + intros H. rewrite (proj2 (Nat.ltb_lt _ _) H). reflexivity.
    + intros H. rewrite (proj2 (Nat.ltb_ge _ _)) by lia.
      rewrite (proj2 (Nat.ltb_lt _ _) H). reflexivity.
    + intros ->. rewrite Nat.ltb_irrefl. reflexivity.
  - reflexivity.
  - reflexivity.
  - rewrite (create_depthmap_bmesh_ok faces_new_error a 2 4 H2).
    eexists. split; [reflexivity|]. rewrite attempt_all_verts. cbn [verts].
    split; apply spansb_spans; vm_compute; reflexivity.
Qed.

Lemma aspect_normalisation_witness :
  (forall height width,
     ((height < width)%nat ->
        mesh_size height width = (1, Qnat height / Qnat width)) /\
     ((width < height)%nat ->
        mesh_size height width = (Qnat width / Qnat height, 1)) /\
     (height = width -> mesh_size height width = (1, 1))) /\
  (mesh_size 2 4).1 == 1 /\ (mesh_size 2 4).2 == 1 # 2 /\
  exists m,
    create_depthmap_bmesh blender_faces_new_error zeros_2x4 = Ok m /\
    spans (vx <$> verts m) (- (1 # 2)) (1 # 2) /\
    spans (vy <$> verts m) (- (1 # 2)) 0.
Proof.
  apply (aspect_normalisation blender_faces_new_error zeros_2x4).
  split; reflexivity.
Defined.

(** ** The base face and the border *)

(** C2 fails on the code: for the 1 x 1 array [[0]], padded to 3 x 3, the
    base face is made of the vertices 0, 3, 7, 2; no vertex is met twice,
    but of the eight border vertices 0, 1, 2, 3, 5, 6, 7, 8 the face
    leaves out 1, 5, 6 and 8, among them the two bottom corners. *)
Theorem base_face_leaves_out_border_vertices :
  exists obj w' o,
    create_cube_mesh blender_faces_new_error blender_unique_name
        (unit_scale true) one_cell
      empty_world = (Ok obj, w') /\
    reports w' = [] /\
    objects w' !! obj = Some o /\
    length (verts (obj_mesh o)) = 9%nat /\
    last (faces (obj_mesh o)) = Some [0; 3; 7; 2]%nat /\
    collect_base_verts (obj_mesh o) 3 3 = Ok [0; 3; 7; 2]%nat /\
    border_indices 3 3 = [0; 1; 2; 3; 5; 6; 7; 8]%nat /\
    filter (fun i => ~ In i [0; 3; 7; 2]%nat) (border_indices 3 3)
    = [1; 5; 6; 8]%nat.
Proof.
  eexists. eexists. eexists. split; [vm_compute; reflexivity|].
  split; [reflexivity|]. split; [reflexivity|].
  split; [reflexivity|]. split; [reflexivity|].
  split; [reflexivity|]. split; [reflexivity|].
  vm_compute. reflexivity.
Qed.

(** ** The base face on every grid *)

Lemma in_base_vert_indices (height width i : nat) :
  In i (base_vert_indices height width) <->
  (exists y, i = y * width /\ y < height - 1)%nat \/
  (exists x, i = (height - 1) * width + x /\ 1 <= x < width - 1)%nat \/
  (exists y, i = y * width + (width - 1) /\ y < height - 2)%nat \/
  (1 <= i < width - 2)%nat.
Proof.
  unfold base_vert_indices. rewrite !in_app_iff, !in_map_iff.
  rewrite <- in_rev, in_range.
  split.
  - intros [(y & <- & Hy)|[(x & <- & Hx)|[(y & <- & Hy)|Hi]]].
    + left. exists y. apply in_range in Hy. split; [reflexivity|lia].
    + right; left. exists x. apply in_range in Hx. split; [reflexivity|lia].
    + right; right; left. exists y. apply in_rev, in_range in Hy.
      split; [reflexivity|lia].
    + right; right; right. exact Hi.
  - intros [(y & -> & Hy)|[(x & -> & Hx)|[(y & -> & Hy)|Hi]]].
    + left. exists y. split; [reflexivity|]. apply in_range. lia.
    + right; left. exists x. split; [reflexivity|]. apply in_range. lia.
    + right; right; left. exists y. split; [reflexivity|].
      apply (proj1 (in_rev _ _)), in_range. lia.
    + right; right; right. exact Hi.
Qed.

Lemma grid_index_inj (width y x y' x' : nat) :
  (x < width)%nat -> (x' < width)%nat ->
  (y * width + x = y' * width + x')%nat -> y = y' /\ x = x'.
Proof.
  intros Hx Hx' Heq.
  destruct (grid_index_div_mod width y x Hx) as [Hd Hm].
  destruct (grid_index_div_mod width y' x' Hx') as [Hd' Hm'].
  rewrite Heq in Hd, Hm. split; congruence.
Qed.

(** On every padded grid the base face leaves out four border vertices:
    the two bottom corners, the vertex above the bottom-right corner and
    the vertex left of the top-right corner. *)
Lemma base_face_leaves_out_four (height width : nat) :
  (3 <= height)%nat -> (3 <= width)%nat ->
  Forall (fun i => on_border height width i = true /\
                   ~ In i (base_vert_indices height width))
    [((height - 1) * width + 0)%nat;
     ((height - 1) * width + (width - 1))%nat;
     ((height - 2) * width + (width - 1))%nat;
     (0 * width + (width - 2))%nat].
Proof.
  intros Hh Hw.
  assert (Hout : forall y x, (y < height)%nat -> (x < width)%nat ->
            (y = height - 1 /\ (x = 0 \/ x = width - 1) \/
             y = height - 2 /\ x = width - 1 \/
             y = 0 /\ x = width - 2)%nat ->
            on_border height width (y * width + x) = true /\
            ~ In (y * width + x)%nat (base_vert_indices height width)).
  { intros y x Hy Hx Hpos. split; [apply on_border_grid; lia|].
    rewrite in_base_vert_indices.
    intros [(y' & Hy' & Hlt)|[(x' & Hx' & Hlt)|[(y' & Hy' & Hlt)|Hlt]]].
    - destruct (grid_index_inj width y x y' 0) as [? ?]; lia.
    - destruct (grid_index_inj width y x (height - 1) x') as [? ?]; lia.
    - destruct (grid_index_inj width y x y' (width - 1)) as [? ?]; lia.
    - destruct (grid_index_inj width y x 0 (y * width + x)) as [? ?]; lia. }
  repeat constructor; apply Hout; lia.
Qed.

(** No vertex is met twice by the base face. *)
Lemma base_vert_indices_NoDup (height width : nat) :
  (2 <= height)%nat -> (2 <= width)%nat ->
  NoDup (base_vert_indices height width).
Proof.
  intros Hh Hw.
  assert (Hseq : forall a b, NoDup (range a b)) by (intros; apply NoDup_seq).
  assert (Hdisj : forall i,
            ((exists y, i = y * width /\ y < height - 1) ->
             ~ ((exists x, i = (height - 1) * width + x /\ 1 <= x < width - 1) \/
                (exists y, i = y * width + (width - 1) /\ y < height - 2) \/
                1 <= i < width - 2))%nat /\
            ((exists x, i = (height - 1) * width + x /\ 1 <= x < width - 1) ->
             ~ ((exists y, i = y * width + (width - 1) /\ y < height - 2) \/
                1 <= i < width - 2))%nat /\
            ((exists y, i = y * width + (width - 1) /\ y < height - 2) ->
             ~ (1 <= i < width - 2))%nat).
  { intros i. split; [|split].
    - intros (y & -> & Hy) [(x & Hx & Hlt)|[(y' & Hy' & Hlt)|Hlt]].
      + destruct (grid_index_inj width y 0 (height - 1) x); lia.
      + destruct (grid_index_inj width y 0 y' (width - 1)); lia.
      + destruct (grid_index_inj width y 0 0 (y * width)); lia.
    - intros (x & -> & Hx) [(y' & Hy' & Hlt)|Hlt].
      + destruct (grid_index_inj width (height - 1) x y' (width - 1)); lia.
      + destruct (grid_index_inj width (height - 1) x 0
                    ((height - 1) * width + x)); lia.
    - intros (y & -> & Hy) Hlt.
      destruct (grid_index_inj width y (width - 1) 0
                  (y * width + (width - 1))); lia. }
  unfold base_vert_indices.
  apply NoDup_app; split; [|split; [|apply NoDup_app; split;
    [|split; [|apply NoDup_app; split; [|split]]]]].
  - apply NoDup_fmap_2; [|apply Hseq]. intros y1 y2 Hy.
    destruct (grid_index_inj width y1 0 y2 0); lia.
  - intros i Hi Hi'. apply list_elem_of_In in Hi, Hi'.
    apply (proj1 (Hdisj i)).
    + apply in_map_iff in Hi as (y & <- & Hy). apply in_range in Hy.
      exists y. split; [reflexivity|lia].
    + rewrite !in_app_iff, !in_map_iff, <- in_rev, in_range in Hi'.
      destruct Hi' as [(x & Hx & Hlt)|[(y' & Hy' & Hlt)|Hlt]].
      * left. exists x. apply in_range in Hlt. split; [now symmetry|lia].
      * right; left. exists y'. apply in_rev, in_range in Hlt.
        split; [now symmetry|lia].
      * right; right. exact Hlt.
  - apply NoDup_fmap_2; [|apply Hseq]. intros x1 x2 Hx. lia.
  - intros i Hi Hi'. apply list_elem_of_In in Hi, Hi'.
    apply (proj1 (proj2 (Hdisj i))).
    + apply in_map_iff in Hi as (x & <- & Hx). apply in_range in Hx.
      exists x. split; [reflexivity|lia].
    + rewrite !in_app_iff, !in_map_iff, <- in_rev, in_range in Hi'.
      destruct Hi' as [(y' & Hy' & Hlt)|Hlt]; [left|right; exact Hlt].
      exists y'. apply in_rev, in_range in Hlt. split; [now symmetry|lia].
  - apply NoDup_fmap_2;
      [|apply NoDup_ListNoDup, NoDup_rev, NoDup_ListNoDup, Hseq]. intros y1 y2 Hy.
    destruct (grid_index_inj width y1 (width - 1) y2 (width - 1)); lia.
  - intros i Hi Hi'. apply list_elem_of_In in Hi, Hi'.
    apply (proj2 (proj2 (Hdisj i))).
    + apply in_map_iff in Hi as (y & <- & Hy). apply in_rev, in_range in Hy.
      exists y. split; [reflexivity|lia].
    + apply in_rev, in_range in Hi'. exact Hi'.
  - apply NoDup_ListNoDup, NoDup_rev, NoDup_ListNoDup, Hseq.
Qed.

(** The base face has four vertices fewer than the border. *)
Lemma base_vert_indices_length (height width : nat) :
  (3 <= height)%nat -> (3 <= width)%nat ->
  (length (base_vert_indices height width) + 4
   = 2 * height + 2 * width - 4)%nat.
Proof.
  intros Hh Hw. unfold base_vert_indices, range.
  rewrite !length_app, !length_fmap, !length_rev, !length_seq. lia.
Qed.

(** ** A refused face *)

(** On a 2 x 3 array, with a host that refuses the first quad, the mesh
    has the six vertices and the second quad. *)
Example first_quad_refused :
  exists m, create_depthmap_bmesh refuse_first_quad zeros_2x3 = Ok m /\
            length (verts m) = 6%nat /\
            grid_quads 2 3 = [[0; 1; 4; 3]; [1; 2; 5; 4]]%nat /\
            faces m = [[1; 2; 5; 4]]%nat.
Proof. eexists. repeat split. Qed.


(** ** execute *)

Lemma is_2d_amap {A B : Type} (f : A -> B) (a : ndarray A) (height width : nat) :
  is_2d a height width -> is_2d (amap f a) height width.
Proof.
  intros [Hsh Hwf]. split; [exact Hsh|].
  unfold wf, amap. cbn [data shape]. rewrite length_map. exact Hwf.
Qed.

(** What [process_depth_array] returns has the shape and the number of
    elements of the array it was given. *)
Lemma process_depth_array_shape (self : operator) (arr : nparray)
    (r : ndarray float) :
  process_depth_array self arr = Ok r ->
  shape r = shape_of arr /\ length (data r) = size arr.
Proof.
  destruct arr as [a|a]; unfold process_depth_array.
  - destruct (Np.min (nan_to_num a)); cbn [mbind res_bind]; [|discriminate].
    destruct (Np.max (nan_to_num a)); cbn [mbind res_bind]; [|discriminate].
    intros [= <-]. cbn [shape_of size].
    match goal with |- context [if ?b then _ else _] => destruct b end;
      unfold nan_to_num, amap; cbn [shape data];
      rewrite ?length_map; split; reflexivity.
  - destruct (Np.imin a); cbn [mbind res_bind]; [|discriminate].
    destruct (Np.imax a); cbn [mbind res_bind]; [|discriminate].
    match goal with |- context [if ?b then _ else _] => destruct b end;
      [|discriminate].
    intros [= <-]. unfold amap. cbn [shape_of size shape data].
    rewrite !length_map. split; reflexivity.
Qed.

Lemma process_depth_array_is_2d (self : operator) (arr : nparray)
    (r : ndarray float) (height width : nat) :
  wf_array arr -> shape_of arr = [height; width] ->
  process_depth_array self arr = Ok r ->
  is_2d r height width.
Proof.
  intros Hwf Hsh Hr.
  destruct (process_depth_array_shape self arr r Hr) as [Hs Hl].
  split; [congruence|]. unfold wf. rewrite Hl, Hs.
  destruct arr; exact Hwf.
Qed.

Lemma process_depth_array_empty (self : operator) (arr : nparray) :
  size arr = 0%nat ->
  process_depth_array self arr
  = Raise (ValueError
      "zero-size array to reduction operation minimum which has no identity").
Proof.
  intros H. destruct arr as [a|a]; cbn [size] in H;
    apply length_zero_iff_nil in H; unfold process_depth_array.
  - unfold Np.min, nan_to_num, amap. cbn [data]. rewrite H. reflexivity.
  - unfold Np.imin. rewrite H. reflexivity.
Qed.

(** On a float64 array with elements [process_depth_array] returns. *)
Lemma process_depth_array_float_ok (self : operator) (a : ndarray float) :
  data a <> [] -> exists r, process_depth_array self (Float64 a) = Ok r.
Proof.
  intros Hne. destruct (finite_values a) as [|x l] eqn:E.
  - exfalso. apply Hne. unfold finite_values in E.
    destruct (data a); [reflexivity|discriminate].
  - rewrite (process_depth_array_unfold self a x l E). eexists. reflexivity.
Qed.

Lemma size_of_shape (arr : nparray) (height width : nat) :
  wf_array arr -> shape_of arr = [height; width] ->
  size arr = (height * width)%nat.
Proof.
  intros Hwf Hsh. destruct arr as [a|a]; cbn [wf_array shape_of size] in *;
    unfold wf in Hwf; rewrite Hwf, Hsh; simpl; lia.
Qed.

Lemma alter_last' {A : Type} (f : A -> A) (n : nat) (l : list A) (x : A) :
  length l = n -> alter f n (l ++ [x]) = l ++ [f x].
Proof. intros <-. apply alter_last. Qed.

Lemma lookup_last' {A : Type} (l : list A) (x : A) (n : nat) :
  length l = n -> (l ++ [x]) !! n = Some x.
Proof. intros <-. apply list_lookup_middle. reflexivity. Qed.

Lemma seq_cmd_ok {A B : Type} (c : cmd A) (k : A -> cmd B) (w w' : world)
    (a : A) :
  c w = (Ok a, w') -> seq_cmd c k w = k a w'.
Proof. intros H. unfold seq_cmd. rewrite H. reflexivity. Qed.

Lemma seq_cmd_raise {A B : Type} (c : cmd A) (k : A -> cmd B) (w w' : world)
    (e : exn) :
  c w = (Raise e, w') -> seq_cmd c k w = (Raise e, w').
Proof. intros H. unfold seq_cmd. rewrite H. reflexivity. Qed.

Section Execute.

Variable faces_new_error : bmesh -> face -> option exn.
Variable unique_name : string -> world -> string.
Variable host_error : host_call -> world -> option exn.

(** The first array of an archive is treated as an array loaded
    alone. *)
Lemma execute_npz (self : operator) (k : string) (a : nparray)
    (rest : list (string * nparray)) (w : world) :
  execute faces_new_error unique_name host_error self
    (Ok (NpzFile ((k, a) :: rest))) w
  = execute faces_new_error unique_name host_error self (Ok (NpyArray a)) w.
Proof.
  unfold execute, try_cmd, execute_body.
  unfold mbind, cmd_bind, seq_cmd, lift, ret, first_key.
  cbn [map fst npz_getitem]. rewrite String.eqb_refl. reflexivity.
Qed.

Lemma execute_not_2d (self : operator) (a : nparray) (w : world) :
  ndim_of a <> 2%nat ->
  execute faces_new_error unique_name host_error self (Ok (NpyArray a)) w
  = (Ok CANCELLED,
     mk_world (objects w) (active w)
       (reports w ++ [(ERROR, "Depth map must be 2D")])).
Proof.
  intros H. unfold execute, try_cmd, execute_body.
  unfold mbind, cmd_bind, seq_cmd, lift, ret, report.
  rewrite (proj2 (Nat.eqb_neq _ _) H). reflexivity.
Qed.

(** An exception of [process_depth_array] is reported; the scene is as
    before. *)
Lemma execute_raises (self : operator) (a : nparray) (w : world) (e : exn) :
  ndim_of a = 2%nat ->
  process_depth_array self a = Raise e ->
  execute faces_new_error unique_name host_error self (Ok (NpyArray a)) w
  = cancelled e w.
Proof.
  intros Hn He. unfold execute, try_cmd, execute_body.
  unfold mbind, cmd_bind, seq_cmd, lift, ret, report.
  rewrite Hn. cbn [Nat.eqb negb]. rewrite He. reflexivity.
Qed.

(** The end of [execute] once the mesh object is made. *)
Lemma select_imported_ok (obj : nat) (w : world) :
  try_cmd
    (seq_cmd (select_all_deselect host_error) (fun _ =>
       seq_cmd (select_set host_error obj) (fun _ =>
         seq_cmd (set_active host_error obj) (fun _ =>
           seq_cmd (name_of obj) (fun name =>
             seq_cmd (report INFO ("Successfully imported " ++ name))
               (fun _ => ret FINISHED))))))
    (fun e => seq_cmd (report ERROR ("Failed to import: " ++ str e))
                (fun _ => ret CANCELLED)) w
  = select_imported host_error obj w.
Proof.
  unfold try_cmd, seq_cmd, select_all_deselect, select_set, set_active,
    host_cmd, select_imported, cancelled, name_of, report, ret.
  destruct (host_error SelectAll w); [reflexivity|].
  unfold deselected. change (map ?f ?l) with (f <$> l).
  destruct (host_error SelectSet _); [reflexivity|].
  cbn [objects active reports].
  destruct (host_error SetActive _); reflexivity.
Qed.

(** When [process_depth_array] returns, [execute] makes the mesh object
    and goes on to the selection. *)
Lemma execute_proceeds (self : operator) (a : nparray) (r : ndarray float)
    (height width : nat) (w : world) :
  ndim_of a = 2%nat ->
  process_depth_array self a = Ok r ->
  is_2d r height width -> (1 <= height)%nat -> (1 <= width)%nat ->
  exists mesh reps,
    execute faces_new_error unique_name host_error self (Ok (NpyArray a)) w
    = select_imported host_error (length (objects w))
        (mk_world
           (objects w
            ++ [mk_object (unique_name (object_name self) w) mesh false])
           (active w) (reports w ++ reps)) /\
    length (verts mesh)
    = (if use_cube self then (height + 2) * (width + 2)
       else height * width)%nat /\
    (use_cube self = false -> reps = []) /\
    (length reps <= 1)%nat /\
    (forall l msg, In (l, msg) reps -> l = ERROR).
Proof.
  intros Hn Hr H2r Hh Hw.
  unfold execute, execute_body.
  unfold mbind, cmd_bind.
  unfold try_cmd at 1.
  rewrite (seq_cmd_ok (lift (Ok (NpyArray a))) _ w w _ eq_refl).
  rewrite (seq_cmd_ok (ret a) _ w w a eq_refl).
  rewrite Hn. cbn [Nat.eqb negb].
  rewrite Hr, (seq_cmd_ok (lift (Ok r)) _ w w r eq_refl).
  unfold object_name. destruct (use_cube self).
  - destruct (is_2d_max r height width H2r Hh Hw) as (x & l & Hd & _ & _).
    rewrite (seq_cmd_ok _ _ _ _ _
               (create_cube_mesh_ok faces_new_error unique_name self r
                  height width w x l H2r Hd)).
    pose proof (select_imported_ok (length (objects w))) as Hsel.
    unfold try_cmd in Hsel. rewrite Hsel.
    eexists. eexists. split; [reflexivity|]. split.
    { rewrite attempt_verts. unfold grid_mesh. rewrite attempt_all_verts.
      cbn [verts]. rewrite grid_verts_length. lia. }
    split; [discriminate|].
    unfold base_face_reports. destruct (faces_new_error _ _).
    + split; [simpl; lia|]. intros lv msg [Heq|[]]. congruence.
    + split; [simpl; lia|]. intros lv msg [].
  - rewrite (seq_cmd_ok _ _ _ _ _
               (create_plane_mesh_ok faces_new_error unique_name self r
                  height width w H2r)).
    pose proof (select_imported_ok (length (objects w))) as Hsel.
    unfold try_cmd in Hsel. rewrite Hsel.
    exists (grid_mesh faces_new_error r height width), [].
    rewrite app_nil_r. split; [reflexivity|]. split.
    { unfold grid_mesh. rewrite attempt_all_verts. apply grid_verts_length. }
    split; [reflexivity|]. split; [simpl; lia|]. intros lv msg [].
Qed.

(** What the selection leaves: the new object is still the last of the
    scene; the import is finished when no call of the host raised, and
    cancelled with the report of the exception otherwise. *)
Lemma select_imported_spec (objs : list object) (o : object)
    (act : option nat) (reps : list (level * string)) :
  exists st w',
    select_imported host_error (length objs) (mk_world (objs ++ [o]) act reps)
    = (Ok st, w') /\
    (exists o', objects w' = (deselected <$> objs) ++ [o'] \/
                objects w' = objs ++ [o']) /\
    length (objects w') = S (length objs) /\
    (exists o', objects w' !! length objs = Some o' /\
                obj_name o' = obj_name o /\ obj_mesh o' = obj_mesh o) /\
    (st = FINISHED ->
       objects w'
       = (deselected <$> objs) ++ [mk_object (obj_name o) (obj_mesh o) true] /\
       active w' = Some (length objs) /\
       reports w'
       = reps ++ [(INFO, ("Successfully imported " ++ obj_name o)%string)]) /\
    (st = CANCELLED ->
       active w' = act /\
       exists c w0 e, host_error c w0 = Some e /\
         reports w'
         = reps ++ [(ERROR, ("Failed to import: " ++ str e)%string)]) /\
    (selection_works host_error -> st = FINISHED).
Proof.
  unfold select_imported, cancelled. cbn [objects active reports].
  assert (Hd : deselected <$> (objs ++ [o])
               = (deselected <$> objs) ++ [deselected o])
    by (rewrite fmap_app; reflexivity).
  assert (Hsel : alter (fun o => mk_object (obj_name o) (obj_mesh o) true)
                   (length objs) ((deselected <$> objs) ++ [deselected o])
                 = (deselected <$> objs)
                   ++ [mk_object (obj_name o) (obj_mesh o) true]).
  { rewrite (alter_last' _ (length objs)) by apply length_fmap. reflexivity. }
  destruct (host_error SelectAll _) as [e|] eqn:E1.
  { eexists. eexists. split; [reflexivity|]. cbn [objects active reports].
    split; [exists o; now right|].
    split; [rewrite length_app; simpl; lia|].
    split; [exists o; split; [apply lookup_last'; reflexivity|split; reflexivity]|].
    split; [discriminate|]. split.
    - intros _. split; [reflexivity|]. eexists. eexists. eexists.
      split; [exact E1|reflexivity].
    - intros Hw. rewrite Hw in E1. discriminate E1. }
  rewrite Hd.
  destruct (host_error SelectSet _) as [e|] eqn:E2.
  { eexists. eexists. split; [reflexivity|]. cbn [objects active reports].
    split; [exists (deselected o); now left|].
    split; [rewrite length_app, length_fmap; simpl; lia|].
    split; [exists (deselected o); split;
            [apply lookup_last'; apply length_fmap|split; reflexivity]|].
    split; [discriminate|]. split.
    - intros _. split; [reflexivity|]. eexists. eexists. eexists.
      split; [exact E2|reflexivity].
    - intros Hw. rewrite Hw in E2. discriminate E2. }
  rewrite Hsel.
  destruct (host_error SetActive _) as [e|] eqn:E3.
  { eexists. eexists. split; [reflexivity|]. cbn [objects active reports].
    split; [eexists; now left|].
    split; [rewrite length_app, length_fmap; simpl; lia|].
    split; [eexists; split;
            [apply lookup_last'; apply length_fmap|split; reflexivity]|].
    split; [discriminate|]. split.
    - intros _. split; [reflexivity|]. eexists. eexists. eexists.
      split; [exact E3|reflexivity].
    - intros Hw. rewrite Hw in E3. discriminate E3. }
  eexists. eexists. split; [reflexivity|]. cbn [objects active reports].
  split; [eexists; now left|].
  split; [rewrite length_app, length_fmap; simpl; lia|].
  split; [eexists; split;
          [apply lookup_last'; apply length_fmap|split; reflexivity]|].
  split.
  - intros _. split; [reflexivity|]. split; [reflexivity|].
    rewrite (lookup_last' _ _ (length objs)) by apply length_fmap.
    reflexivity.
  - split; [discriminate|]. intros _. reflexivity.
Qed.

End Execute.

(** C4: the code refuses an array that the claim lets through.  The
    int64 array [[5, 5], [5, 5]] is 2-dimensional with two rows and two
    columns, yet [execute] ends with [CANCELLED], the report of a failed
    import and no mesh object: the normalisation is skipped on a flat
    array, the array is still int64, and
    [depth_array *= self.depth_scale] raises. *)
Theorem flat_integer_array_is_refused :
  is_2d flat_fives_int 2 2 /\
  process_depth_array (unit_scale false) (Int64 flat_fives_int)
  = Raise cast_error /\
  execute blender_faces_new_error blender_unique_name object_mode
    (unit_scale false) (Ok (NpyArray (Int64 flat_fives_int))) empty_world
  = (Ok CANCELLED,
     mk_world [] None
       [(ERROR, "Failed to import: Cannot cast ufunc 'multiply' output from dtype('float64') to dtype('int64') with casting rule 'same_kind'")]).
Proof.
  split; [split; reflexivity|]. split; reflexivity.
Qed.

(** The refusals of [execute] on an array of rank 1 and on an array of
    shape (0, 3). *)
Example execute_rank_1 :
  execute blender_faces_new_error blender_unique_name object_mode
    (unit_scale false)
    (Ok (NpyArray (Float64 (mk_ndarray [2%nat] [Fin 1; Fin 2])))) empty_world
  = (Ok CANCELLED, mk_world [] None [(ERROR, "Depth map must be 2D")]).
Proof. reflexivity. Qed.

Example execute_no_rows :
  execute blender_faces_new_error blender_unique_name object_mode
    (unit_scale false) (Ok (NpyArray (Float64 no_rows))) empty_world
  = (Ok CANCELLED,
     mk_world [] None
       [(ERROR, "Failed to import: zero-size array to reduction operation minimum which has no identity")]).
Proof. reflexivity. Qed.

(** In Edit Mode the import of [[0, 1], [1, 0]] is cancelled by the
    exception of [select_all], after the mesh object was made: the
    object stays in the scene. *)
Example execute_in_edit_mode :
  exists o,
    execute blender_faces_new_error blender_unique_name edit_mode
      (unit_scale false) (Ok (NpyArray (Float64 checker))) empty_world
    = (Ok CANCELLED,
       mk_world [o] None
         [(ERROR, "Failed to import: Operator bpy.ops.object.select_all.poll() failed, context is incorrect")]) /\
    obj_name o = "DepthMap_Plane" /\ length (verts (obj_mesh o)) = 4%nat.
Proof. eexists. split; [vm_compute; reflexivity|]. split; reflexivity. Qed.

(** In a scene that has an object named DepthMap_Plane the new object
    gets the name DepthMap_Plane.001, and the report quotes that
    name. *)
Example execute_name_taken :
  exists w',
    execute blender_faces_new_error blender_unique_name object_mode
      (unit_scale false) (Ok (NpyArray (Float64 checker))) one_plane_world
    = (Ok FINISHED, w') /\
    obj_name <$> objects w' = ["DepthMap_Plane"; "DepthMap_Plane.001"] /\
    reports w' = [(INFO, "Successfully imported DepthMap_Plane.001")].
Proof. eexists. split; [vm_compute; reflexivity|]. split; reflexivity. Qed.

(** * Further properties *)

(** ** process_depth_array: errors, order and range *)

Lemma wrap64_small (z : Z) : (0 <= z < 2 ^ 63)%Z -> wrap64 z = z.
Proof.
  intros Hz. unfold wrap64.
  change (2 ^ 63)%Z with 9223372036854775808%Z in *.
  change (2 ^ 64)%Z with 18446744073709551616%Z.
  rewrite Z.mod_small by lia. lia.
Qed.

(** X1: [process_depth_array] raises exactly on an array without
    elements and on an int64 array whose spread, as an int64, is not
    positive; for a spread that fits in an int64 that is a flat array.
    So a float64 array with elements is never refused, and a flat int64
    array always is.  When the function returns, the result has the
    shape and the number of elements of the input. *)
Theorem process_depth_array_errors (self : operator) (arr : nparray) :
  ((exists e, process_depth_array self arr = Raise e) <->
   size arr = 0%nat \/
   exists a lo hi, arr = Int64 a /\ Np.imin a = Ok lo /\ Np.imax a = Ok hi /\
                   (wrap64 (hi - lo) <= 0)%Z) /\
  (forall lo hi, (0 <= hi - lo < 2 ^ 63)%Z ->
                 (wrap64 (hi - lo) <= 0)%Z <-> hi = lo) /\
  (forall r, process_depth_array self arr = Ok r ->
             shape r = shape_of arr /\ length (data r) = size arr).
Proof.
  split; [|split].
  - destruct arr as [a|a].
    + destruct (data a) as [|v d] eqn:E.
      * rewrite (process_depth_array_empty self (Float64 a))
          by (cbn [size]; rewrite E; reflexivity).
        split; [intros _; left; cbn [size]; rewrite E; reflexivity|].
        intros _. eexists. reflexivity.
      * destruct (process_depth_array_float_ok self a) as [r ->];
          [rewrite E; discriminate|].
        split; [intros [e He]; discriminate He|].
        cbn [size]. rewrite E.
        intros [H|(a' & lo & hi & H & _)]; discriminate H.
    + unfold process_depth_array, Np.imin, Np.imax. cbn [size].
      destruct (data a) as [|v d] eqn:E; cbn [mbind res_bind].
      * split; [intros _; now left|]. intros _. eexists. reflexivity.
      * destruct (0 <? wrap64 _)%Z eqn:Ed.
        -- apply Z.ltb_lt in Ed.
           split; [intros [e He]; discriminate He|].
           intros [H|(a' & lo & hi & Ha & Hlo & Hhi & Hle)];
             [discriminate H|].
           injection Ha as <-. rewrite E in Hlo, Hhi.
           injection Hlo as <-. injection Hhi as <-. lia.
        -- apply Z.ltb_ge in Ed. split; [|intros _; eexists; reflexivity].
           intros _. right. exists a. eexists. eexists.
           split; [reflexivity|]. rewrite E.
           split; [reflexivity|]. split; [reflexivity|exact Ed].
  - intros lo hi Hfit. rewrite (wrap64_small _ Hfit). lia.
  - apply process_depth_array_shape.
Qed.

(** The flat int64 array [[5, 5], [5, 5]] is refused, a float64 array
    with the same values is not. *)
Example flat_arrays_by_dtype :
  process_depth_array (unit_scale false) (Int64 flat_fives_int)
  = Raise cast_error /\
  exists r, process_depth_array (unit_scale false) (Float64 flat_fives) = Ok r.
Proof. split; [reflexivity|]. eexists. reflexivity. Qed.

(** An int64 array that is not flat is normalised as a float64 array:
    [[0, 10]] gives [[0, 1]] at scale 1. *)
Example integer_array_normalised :
  exists r,
    process_depth_array (unit_scale false)
      (Int64 (mk_ndarray [1; 2]%nat [0; 10]%Z)) = Ok r /\
    shape r = [1; 2]%nat /\ Forall2 feq (data r) [Fin 0; Fin 1].
Proof.
  eexists. split; [vm_compute; reflexivity|]. split; [reflexivity|].
  repeat constructor.
Qed.

(** The result on an array whose finite values go from [lo] to [hi]
    without overflow of [hi - lo]: the normalised values. *)
Lemma process_depth_array_normalised (self : operator) (a : ndarray float)
    (lo hi : Q) :
  depth_scale_valid self -> normalisable a lo hi ->
  exists x l,
    finite_values a = x :: l /\ lo = list_min x l /\ hi = list_max x l /\
    process_depth_array self (Float64 a)
    = Ok (mk_ndarray (shape a)
            (map Fin (map (fun v => (v - lo) / (hi - lo) * depth_scale self)
                        (x :: l)))).
Proof.
  intros Hs (Hmin & Hmax & Hlt & Hov).
  rewrite nan_to_num_data in Hmin, Hmax.
  destruct (finite_values a) as [|x l] eqn:E; [discriminate|].
  rewrite min_finite in Hmin. rewrite max_finite in Hmax.
  injection Hmin as <-. injection Hmax as <-.
  exists x, l. split; [reflexivity|]. split; [reflexivity|].
  split; [reflexivity|].
  apply (process_depth_array_exact self a x l E Hlt Hov).
  - apply Qlt_le_weak, depth_scale_valid_pos, Hs.
  - apply depth_scale_valid_float, Hs.
Qed.

Lemma spread_pos (lo hi : Q) : lo < hi -> 0 < hi - lo.
Proof.
  intros H. unfold Qminus. rewrite <- (Qplus_opp_r lo).
  apply Qplus_lt_le_compat; [exact H|apply Qle_refl].
Qed.

(** X2: [process_depth_array] keeps the order of the depths.  On a
    float64 array that is normalised without overflow, when the finite
    value at position [i] is at most the one at position [j], the
    elements of the result at [i] and [j] are finite and in the same
    order. *)
Theorem process_depth_array_keeps_order (self : operator) (a : ndarray float)
    (lo hi : Q) (r : ndarray float) (i j : nat) (u v : float) :
  depth_scale_valid self ->
  normalisable a lo hi ->
  process_depth_array self (Float64 a) = Ok r ->
  data a !! i = Some u -> data a !! j = Some v ->
  nan_to_num_elt u <= nan_to_num_elt v ->
  exists u' v',
    data r !! i = Some (Fin u') /\ data r !! j = Some (Fin v') /\ u' <= v'.
Proof.
  intros Hs Hn Hr Hi Hj Huv.
  destruct (process_depth_array_normalised self a lo hi Hs Hn)
    as (x & l & E & -> & -> & Hex).
  rewrite <- E in Hex. rewrite Hex in Hr. injection Hr as <-. cbn [data].
  unfold finite_values.
  change (map ?g ?l) with (g <$> l).
  rewrite !list_lookup_fmap, Hi, Hj. cbn [fmap option_fmap option_map].
  eexists. eexists. split; [reflexivity|]. split; [reflexivity|].
  apply normalise_mono; [|apply Qlt_le_weak, depth_scale_valid_pos, Hs|exact Huv].
  apply spread_pos. destruct Hn as (_ & _ & Hlt & _). exact Hlt.
Qed.

Lemma process_depth_array_keeps_order_witness :
  exists r u' v',
    process_depth_array (unit_scale false) (Float64 checker) = Ok r /\
    data r !! 0%nat = Some (Fin u') /\ data r !! 1%nat = Some (Fin v') /\
    u' <= v'.
Proof.
  destruct (process_depth_array_keeps_order (unit_scale false) checker 0 1
              (mk_ndarray [2; 2]%nat
                 (map Fin (map (fun v => (v - 0) / (1 - 0) * 1) [0; 1; 1; 0])))
              0 1 (Fin 0) (Fin 1))
    as (u' & v' & Hu & Hv & Hle).
  - split; discriminate.
  - split; [reflexivity|]. split; [reflexivity|]. split; [reflexivity|].
    vm_compute. discriminate.
  - vm_compute. reflexivity.
  - reflexivity.
  - reflexivity.
  - discriminate.
  - eexists. exists u', v'. split; [vm_compute; reflexivity|].
    split; [exact Hu|]. split; [exact Hv|exact Hle].
Defined.

(** X3: on a float64 array that is normalised without overflow every
    element of the result is a finite number between 0 and
    [depth_scale]. *)
Theorem process_depth_array_in_range (self : operator) (a : ndarray float)
    (lo hi : Q) (r : ndarray float) :
  depth_scale_valid self ->
  normalisable a lo hi ->
  process_depth_array self (Float64 a) = Ok r ->
  Forall (fun v => exists q, v = Fin q /\ 0 <= q <= depth_scale self) (data r).
Proof.
  intros Hs Hn Hr.
  destruct (process_depth_array_normalised self a lo hi Hs Hn)
    as (x & l & E & -> & -> & Hex).
  rewrite <- E in Hex. rewrite Hex in Hr. injection Hr as <-. cbn [data].
  destruct Hn as (_ & _ & Hlt & _).
  apply Forall_forall. intros w Hw.
  apply list_elem_of_In, in_map_iff in Hw as (q & <- & Hq).
  apply in_map_iff in Hq as (v & <- & Hv). rewrite E in Hv.
  eexists. split; [reflexivity|].
  apply (normalise_range x l (depth_scale self) v Hlt); [|exact Hv].
  apply Qlt_le_weak, depth_scale_valid_pos, Hs.
Qed.

Lemma process_depth_array_in_range_witness :
  exists r,
    process_depth_array (unit_scale false) (Float64 checker) = Ok r /\
    Forall (fun v => exists q, v = Fin q /\
                               0 <= q <= depth_scale (unit_scale false))
      (data r).
Proof.
  eexists. split; [vm_compute; reflexivity|].
  apply (process_depth_array_in_range (unit_scale false) checker 0 1).
  - split; discriminate.
  - split; [reflexivity|]. split; [reflexivity|]. split; [reflexivity|].
    vm_compute. discriminate.
  - vm_compute. reflexivity.
Defined.

(** ** process_depth_array on a flat array *)



(** ** create_depthmap_bmesh: where the vertices are *)

Lemma in_grid_verts (a : ndarray float) (height width : nat) (v : vertex) :
  In v (grid_verts a height width) ->
  exists y x, (y < height)%nat /\ (x < width)%nat /\
              v = grid_vertex a height width y x.
Proof.
  intros Hv. apply list_elem_of_In in Hv. unfold grid_verts in Hv.
  apply list_elem_of_join in Hv as (row & Hv & Hrow).
  apply list_elem_of_fmap in Hrow as (y & -> & Hy).
  unfold grid_row in Hv. apply list_elem_of_fmap in Hv as (x & -> & Hx).
  apply list_elem_of_In, in_range in Hy. apply list_elem_of_In, in_range in Hx.
  exists y, x. split; [lia|]. split; [lia|reflexivity].
Qed.

Lemma Qnat_pos (n : nat) : (0 < n)%nat -> 0 < Qnat n.
Proof. intros H. unfold Qnat, Qlt. simpl. lia. Qed.

Lemma Qnat_ratio_le_1 (n m : nat) : (n <= m)%nat -> (0 < m)%nat ->
  Qnat n / Qnat m <= 1.
Proof.
  intros Hnm Hm. apply Qle_shift_div_r; [apply Qnat_pos, Hm|].
  rewrite Qmult_1_l. apply Qnat_le, Hnm.
Qed.

Lemma mesh_size_le_1 (height width : nat) :
  (mesh_size height width).1 <= 1 /\ (mesh_size height width).2 <= 1.
Proof.
  unfold mesh_size.
  destruct (height <? width)%nat eqn:E1; [|destruct (width <? height)%nat eqn:E2];
    cbn [fst snd]; split; try apply Qle_refl.
  - apply Nat.ltb_lt in E1. apply Qnat_ratio_le_1; lia.
  - apply Nat.ltb_lt in E2. apply Qnat_ratio_le_1; lia.
Qed.

(** A normalised coordinate lies between 0 and the size of the mesh on
    its axis. *)
Lemma norm_range (n : nat) (size : Q) (i : nat) :
  (i < n)%nat -> 0 <= size ->
  0 <= x_norm n size i <= size.
Proof.
  intros Hi Hs. unfold x_norm.
  destruct (1 <? n)%nat eqn:E; [|split; [apply Qle_refl|exact Hs]].
  apply Nat.ltb_lt in E. split.
  - apply Qmult_le_0_compat; [|exact Hs].
    unfold Qdiv. apply Qmult_le_0_compat; [apply Qnat_nonneg|].
    apply Qinv_le_0_compat, Qnat_nonneg.
  - rewrite <- (Qmult_1_l size) at 2.
    apply Qmult_le_compat_r; [|exact Hs].
    apply Qnat_ratio_le_1; lia.
Qed.

(** X4: every vertex of the mesh lies in the square from -0.5 to 0.5 in
    x and y; more precisely x goes from -0.5 to [mesh_width - 0.5] and y
    from -0.5 to [mesh_height - 0.5]. *)
Theorem vertices_in_unit_square
    (faces_new_error : bmesh -> face -> option exn) (a : ndarray float)
    (height width : nat) (m : bmesh) :
  is_2d a height width ->
  create_depthmap_bmesh faces_new_error a = Ok m ->
  Forall (fun v =>
            (- (1 # 2) <= vx v <= (mesh_size height width).1 - (1 # 2) /\
             - (1 # 2) <= vy v <= (mesh_size height width).2 - (1 # 2)) /\
            (vx v <= 1 # 2 /\ vy v <= 1 # 2))
    (verts m).
Proof.
  intros H2 Hm.
  rewrite (create_depthmap_bmesh_ok faces_new_error a height width H2) in Hm.
  injection Hm as <-. rewrite attempt_all_verts. cbn [verts].
  apply Forall_forall. intros v Hv.
  apply list_elem_of_In, in_grid_verts in Hv as (y & x & Hy & Hx & ->).
  unfold grid_vertex. cbn [vx vy].
  change (y_norm height (mesh_size height width).2 y)
    with (x_norm height (mesh_size height width).2 y).
  destruct (mesh_size_nonneg height width) as [Hw0 Hh0].
  destruct (mesh_size_le_1 height width) as [Hw1 Hh1].
  destruct (norm_range width (mesh_size height width).1 x Hx Hw0) as [Hx0 Hx1].
  destruct (norm_range height (mesh_size height width).2 y Hy Hh0) as [Hy0 Hy1].
  assert (Hsub : forall p q, p <= q -> p - (1 # 2) <= q - (1 # 2)).
  { intros p q Hpq. unfold Qminus.
    apply Qplus_le_compat; [exact Hpq|apply Qle_refl]. }
  repeat split.
  - apply (Hsub 0), Hx0.
  - apply Hsub, Hx1.
  - apply (Hsub 0), Hy0.
  - apply Hsub, Hy1.
  - apply (Qle_trans _ (1 - (1 # 2))); [|discriminate].
    apply Hsub. eapply Qle_trans; [exact Hx1|exact Hw1].
  - apply (Qle_trans _ (1 - (1 # 2))); [|discriminate].
    apply Hsub. eapply Qle_trans; [exact Hy1|exact Hh1].
Qed.

Lemma vertices_in_unit_square_witness :
  exists m,
    create_depthmap_bmesh blender_faces_new_error zeros_2x4 = Ok m /\
    Forall (fun v =>
              (- (1 # 2) <= vx v <= (mesh_size 2 4).1 - (1 # 2) /\
               - (1 # 2) <= vy v <= (mesh_size 2 4).2 - (1 # 2)) /\
              (vx v <= 1 # 2 /\ vy v <= 1 # 2))
      (verts m).
Proof.
  eexists. split; [reflexivity|].
  eapply (vertices_in_unit_square blender_faces_new_error zeros_2x4 2 4).
  - split; reflexivity.
  - reflexivity.
Defined.

(** ** create_depthmap_bmesh: the faces *)

Lemma in_grid_quads (height width : nat) (q : face) :
  In q (grid_quads height width) <->
  exists y x, (y < height - 1)%nat /\ (x < width - 1)%nat /\ q = quad width y x.
Proof.
  unfold grid_quads. rewrite <- list_elem_of_In, list_elem_of_join. split.
  - intros (row & Hq & Hrow).
    apply list_elem_of_fmap in Hrow as (y & -> & Hy).
    apply list_elem_of_fmap in Hq as (x & -> & Hx).
    apply list_elem_of_In, in_range in Hy. apply list_elem_of_In, in_range in Hx.
    exists y, x. split; [lia|]. split; [lia|reflexivity].
  - intros (y & x & Hy & Hx & ->).
    exists (quad width y <$> range 0 (width - 1)). split.
    + apply list_elem_of_fmap. exists x. split; [reflexivity|].
      apply list_elem_of_In, in_range. lia.
    + apply list_elem_of_fmap. exists y. split; [reflexivity|].
      apply list_elem_of_In, in_range. lia.
Qed.

Lemma grid_quads_length (height width : nat) :
  length (grid_quads height width) = ((height - 1) * (width - 1))%nat.
Proof.
  unfold grid_quads. rewrite length_join.
  rewrite (sum_list_fmap_same (width - 1)).
  - unfold range. rewrite length_fmap, length_seq. lia.
  - apply Forall_fmap, Forall_forall. intros y _. cbn.
    unfold range. rewrite length_fmap, length_seq. lia.
Qed.

(** The corners of a quad are four different vertices of the grid. *)
Lemma quad_corners (height width y x : nat) :
  (y < height - 1)%nat -> (x < width - 1)%nat ->
  NoDup (quad width y x) /\
  Forall (fun i => (i < height * width)%nat) (quad width y x).
Proof.
  intros Hy Hx. unfold quad.
  replace ((y + 1) * width)%nat with (y * width + width)%nat by lia.
  assert (Hb : (y * width + width + width <= height * width)%nat) by nia.
  set (p := (y * width)%nat) in *. clearbody p. split.
  - apply NoDup_ListNoDup.
    repeat (apply List.NoDup_cons; [simpl; lia|]). apply List.NoDup_nil.
  - repeat (apply Forall_cons_2; [lia|]). apply Forall_nil_2.
Qed.

(** The faces made by a run of attempts are some of the faces attempted,
    in the order of the attempts. *)
Lemma attempt_all_sublist (faces_new_error : bmesh -> face -> option exn)
    (qs : list face) (m : bmesh) :
  exists l, faces (attempt_all faces_new_error m qs) = faces m ++ l /\
            sublist l qs.
Proof.
  unfold attempt_all. revert m.
  induction qs as [|q qs IH]; intros m; simpl.
  - exists []. split; [now rewrite app_nil_r|constructor].
  - destruct (IH (attempt faces_new_error m q)) as (l & Hl & Hsub).
    rewrite Hl. unfold attempt.
    destruct (faces_new_error m q).
    + exists l. split; [reflexivity|]. now apply sublist_cons.
    + exists (q :: l). cbn [faces]. split.
      * rewrite <- app_assoc. reflexivity.
      * now apply sublist_skip.
Qed.

(** X5: whatever Blender refuses, every face of the mesh is a quad of
    the grid, with four different corners that are vertices of the mesh,
    and there are at most [(height - 1) * (width - 1)] faces. *)
Theorem faces_are_grid_quads
    (faces_new_error : bmesh -> face -> option exn) (a : ndarray float)
    (height width : nat) (m : bmesh) :
  is_2d a height width ->
  create_depthmap_bmesh faces_new_error a = Ok m ->
  Forall (fun f =>
            (exists y x, (y < height - 1)%nat /\ (x < width - 1)%nat /\
                         f = quad width y x) /\
            NoDup f /\
            Forall (fun i => (i < length (verts m))%nat) f)
    (faces m) /\
  (length (faces m) <= (height - 1) * (width - 1))%nat.
Proof.
  intros H2 Hm.
  rewrite (create_depthmap_bmesh_ok faces_new_error a height width H2) in Hm.
  injection Hm as <-. rewrite attempt_all_verts. cbn [verts].
  destruct (attempt_all_sublist faces_new_error (grid_quads height width)
              (mk_bmesh (grid_verts a height width) [])) as (l & -> & Hsub).
  cbn [faces app]. split.
  - apply Forall_forall. intros f Hf.
    assert (Hin : In f (grid_quads height width)).
    { apply list_elem_of_In. eapply sublist_subseteq; [exact Hsub|exact Hf]. }
    apply in_grid_quads in Hin as (y & x & Hy & Hx & ->).
    split; [exists y, x; auto|].
    rewrite grid_verts_length. apply quad_corners; assumption.
  - rewrite <- grid_quads_length. apply sublist_length, Hsub.
Qed.

Lemma faces_are_grid_quads_witness :
  exists m,
    create_depthmap_bmesh refuse_first_quad zeros_2x3 = Ok m /\
    Forall (fun f =>
              (exists y x, (y < 2 - 1)%nat /\ (x < 3 - 1)%nat /\
                           f = quad 3 y x) /\
              NoDup f /\
              Forall (fun i => (i < length (verts m))%nat) f)
      (faces m) /\
    (length (faces m) <= (2 - 1) * (3 - 1))%nat.
Proof.
  eexists. split; [reflexivity|].
  eapply (faces_are_grid_quads refuse_first_quad zeros_2x3 2 3).
  - split; reflexivity.
  - reflexivity.
Defined.


(** ** The faces under Blender's documented refusals *)

Lemma has_dup_true (f : face) : has_dup f = true -> ~ NoDup f.
Proof.
  induction f as [|v f IH]; simpl; [discriminate|].
  intros H Hnd. apply NoDup_cons in Hnd as [Hv Hnd].
  apply orb_true_iff in H as [H|H].
  - apply existsb_exists in H as (u & Hu & Heq).
    apply Nat.eqb_eq in Heq. subst u. apply Hv, list_elem_of_In, Hu.
  - exact (IH H Hnd).
Qed.

(** [blender_faces_new_error] refuses as documented. *)
Lemma blender_refuses_as_documented :
  refuses_as_documented blender_faces_new_error.
Proof.
  intros m q e. unfold blender_faces_new_error.
  destruct (length q <? 3)%nat eqn:E1.
  { intros _. left. apply Nat.ltb_lt, E1. }
  destruct (has_dup q) eqn:E2.
  { intros _. right; left. apply has_dup_true, E2. }
  destruct (existsb (same_face q) (faces m)) eqn:E3; [|discriminate].
  intros _. right; right.
  apply existsb_exists in E3 as (f & Hf & Hsame). exists f. split; [exact Hf|].
  unfold same_face in Hsame. apply andb_true_iff in Hsame as [_ Hall].
  intros v Hv. rewrite forallb_forall in Hall.
  apply Hall, existsb_exists in Hv as (u & Hu & Heq).
  apply Nat.eqb_eq in Heq. now subst u.
Qed.

Lemma quad_subset_eq (width y x y' x' : nat) :
  (x < width - 1)%nat -> (x' < width - 1)%nat ->
  (forall v, In v (quad width y x) -> In v (quad width y' x')) ->
  y = y' /\ x = x'.
Proof.
  intros Hx Hx' Hsub.
  assert (H1 := Hsub (y * width + x)%nat ltac:(simpl; auto)).
  assert (H2 := Hsub ((y + 1) * width + (x + 1))%nat ltac:(simpl; auto)).
  unfold quad in H1, H2. simpl in H1, H2.
  assert (Hlo : (y' * width + x' <= y * width + x)%nat)
    by (destruct H1 as [H|[H|[H|[H|[]]]]]; lia).
  assert (Hhi : ((y + 1) * width + (x + 1) <= (y' + 1) * width + (x' + 1))%nat)
    by (destruct H2 as [H|[H|[H|[H|[]]]]]; lia).
  apply (grid_index_inj width); lia.
Qed.

Lemma grid_quads_NoDup (height width : nat) : NoDup (grid_quads height width).
Proof.
  apply NoDup_alt. intros i j q Hi Hj.
  assert (Hrow : Forall (fun l : list face => length l = (width - 1)%nat)
            ((fun y => quad width y <$> range 0 (width - 1))
             <$> range 0 (height - 1))).
  { apply Forall_fmap, Forall_forall. intros y _. cbn.
    unfold range. rewrite length_fmap, length_seq. lia. }
  unfold grid_quads in Hi, Hj.
  apply (join_lookup_Some_same_length (width - 1) _ _ _ Hrow) in Hi
    as (y1 & l1 & x1 & Hl1 & Hq1 & ->).
  apply (join_lookup_Some_same_length (width - 1) _ _ _ Hrow) in Hj
    as (y2 & l2 & x2 & Hl2 & Hq2 & ->).
  rewrite list_lookup_fmap in Hl1, Hl2.
  destruct (range 0 (height - 1) !! y1) as [y1'|] eqn:Ey1; [|discriminate].
  destruct (range 0 (height - 1) !! y2) as [y2'|] eqn:Ey2; [|discriminate].
  injection Hl1 as <-. injection Hl2 as <-.
  rewrite list_lookup_fmap in Hq1, Hq2.
  destruct (range 0 (width - 1) !! x1) as [x1'|] eqn:Ex1; [|discriminate].
  destruct (range 0 (width - 1) !! x2) as [x2'|] eqn:Ex2; [|discriminate].
  injection Hq1 as <-.
  assert (Hq : quad width y2' x2' = quad width y1' x1')
    by (cbn in Hq2; congruence).
  unfold range in *.
  apply lookup_seq in Ey1 as [Ey1 ?]. apply lookup_seq in Ey2 as [Ey2 ?].
  apply lookup_seq in Ex1 as [Ex1 ?]. apply lookup_seq in Ex2 as [Ex2 ?].
  destruct (quad_subset_eq width y2' x2' y1' x1') as [Hy Hx]; [lia|lia| |lia].
  rewrite Hq. auto.
Qed.

(** A host that refuses as documented refuses no quad of the grid. *)
Lemma attempt_all_grid_quads (faces_new_error : bmesh -> face -> option exn)
    (height width : nat) (vs : list vertex) :
  refuses_as_documented faces_new_error ->
  forall qs pre,
    grid_quads height width = pre ++ qs ->
    attempt_all faces_new_error (mk_bmesh vs pre) qs
    = mk_bmesh vs (pre ++ qs).
Proof.
  intros Hdoc qs. induction qs as [|q qs IH]; intros pre Hsplit.
  - rewrite app_nil_r. reflexivity.
  - assert (Hq : In q (grid_quads height width)).
    { rewrite Hsplit. apply in_or_app. right. now left. }
    apply in_grid_quads in Hq as (y & x & Hy & Hx & ->).
    assert (Hacc : faces_new_error (mk_bmesh vs pre) (quad width y x) = None).
    { destruct (faces_new_error _ _) as [e|] eqn:E; [|reflexivity].
      exfalso. destruct (Hdoc _ _ _ E) as [Hlen|[Hdup|(f & Hf & Hsub)]].
      - simpl in Hlen. lia.
      - apply Hdup. apply (quad_corners height width y x); assumption.
      - cbn [faces] in Hf.
        assert (Hfg : In f (grid_quads height width)).
        { rewrite Hsplit. apply in_or_app. now left. }
        apply in_grid_quads in Hfg as (y' & x' & Hy' & Hx' & ->).
        destruct (quad_subset_eq width y x y' x' Hx Hx' Hsub) as [-> ->].
        pose proof (grid_quads_NoDup height width) as Hnd.
        rewrite Hsplit in Hnd. apply NoDup_app in Hnd as (_ & Hdis & _).
        apply (Hdis (quad width y' x')).
        + apply list_elem_of_In, Hf.
        + apply list_elem_of_here. }
    unfold attempt_all. simpl. unfold attempt at 2. rewrite Hacc.
    cbn [verts faces].
    fold (attempt_all faces_new_error
            (mk_bmesh vs (pre ++ [quad width y x])) qs).
    rewrite (IH (pre ++ [quad width y x])).
    + rewrite <- app_assoc. reflexivity.
    + rewrite Hsplit, <- app_assoc. reflexivity.
Qed.

(** X6: with a host that refuses a face only for the reasons the code
    names (it exists already, or it is degenerate), no quad of the grid
    is refused: the mesh has exactly the quads of the grid,
    [(height - 1) * (width - 1)] of them, and none when the array has
    one row or one column. *)
Theorem no_quad_refused_as_documented
    (faces_new_error : bmesh -> face -> option exn) (a : ndarray float)
    (height width : nat) :
  refuses_as_documented faces_new_error ->
  is_2d a height width ->
  exists m,
    create_depthmap_bmesh faces_new_error a = Ok m /\
    faces m = grid_quads height width /\
    length (faces m) = ((height - 1) * (width - 1))%nat /\
    ((height = 1 \/ width = 1)%nat -> faces m = []).
Proof.
  intros Hdoc H2.
  rewrite (create_depthmap_bmesh_ok faces_new_error a height width H2).
  eexists. split; [reflexivity|].
  rewrite (attempt_all_grid_quads faces_new_error height width _ Hdoc
             (grid_quads height width) [] eq_refl).
  cbn [faces app].
  split; [reflexivity|]. split; [apply grid_quads_length|].
  intros Hone. apply length_zero_iff_nil. rewrite grid_quads_length.
  destruct Hone as [-> | ->]; lia.
Qed.

Lemma no_quad_refused_as_documented_witness :
  exists m,
    create_depthmap_bmesh blender_faces_new_error zeros_2x3 = Ok m /\
    faces m = grid_quads 2 3 /\
    length (faces m) = ((2 - 1) * (3 - 1))%nat /\
    ((2 = 1 \/ 3 = 1)%nat -> faces m = []).
Proof.
  apply (no_quad_refused_as_documented blender_faces_new_error zeros_2x3 2 3).
  - exact blender_refuses_as_documented.
  - split; reflexivity.
Defined.

(** ** create_cube_mesh under Blender's documented refusals *)

(** The base face is not inside any quad of the grid. *)
Lemma base_not_in_a_quad (height width y x : nat) :
  (3 <= height)%nat -> (3 <= width)%nat ->
  ~ (forall v, In v (base_vert_indices height width) ->
               In v (quad width y x)).
Proof.
  intros Hh Hw Hsub.
  assert (H0 : In 0%nat (base_vert_indices height width)).
  { apply in_base_vert_indices. left. exists 0%nat. lia. }
  assert (H1 : In ((height - 1) * width + 1)%nat
                 (base_vert_indices height width)).
  { apply in_base_vert_indices. right; left. exists 1%nat. lia. }
  apply Hsub in H0. apply Hsub in H1. unfold quad in H0, H1.
  simpl in H0, H1.
  assert (Hq : (y * width + x = 0)%nat)
    by (destruct H0 as [H|[H|[H|[H|[]]]]]; lia).
  assert (y = 0%nat /\ x = 0%nat) as [-> ->] by nia.
  assert (Hb : (2 * width <= (height - 1) * width)%nat) by nia.
  destruct H1 as [H|[H|[H|[H|[]]]]]; lia.
Qed.

(** X7: with a host that refuses a face only for the reasons the code
    names, [create_cube_mesh] never reports a failure of the base face:
    the mesh has the quads of the padded grid followed by the base face,
    [(height + 1) * (width + 1) + 1] faces in all, and the reports are
    those of before. *)
Theorem cube_faces_as_documented
    (faces_new_error : bmesh -> face -> option exn)
    (unique_name : string -> world -> string) (self : operator)
    (a : ndarray float) (height width : nat) (w : world) :
  refuses_as_documented faces_new_error ->
  is_2d a height width -> (1 <= height)%nat -> (1 <= width)%nat ->
  exists obj w' o,
    create_cube_mesh faces_new_error unique_name self a w = (Ok obj, w') /\
    objects w' !! obj = Some o /\
    reports w' = reports w /\
    faces (obj_mesh o)
    = grid_quads (height + 2) (width + 2)
      ++ [base_vert_indices (height + 2) (width + 2)] /\
    length (faces (obj_mesh o)) = ((height + 1) * (width + 1) + 1)%nat.
Proof.
  intros Hdoc H2 Hh Hw.
  destruct (is_2d_max a height width H2 Hh Hw) as (x & l & Hd & _ & _).
  rewrite (create_cube_mesh_ok faces_new_error unique_name self a
      height width w x l H2 Hd).
  replace (height + 2)%nat with (S (S height)) by lia.
  replace (width + 2)%nat with (S (S width)) by lia.
  cbv zeta. unfold grid_mesh.
  rewrite (attempt_all_grid_quads faces_new_error (S (S height)) (S (S width))
             _ Hdoc (grid_quads (S (S height)) (S (S width))) [] eq_refl).
  cbn [app].
  set (grid := mk_bmesh _ (grid_quads (S (S height)) (S (S width)))).
  set (base := base_vert_indices (S (S height)) (S (S width))).
  assert (Hacc : faces_new_error grid base = None).
  { destruct (faces_new_error grid base) as [e|] eqn:E; [|reflexivity].
    exfalso. destruct (Hdoc _ _ _ E) as [Hlen|[Hdup|(f & Hf & Hsub)]].
    - pose proof (base_vert_indices_length (S (S height)) (S (S width))
                    ltac:(lia) ltac:(lia)) as Hl.
      fold base in Hl. lia.
    - apply Hdup. apply base_vert_indices_NoDup; lia.
    - unfold grid in Hf. cbn [faces] in Hf.
      apply in_grid_quads in Hf as (y' & x' & _ & _ & ->).
      apply (base_not_in_a_quad (S (S height)) (S (S width)) y' x'); [lia|lia|].
      exact Hsub. }
  rewrite Hacc. unfold attempt. rewrite Hacc.
  eexists. eexists. eexists. split; [reflexivity|]. split.
  { cbn [objects]. apply list_lookup_middle. reflexivity. }
  cbn [reports obj_mesh faces base_face_reports grid].
  split; [apply app_nil_r|]. split; [reflexivity|].
  rewrite length_app, grid_quads_length. simpl. lia.
Qed.

Lemma cube_faces_as_documented_witness :
  exists obj w' o,
    create_cube_mesh blender_faces_new_error blender_unique_name
        (unit_scale true) checker
      empty_world = (Ok obj, w') /\
    objects w' !! obj = Some o /\
    reports w' = reports empty_world /\
    faces (obj_mesh o)
    = grid_quads (2 + 2) (2 + 2) ++ [base_vert_indices (2 + 2) (2 + 2)] /\
    length (faces (obj_mesh o)) = ((2 + 1) * (2 + 1) + 1)%nat.
Proof.
  apply (cube_faces_as_documented blender_faces_new_error blender_unique_name
      (unit_scale true)
           checker 2 2 empty_world).
  - exact blender_refuses_as_documented.
  - split; reflexivity.
  - lia.
  - lia.
Defined.

(** ** The base face: what it visits *)

Lemma on_border_cases (height width i : nat) :
  (0 < width)%nat ->
  on_border height width i = true ->
  exists y x, i = (y * width + x)%nat /\ (y < height)%nat /\ (x < width)%nat /\
              (y = 0 \/ y = height - 1 \/ x = 0 \/ x = width - 1)%nat.
Proof.
  intros Hw Hb. unfold on_border in Hb.
  apply andb_true_iff in Hb as [Hlt Hb]. apply Nat.ltb_lt in Hlt.
  exists (i / width)%nat, (i mod width)%nat.
  assert (Hdm := Nat.div_mod_eq i width).
  assert (Hm : (i mod width < width)%nat) by (apply Nat.mod_upper_bound; lia).
  assert (Hy : (i / width < height)%nat).
  { apply Nat.Div0.div_lt_upper_bound. lia. }
  split; [lia|]. split; [exact Hy|]. split; [exact Hm|].
  rewrite !orb_true_iff, !Nat.eqb_eq in Hb. tauto.
Qed.

(** X8: on a grid of at least 3 x 3 vertices the loops of
    [create_cube_mesh] collect each border vertex at most once and every
    border vertex but four: the two bottom corners, the vertex above the
    bottom-right corner and the vertex left of the top-right corner.  No
    vertex inside the grid is collected. *)
Theorem base_face_visits_border_but_four (bm : bmesh) (height width : nat) :
  length (verts bm) = (height * width)%nat ->
  (3 <= height)%nat -> (3 <= width)%nat ->
  exists base,
    collect_base_verts bm height width = Ok base /\
    NoDup base /\
    (length base + 4 = 2 * height + 2 * width - 4)%nat /\
    forall i,
      on_border height width i = true <->
      In i base \/
      In i [((height - 1) * width + 0)%nat;
            ((height - 1) * width + (width - 1))%nat;
            ((height - 2) * width + (width - 1))%nat;
            (0 * width + (width - 2))%nat].
Proof.
  intros Hlen Hh Hw.
  rewrite (collect_base_verts_ok bm height width Hlen) by lia.
  eexists. split; [reflexivity|].
  split; [apply base_vert_indices_NoDup; lia|].
  split; [apply base_vert_indices_length; lia|].
  intros i. split.
  - intros Hb.
    apply on_border_cases in Hb as (y & x & -> & Hy & Hx & Hpos); [|lia].
    rewrite in_base_vert_indices. simpl.
    destruct (Nat.eq_dec x 0%nat) as [->|Hx0].
    { destruct (Nat.eq_dec y (height - 1)%nat) as [->|Hy1]; [right; auto|].
      left. left. exists y. lia. }
    destruct (Nat.eq_dec y (height - 1)%nat) as [->|Hy1].
    { destruct (Nat.eq_dec x (width - 1)%nat) as [->|Hx1]; [right; auto|].
      left. right; left. exists x. lia. }
    destruct (Nat.eq_dec x (width - 1)%nat) as [->|Hx1].
    { destruct (Nat.eq_dec y (height - 2)%nat) as [->|Hy2]; [right; auto|].
      left. right; right; left. exists y. lia. }
    assert (y = 0%nat) as -> by lia.
    destruct (Nat.eq_dec x (width - 2)%nat) as [->|Hx2]; [right; auto 6|].
    left. right; right; right. lia.
  - intros [Hi|Hi].
    + pose proof (base_vert_indices_on_border height width ltac:(lia) ltac:(lia))
        as Hall.
      rewrite Forall_forall in Hall. apply Hall, list_elem_of_In, Hi.
    + pose proof (base_face_leaves_out_four height width Hh Hw) as Hall.
      rewrite Forall_forall in Hall.
      apply list_elem_of_In, Hall in Hi. apply Hi.
Qed.

Lemma base_face_visits_border_but_four_witness :
  exists base,
    collect_base_verts (grid_mesh blender_faces_new_error
                          (pad1 (Fin 0) one_cell) 3 3) 3 3 = Ok base /\
    NoDup base /\
    (length base + 4 = 2 * 3 + 2 * 3 - 4)%nat /\
    forall i,
      on_border 3 3 i = true <->
      In i base \/
      In i [((3 - 1) * 3 + 0)%nat; ((3 - 1) * 3 + (3 - 1))%nat;
            ((3 - 2) * 3 + (3 - 1))%nat; (0 * 3 + (3 - 2))%nat].
Proof.
  apply (base_face_visits_border_but_four
           (grid_mesh blender_faces_new_error (pad1 (Fin 0) one_cell) 3 3) 3 3).
  - reflexivity.
  - lia.
  - lia.
Defined.

(** ** execute: the scene after the import *)

Lemma is_2d_data_nonempty {A : Type} (a : ndarray A) (height width : nat) :
  is_2d a height width -> (1 <= height)%nat -> (1 <= width)%nat ->
  data a <> [].
Proof.
  intros [Hsh Hwf] Hh Hw E. unfold wf in Hwf. rewrite E, Hsh in Hwf.
  simpl in Hwf. nia.
Qed.

(** X9: when no call on the selection raises, the import of a float64
    array with at least one row and one column goes to its end.  The
    scene then has the objects of before, with their names and meshes
    and none of them selected, followed by the new object, which is
    selected and active; its name is the one Blender gave it for
    DepthMap_Cube or DepthMap_Plane, and the last report is the INFO
    report that quotes this name. *)
Theorem finished_import_selects_new_object
    (faces_new_error : bmesh -> face -> option exn)
    (unique_name : string -> world -> string)
    (host_error : host_call -> world -> option exn) (self : operator)
    (a : ndarray float) (height width : nat) (w : world) :
  selection_works host_error ->
  is_2d a height width -> (1 <= height)%nat -> (1 <= width)%nat ->
  exists w' o,
    execute faces_new_error unique_name host_error self
      (Ok (NpyArray (Float64 a))) w = (Ok FINISHED, w') /\
    objects w' = (deselected <$> objects w) ++ [o] /\
    obj_name o = unique_name (object_name self) w /\
    selected o = true /\
    active w' = Some (length (objects w)) /\
    (forall k o', objects w' !! k = Some o' ->
                  (selected o' = true <-> k = length (objects w))) /\
    last (reports w')
    = Some (INFO, ("Successfully imported " ++ obj_name o)%string).
Proof.
  intros Hsel H2 Hh Hw.
  destruct (process_depth_array_float_ok self a
              (is_2d_data_nonempty a height width H2 Hh Hw)) as [r Hr].
  assert (H2r : is_2d r height width).
  { apply (process_depth_array_is_2d self (Float64 a)); [apply H2|apply H2|].
    exact Hr. }
  destruct (execute_proceeds faces_new_error unique_name host_error self
              (Float64 a) r height width w) as (mesh & reps & -> & _);
    [unfold ndim_of; cbn [shape_of]; rewrite (proj1 H2); reflexivity
    |exact Hr|exact H2r|exact Hh|exact Hw|].
  destruct (select_imported_spec host_error (objects w)
              (mk_object (unique_name (object_name self) w) mesh false)
              (active w) (reports w ++ reps))
    as (st & w' & -> & _ & _ & _ & Hfin & _ & Hst).
  rewrite (Hst Hsel) in *. destruct (Hfin eq_refl) as (Hobj & Hact & Hrep).
  cbn [obj_name obj_mesh] in Hobj, Hrep.
  eexists. eexists. split; [reflexivity|].
  split; [exact Hobj|]. split; [reflexivity|]. split; [reflexivity|].
  split; [exact Hact|]. split.
  - intros k o' Hk. rewrite Hobj in Hk.
    destruct (Nat.lt_ge_cases k (length (objects w))) as [Hlt|Hge].
    + rewrite lookup_app_l in Hk by (rewrite length_fmap; exact Hlt).
      rewrite list_lookup_fmap in Hk.
      destruct (objects w !! k) as [o0|]; [|discriminate].
      injection Hk as <-. cbn. split; [discriminate|lia].
    + rewrite lookup_app_r in Hk by (rewrite length_fmap; exact Hge).
      rewrite length_fmap in Hk.
      destruct (k - length (objects w))%nat as [|n] eqn:E;
        [|destruct n; discriminate].
      injection Hk as <-. cbn. split; [lia|reflexivity].
  - rewrite Hrep. cbn [obj_name]. apply last_snoc.
Qed.

Lemma finished_import_selects_new_object_witness :
  exists w' o,
    execute blender_faces_new_error blender_unique_name object_mode
      (unit_scale false) (Ok (NpyArray (Float64 checker))) one_plane_world
    = (Ok FINISHED, w') /\
    objects w' = (deselected <$> objects one_plane_world) ++ [o] /\
    obj_name o
    = blender_unique_name (object_name (unit_scale false)) one_plane_world /\
    selected o = true /\
    active w' = Some (length (objects one_plane_world)) /\
    (forall k o', objects w' !! k = Some o' ->
                  (selected o' = true <-> k = length (objects one_plane_world))) /\
    last (reports w')
    = Some (INFO, ("Successfully imported " ++ obj_name o)%string).
Proof.
  apply (finished_import_selects_new_object blender_faces_new_error
           blender_unique_name object_mode (unit_scale false) checker 2 2
           one_plane_world).
  - intros c w. reflexivity.
  - split; reflexivity.
  - lia.
  - lia.
Defined.

(** ** execute: outcomes *)

Section Outcomes.

Variable faces_new_error : bmesh -> face -> option exn.
Variable unique_name : string -> world -> string.
Variable host_error : host_call -> world -> option exn.

Lemma outcome_cancelled (w : world) (msg : string) :
  outcome host_error w (Ok CANCELLED,
             mk_world (objects w) (active w) (reports w ++ [(ERROR, msg)])).
Proof.
  eexists. eexists. split; [reflexivity|]. cbn [objects active reports].
  split; [intros _; eexists; apply last_snoc|].
  split; [discriminate|]. split; [now left|].
  intros _ _. split; [reflexivity|]. split; [reflexivity|].
  eexists. reflexivity.
Qed.

Lemma outcome_array (self : operator) (arr : nparray) (w : world) :
  wf_array arr ->
  outcome host_error w (execute faces_new_error unique_name host_error self
               (Ok (NpyArray arr)) w).
Proof.
  intros Hwf.
  destruct (Nat.eq_dec (ndim_of arr) 2%nat) as [Hn|Hn].
  2:{ rewrite (execute_not_2d _ _ _ self arr w Hn). apply outcome_cancelled. }
  destruct (process_depth_array self arr) as [r|e] eqn:Hr.
  2:{ rewrite (execute_raises _ _ _ self arr w e Hn Hr).
      apply outcome_cancelled. }
  assert (Hsh : exists height width, shape_of arr = [height; width]).
  { unfold ndim_of in Hn.
    destruct (shape_of arr) as [|h [|w0 [|? ?]]]; try discriminate. eauto. }
  destruct Hsh as (height & width & Hsh).
  assert (Hsize : size arr <> 0%nat).
  { intros H0. rewrite (process_depth_array_empty self arr H0) in Hr.
    discriminate Hr. }
  rewrite (size_of_shape arr height width Hwf Hsh) in Hsize.
  destruct (execute_proceeds faces_new_error unique_name host_error self
              arr r height width w Hn Hr
              (process_depth_array_is_2d self arr r height width Hwf Hsh Hr)
              ltac:(nia) ltac:(nia))
    as (mesh & reps & -> & _).
  destruct (select_imported_spec host_error (objects w)
              (mk_object (unique_name (object_name self) w) mesh false)
              (active w) (reports w ++ reps))
    as (st & w' & -> & _ & Hlen & _ & Hfin & Hcan & Hst).
  exists st, w'. split; [reflexivity|]. split; [|split; [|split]].
  - intros Hc. destruct (Hcan Hc) as (_ & c & w0 & e & _ & ->).
    eexists. apply last_snoc.
  - intros Hf. destruct (Hfin Hf) as (_ & Hact & ->).
    split; [exact Hlen|]. split; [exact Hact|]. eexists. apply last_snoc.
  - right. exact Hlen.
  - intros Hw Hc. rewrite (Hst Hw) in Hc. discriminate Hc.
Qed.

End Outcomes.

(** X10: [execute] lets no exception out, whatever [np.load] did and
    whatever Blender refuses or raises.  When it ends with [CANCELLED]
    its last report is an ERROR report; when it ends with [FINISHED] the
    scene has one object more, which is the active one, and the last
    report is an INFO report.  The scene has the objects of before or
    one object more; when no call on the selection raises, a cancelled
    import leaves the objects and the active object as they were and
    adds one report. *)
Theorem execute_outcomes
    (faces_new_error : bmesh -> face -> option exn)
    (unique_name : string -> world -> string)
    (host_error : host_call -> world -> option exn) (self : operator)
    (loaded : res npfile) (w : world) :
  loaded_wf loaded ->
  exists st w',
    execute faces_new_error unique_name host_error self loaded w
    = (Ok st, w') /\
    (st = CANCELLED -> exists msg, last (reports w') = Some (ERROR, msg)) /\
    (st = FINISHED ->
       length (objects w') = S (length (objects w)) /\
       active w' = Some (length (objects w)) /\
       exists msg, last (reports w') = Some (INFO, msg)) /\
    (objects w' = objects w \/
     length (objects w') = S (length (objects w))) /\
    (selection_works host_error -> st = CANCELLED ->
       objects w' = objects w /\ active w' = active w /\
       exists msg, reports w' = reports w ++ [(ERROR, msg)]).
Proof.
  intros Hwf. change (outcome host_error w
    (execute faces_new_error unique_name host_error self loaded w)).
  destruct loaded as [[a|entries]|e].
  - apply outcome_array, Hwf.
  - destruct entries as [|[k a] rest].
    + apply (outcome_cancelled _ w
               ("Failed to import: list index out of range")%string).
    + rewrite execute_npz. apply outcome_array.
      cbn in Hwf. apply Forall_cons in Hwf as [Ha _]. exact Ha.
  - apply (outcome_cancelled _ w ("Failed to import: " ++ str e)%string).
Qed.

Lemma execute_outcomes_witness :
  exists st w',
    execute blender_faces_new_error blender_unique_name edit_mode
      (unit_scale false) (Ok vector_first) empty_world = (Ok st, w') /\
    (st = CANCELLED -> exists msg, last (reports w') = Some (ERROR, msg)) /\
    (st = FINISHED ->
       length (objects w') = S (length (objects empty_world)) /\
       active w' = Some (length (objects empty_world)) /\
       exists msg, last (reports w') = Some (INFO, msg)) /\
    (objects w' = objects empty_world \/
     length (objects w') = S (length (objects empty_world))) /\
    (selection_works edit_mode -> st = CANCELLED ->
       objects w' = objects empty_world /\ active w' = active empty_world /\
       exists msg, reports w' = reports empty_world ++ [(ERROR, msg)]).
Proof.
  apply (execute_outcomes blender_faces_new_error blender_unique_name
           edit_mode (unit_scale false) (Ok vector_first) empty_world).
  repeat constructor.
Defined.

(** X11: of an archive [execute] uses the first array only: the import
    is the one of that array loaded alone, whatever the other arrays of
    the archive are; an archive without arrays is reported as a failed
    import, and so is a failure of [np.load], with the message of the
    exception. *)
Theorem archive_first_array_only
    (faces_new_error : bmesh -> face -> option exn)
    (unique_name : string -> world -> string)
    (host_error : host_call -> world -> option exn) (self : operator)
    (w : world) :
  (forall k a rest,
     execute faces_new_error unique_name host_error self
       (Ok (NpzFile ((k, a) :: rest))) w
     = execute faces_new_error unique_name host_error self
         (Ok (NpyArray a)) w) /\
  execute faces_new_error unique_name host_error self (Ok (NpzFile [])) w
  = (Ok CANCELLED,
     mk_world (objects w) (active w)
       (reports w ++ [(ERROR, "Failed to import: list index out of range")])) /\
  (forall e,
     execute faces_new_error unique_name host_error self (Raise e) w
     = (Ok CANCELLED,
        mk_world (objects w) (active w)
          (reports w ++ [(ERROR, ("Failed to import: " ++ str e)%string)]))).
Proof.
  split; [|split].
  - intros k a rest. apply execute_npz.
  - reflexivity.
  - intros e. reflexivity.
Qed.

(** The 2 x 2 array that comes second in the archive is not looked at:
    the 1-dimensional array that comes first is refused. *)
Example first_array_decides :
  execute blender_faces_new_error blender_unique_name object_mode
    (unit_scale false) (Ok vector_first) empty_world
  = (Ok CANCELLED, mk_world [] None [(ERROR, "Depth map must be 2D")]).
Proof. reflexivity. Qed.

(** ** execute: which arrays are imported *)

(** X18: an array that is not 2-dimensional, or has no row or no column,
    is refused whatever its dtype: [execute] ends with [CANCELLED], one
    ERROR report more and the scene as it was.  A float64 array with two
    dimensions, at least one row and one column is never refused in this
    way: the mesh object is made, under the name Blender gives it, with
    the vertices of the grid; the import is finished when no call on the
    selection raises, and when one does it is cancelled with the report
    of that exception while the object stays in the scene. *)
Theorem import_by_shape
    (faces_new_error : bmesh -> face -> option exn)
    (unique_name : string -> world -> string)
    (host_error : host_call -> world -> option exn) (self : operator)
    (loaded : npfile) (arr : nparray) (w : world) :
  wf_array arr -> selects loaded arr ->
  exists st w',
    execute faces_new_error unique_name host_error self (Ok loaded) w
    = (Ok st, w') /\
    ((ndim_of arr <> 2%nat \/
      exists height width,
        shape_of arr = [height; width] /\ (height < 1 \/ width < 1)%nat) ->
     st = CANCELLED /\ objects w' = objects w /\ active w' = active w /\
     exists msg, reports w' = reports w ++ [(ERROR, msg)]) /\
    (forall a height width,
       arr = Float64 a ->
       shape a = [height; width] -> (1 <= height)%nat -> (1 <= width)%nat ->
       length (objects w') = S (length (objects w)) /\
       (exists o, objects w' !! length (objects w) = Some o /\
                  obj_name o = unique_name (object_name self) w /\
                  length (verts (obj_mesh o))
                  = (if use_cube self then (height + 2) * (width + 2)
                     else height * width)%nat) /\
       (selection_works host_error -> st = FINISHED) /\
       (st = CANCELLED ->
          exists c w0 e,
            host_error c w0 = Some e /\
            last (reports w')
            = Some (ERROR, ("Failed to import: " ++ str e)%string))).
Proof.
  intros Hwf Hsel.
  assert (Hexec : execute faces_new_error unique_name host_error self
                    (Ok loaded) w
                  = execute faces_new_error unique_name host_error self
                      (Ok (NpyArray arr)) w).
  { destruct Hsel as [->|(k & rest & ->)]; [reflexivity|apply execute_npz]. }
  rewrite Hexec. clear Hexec Hsel loaded.
  destruct (Nat.eq_dec (ndim_of arr) 2%nat) as [Hn|Hn].
  2:{ rewrite (execute_not_2d _ _ _ self arr w Hn).
      eexists. eexists. split; [reflexivity|]. split.
      - intros _. cbn [objects active reports]. repeat split.
        eexists. reflexivity.
      - intros a height width -> Hsh _ _. exfalso. apply Hn.
        unfold ndim_of. cbn [shape_of]. rewrite Hsh. reflexivity. }
  assert (Hsh : exists height width, shape_of arr = [height; width]).
  { unfold ndim_of in Hn.
    destruct (shape_of arr) as [|h [|w0 [|? ?]]]; try discriminate. eauto. }
  destruct Hsh as (height & width & Hsh).
  pose proof (size_of_shape arr height width Hwf Hsh) as Hsize.
  destruct (Nat.eq_dec (height * width)%nat 0%nat) as [H0|H0].
  - rewrite (execute_raises _ _ _ self arr w _ Hn
               (process_depth_array_empty self arr ltac:(lia))).
    eexists. eexists. split; [reflexivity|]. split.
    + intros _. cbn [objects active reports]. repeat split.
      eexists. reflexivity.
    + intros a h' w'' -> Hsh' Hh Hw. cbn [shape_of] in Hsh.
      rewrite Hsh' in Hsh. injection Hsh as -> ->. nia.
  - destruct arr as [a|a].
    2:{ destruct (process_depth_array self (Int64 a)) as [r|e] eqn:Hr.
        - destruct (execute_proceeds faces_new_error unique_name host_error
                      self (Int64 a) r height width w Hn Hr
                      (process_depth_array_is_2d self _ r height width
                         Hwf Hsh Hr) ltac:(nia) ltac:(nia))
            as (mesh & reps & -> & _).
          destruct (select_imported_spec host_error (objects w)
                      (mk_object (unique_name (object_name self) w) mesh false)
                      (active w) (reports w ++ reps))
            as (st & w' & -> & _).
          exists st, w'. split; [reflexivity|]. split.
          + intros [Hnd|(h' & w'' & Heq & Hbad)]; [contradiction|].
            rewrite Hsh in Heq. injection Heq as <- <-. nia.
          + intros a' h' w'' Ha. discriminate Ha.
        - rewrite (execute_raises _ _ _ self (Int64 a) w e Hn Hr).
          eexists. eexists. split; [reflexivity|]. split.
          + intros _. cbn [objects active reports]. repeat split.
            eexists. reflexivity.
          + intros a' h' w'' Ha. discriminate Ha. }
    cbn [shape_of wf_array] in *.
    assert (H2 : is_2d a height width) by (split; assumption).
    destruct (process_depth_array_float_ok self a
                (is_2d_data_nonempty a height width H2 ltac:(nia) ltac:(nia)))
      as [r Hr].
    destruct (execute_proceeds faces_new_error unique_name host_error self
                (Float64 a) r height width w Hn Hr
                (process_depth_array_is_2d self (Float64 a) r height width
                   Hwf Hsh Hr) ltac:(nia) ltac:(nia))
      as (mesh & reps & -> & Hverts & _).
    destruct (select_imported_spec host_error (objects w)
                (mk_object (unique_name (object_name self) w) mesh false)
                (active w) (reports w ++ reps))
      as (st & w' & -> & _ & Hlen & (o' & Ho' & Hname & Hmesh) & _ & Hcan & Hst).
    exists st, w'. split; [reflexivity|]. split.
    + intros [Hnd|(h' & w'' & Heq & Hbad)]; [contradiction|].
      rewrite Hsh in Heq. injection Heq as <- <-. nia.
    + intros a' h' w'' [= <-] Hsh' Hh Hw.
      rewrite Hsh in Hsh'. injection Hsh' as <- <-.
      split; [exact Hlen|]. split.
      { exists o'. split; [exact Ho'|]. split; [exact Hname|].
        rewrite Hmesh. exact Hverts. }
      split; [exact Hst|].
      intros Hc. destruct (Hcan Hc) as (_ & c & w0 & e & He & ->).
      exists c, w0, e. split; [exact He|apply last_snoc].
Qed.

Lemma import_by_shape_witness :
  exists st w',
    execute blender_faces_new_error blender_unique_name edit_mode
      (unit_scale true)
      (Ok (NpzFile [("depth", Float64 one_cell_raw); ("mask", Float64 no_rows)]))
      empty_world = (Ok st, w') /\
    ((ndim_of (Float64 one_cell_raw) <> 2%nat \/
      exists height width,
        shape_of (Float64 one_cell_raw) = [height; width] /\
        (height < 1 \/ width < 1)%nat) ->
     st = CANCELLED /\ objects w' = objects empty_world /\
     active w' = active empty_world /\
     exists msg, reports w' = reports empty_world ++ [(ERROR, msg)]) /\
    (forall a height width,
       Float64 one_cell_raw = Float64 a ->
       shape a = [height; width] -> (1 <= height)%nat -> (1 <= width)%nat ->
       length (objects w') = S (length (objects empty_world)) /\
       (exists o, objects w' !! length (objects empty_world) = Some o /\
                  obj_name o
                  = blender_unique_name (object_name (unit_scale true))
                      empty_world /\
                  length (verts (obj_mesh o))
                  = (if use_cube (unit_scale true)
                     then (height + 2) * (width + 2)
                     else height * width)%nat) /\
       (selection_works edit_mode -> st = FINISHED) /\
       (st = CANCELLED ->
          exists c w0 e,
            edit_mode c w0 = Some e /\
            last (reports w')
            = Some (ERROR, ("Failed to import: " ++ str e)%string))).
Proof.
  apply (import_by_shape blender_faces_new_error blender_unique_name
           edit_mode (unit_scale true)
           (NpzFile [("depth", Float64 one_cell_raw); ("mask", Float64 no_rows)])
           (Float64 one_cell_raw) empty_world).
  - reflexivity.
  - right. exists "depth", [("mask", Float64 no_rows)]. reflexivity.
Defined.

(** ** The order of float64 *)

Lemma float_leb_Fin (a b : Q) : float_leb (Fin a) (Fin b) = true <-> a <= b.
Proof.
  unfold float_leb, float_ltb. rewrite negb_true_iff. apply Qltb_ge.
Qed.

Lemma float_leb_refl (x : float) : x <> NaN -> float_leb x x = true.
Proof.
  destruct x; intros H; try reflexivity; [|contradiction].
  apply float_leb_Fin, Qle_refl.
Qed.

Lemma float_leb_trans (x y z : float) :
  float_leb x y = true -> float_leb y z = true -> float_leb x z = true.
Proof.
  destruct x as [a| | |], y as [b| | |], z as [c| | |]; try reflexivity;
    try discriminate.
  rewrite !float_leb_Fin. apply Qle_trans.
Qed.

Lemma fmax_spec (x y : float) :
  x <> NaN -> y <> NaN ->
  (fmax x y = x \/ fmax x y = y) /\ fmax x y <> NaN /\
  float_leb x (fmax x y) = true /\ float_leb y (fmax x y) = true.
Proof.
  intros Hx Hy.
  destruct x as [a| | |], y as [b| | |]; try contradiction.
  1:{ unfold fmax, float_ltb. destruct (Qltb a b) eqn:E.
      - split; [now right|]. split; [discriminate|].
        split; [|apply float_leb_Fin, Qle_refl].
        apply float_leb_Fin, Qlt_le_weak, Qltb_lt, E.
      - split; [now left|]. split; [discriminate|].
        split; [apply float_leb_Fin, Qle_refl|].
        apply float_leb_Fin, Qltb_ge, E. }
  all: cbn [fmax float_ltb]; repeat split; auto; try discriminate;
    try (apply float_leb_Fin, Qle_refl).
Qed.

(** The maximum of values none of which is NaN is one of them and is
    below none of them. *)
Lemma fold_fmax_spec (l : list float) (x : float) :
  x <> NaN -> Forall (fun v => v <> NaN) l ->
  In (fold_left fmax l x) (x :: l) /\
  (forall v, In v (x :: l) -> float_leb v (fold_left fmax l x) = true).
Proof.
  revert x. induction l as [|y l IH]; intros x Hx Hl.
  - split; [now left|]. intros v [<-|[]]. apply float_leb_refl, Hx.
  - apply Forall_cons in Hl as [Hy Hl].
    destruct (fmax_spec x y Hx Hy) as (Hc & Hn & Hlx & Hly).
    destruct (IH (fmax x y) Hn Hl) as [Hin Hle]. cbn [fold_left].
    split.
    + destruct Hin as [Hin|Hin]; [|now right; right].
      rewrite <- Hin. destruct Hc as [-> | ->]; [now left|now right; left].
    + intros v [<-|[<-|Hv]].
      * eapply float_leb_trans; [exact Hlx|]. apply Hle. now left.
      * eapply float_leb_trans; [exact Hly|]. apply Hle. now left.
      * apply Hle. now right.
Qed.

(** ** np.pad: the elements of the padded array *)

Lemma concat_mjoin {A : Type} (ls : list (list A)) : concat ls = mjoin ls.
Proof. induction ls as [|l ls IH]; [reflexivity|]. simpl. now rewrite IH. Qed.

Lemma concat_rows {A : Type} (n k : nat) (l : list A) :
  length l = (n * k)%nat -> concat (rows n k l) = l.
Proof.
  revert l. induction n as [|n IH]; intros l Hl; simpl.
  - symmetry. apply length_zero_iff_nil. exact Hl.
  - rewrite IH by (rewrite length_drop; lia). apply take_drop.
Qed.

Lemma rows_lookup {A : Type} (n k r : nat) (l : list A) :
  (r < n)%nat -> rows n k l !! r = Some (take k (drop (r * k) l)).
Proof.
  revert r l. induction n as [|n IH]; intros r l Hr; [lia|].
  destruct r as [|r]; simpl; [reflexivity|].
  rewrite IH by lia. rewrite drop_drop. do 3 f_equal; lia.
Qed.

(** A padded row: the value, the row, the value. *)
Lemma pad_data_row {A : Type} (c : A) (w : nat) (row : list A) :
  length row = w -> pad_data c [w] row = c :: row ++ [c].
Proof.
  intros Hrow. cbn [pad_data map size_of fold_right replicate].
  rewrite List.map_id. rewrite concat_rows; [reflexivity|lia].
Qed.

Lemma map_ext_Forall_eq {A B : Type} (f g : A -> B) (l : list A) :
  Forall (fun x => f x = g x) l -> map f l = map g l.
Proof. induction 1 as [|x l Hx _ IH]; simpl; congruence. Qed.

(** The padded array of a 2-dimensional array, row by row. *)
Lemma pad1_data_2d {A : Type} (c : A) (a : ndarray A) (height width : nat) :
  is_2d a height width ->
  data (pad1 c a)
  = mjoin (replicate (S (S width)) c
           :: map (fun row => c :: row ++ [c]) (rows height width (data a))
           ++ [replicate (S (S width)) c]).
Proof.
  intros [Hsh Hwf]. unfold pad1. rewrite Hsh. cbn [data pad_data].
  assert (Hlen : length (data a) = (height * width)%nat).
  { unfold wf in Hwf. rewrite Hsh in Hwf. simpl in Hwf. lia. }
  replace (size_of [width]) with width by (simpl; lia).
  replace (size_of (map (fun k => S (S k)) [width])) with (S (S width))
    by (simpl; lia).
  destruct (rows_spec height width (data a) Hlen) as [_ Hall].
  rewrite (map_ext_Forall_eq (pad_data c [width])
             (fun row => c :: row ++ [c])).
  2:{ eapply Forall_impl; [exact Hall|]. intros row Hrow.
      apply pad_data_row, Hrow. }
  rewrite concat_mjoin. cbn [mjoin list_join]. f_equal.
  change (mjoin (?l ++ [?x])) with (mjoin (l ++ [x])).
  rewrite join_app. cbn. rewrite app_nil_r. reflexivity.
Qed.

Lemma getitem2_pad1 {A : Type} (c : A) (a : ndarray A)
    (height width r col : nat) :
  is_2d a height width -> (r < S (S height))%nat -> (col < S (S width))%nat ->
  getitem2 (pad1 c a) r col
  = if (r =? 0)%nat || (r =? S height)%nat
       || (col =? 0)%nat || (col =? S width)%nat
    then Ok c else getitem2 a (r - 1) (col - 1).
Proof.
  intros H2 Hr Hcol.
  pose proof (is_2d_pad1 c a height width H2) as H2p.
  destruct (is_2d_lookup (pad1 c a) _ _ r col H2p Hr Hcol) as (v & Hv & ->).
  rewrite (pad1_data_2d c a height width H2) in Hv.
  assert (Hlen : length (data a) = (height * width)%nat).
  { destruct H2 as [Hsh Hwf]. unfold wf in Hwf. rewrite Hsh in Hwf.
    simpl in Hwf. lia. }
  destruct (rows_spec height width (data a) Hlen) as [Hn Hall].
  apply (join_lookup_Some_same_length' (S (S width))) in Hv as (row & Hrow & Hv);
    [| |exact Hcol].
  2:{ apply Forall_cons. split; [apply length_replicate|].
      apply Forall_app. split.
      - apply List.Forall_map. eapply Forall_impl; [exact Hall|].
        intros l Hl. cbn. rewrite length_app, Hl. simpl. lia.
      - apply Forall_cons. split; [apply length_replicate|apply Forall_nil].
        exact I. }
  remember (replicate (S (S width)) c) as top eqn:Etop.
  destruct r as [|r].
  { cbn in Hrow. injection Hrow as <-. subst top.
    apply lookup_replicate in Hv as [-> _]. reflexivity. }
  rewrite lookup_cons in Hrow.
  destruct (Nat.eq_dec r height) as [->|Hrh].
  { rewrite lookup_app_r in Hrow by (rewrite length_map, Hn; lia).
    rewrite length_map, Hn, Nat.sub_diag in Hrow. cbn in Hrow.
    injection Hrow as <-. subst top. apply lookup_replicate in Hv as [-> _].
    rewrite Nat.eqb_refl. cbn. reflexivity. }
  rewrite lookup_app_l in Hrow by (rewrite length_map, Hn; lia).
  change (map ?f ?l) with (f <$> l) in Hrow.
  rewrite list_lookup_fmap, rows_lookup in Hrow by lia.
  cbn in Hrow. injection Hrow as <-.
  replace (S r =? 0)%nat with false by reflexivity.
  replace (S r =? S height)%nat with false
    by (symmetry; apply Nat.eqb_neq; lia).
  cbn [orb].
  destruct col as [|col].
  { cbn in Hv. injection Hv as <-. reflexivity. }
  rewrite lookup_cons in Hv.
  assert (Htake : length (take width (drop (r * width) (data a))) = width).
  { rewrite length_take, length_drop. nia. }
  destruct (Nat.eq_dec col width) as [->|Hcw].
  { rewrite lookup_app_r in Hv by lia. rewrite Htake, Nat.sub_diag in Hv.
    cbn in Hv. injection Hv as <-. rewrite Nat.eqb_refl. reflexivity. }
  rewrite lookup_app_l in Hv by lia.
  rewrite lookup_take_lt, lookup_drop in Hv by lia.
  replace (S col =? 0)%nat with false by reflexivity.
  replace (S col =? S width)%nat with false
    by (symmetry; apply Nat.eqb_neq; lia).
  cbn [Nat.sub]. rewrite !Nat.sub_0_r.
  destruct (is_2d_lookup a height width r col H2 ltac:(lia) ltac:(lia))
    as (v' & Hv' & ->).
  cbn [orb]. congruence.
Qed.

(** ** create_cube_mesh: the rim *)

Lemma getitem2_In {A : Type} (a : ndarray A) (r c : nat) (v : A) :
  getitem2 a r c = Ok v -> In v (data a).
Proof.
  unfold getitem2. destruct (shape a) as [|h [|w [|? ?]]]; try discriminate.
  destruct ((r <? h)%nat && (c <? w)%nat); [|discriminate].
  destruct (data a !! (r * w + c)%nat) as [u|] eqn:E; [|discriminate].
  intros [= <-]. apply list_elem_of_In. eapply list_elem_of_lookup_2, E.
Qed.

(** The z of the vertex of the padded grid at position [(x, y)]. *)
Lemma padded_vertex_z (a : ndarray float) (height width x y : nat) (c : float) :
  is_2d a height width -> (x < S (S width))%nat -> (y < S (S height))%nat ->
  Ok (vz (grid_vertex (pad1 c a) (S (S height)) (S (S width)) y x))
  = if (y =? S height)%nat || (y =? 0)%nat
       || (x =? 0)%nat || (x =? S width)%nat
    then Ok c else getitem2 a (height - y) (x - 1).
Proof.
  intros H2 Hx Hy.
  pose proof (is_2d_pad1 c a height width H2) as H2p.
  rewrite <- (grid_vertex_z (pad1 c a) _ _ y x H2p Hy Hx).
  rewrite (getitem2_pad1 c a height width _ x H2) by lia.
  replace (S (S height) - 1 - y =? 0)%nat with (y =? S height)%nat.
  2:{ destruct (Nat.eqb_spec y (S height)); symmetry;
        [apply Nat.eqb_eq|apply Nat.eqb_neq]; lia. }
  replace (S (S height) - 1 - y =? S height)%nat with (y =? 0)%nat.
  2:{ destruct (Nat.eqb_spec y 0); symmetry;
        [apply Nat.eqb_eq|apply Nat.eqb_neq]; lia. }
  replace (S (S height) - 1 - y - 1)%nat with (height - y)%nat by lia.
  reflexivity.
Qed.

(** X12: in the mesh of [create_cube_mesh] the vertices of the outer
    ring of the padded grid all have for z the maximum of the array, and
    the vertex at position [(x, y)] inside the ring has for z the
    element [depth_array[height - y, x - 1]]; when no element of the
    array is NaN, no vertex is above the ring. *)
Theorem cube_rim_at_max
    (faces_new_error : bmesh -> face -> option exn)
    (unique_name : string -> world -> string) (self : operator)
    (a : ndarray float) (height width : nat) (w : world) :
  is_2d a height width -> (1 <= height)%nat -> (1 <= width)%nat ->
  exists obj w' o base_z,
    create_cube_mesh faces_new_error unique_name self a w = (Ok obj, w') /\
    objects w' !! obj = Some o /\
    Np.max a = Ok base_z /\
    (forall x y, (x < width + 2)%nat -> (y < height + 2)%nat ->
       exists v,
         verts (obj_mesh o) !! (y * (width + 2) + x)%nat = Some v /\
         ((x = 0 \/ x = width + 1 \/ y = 0 \/ y = height + 1)%nat ->
          vz v = base_z) /\
         ((1 <= x <= width /\ 1 <= y <= height)%nat ->
          getitem2 a (height - y) (x - 1) = Ok (vz v))) /\
    (no_nan a ->
     Forall (fun v => float_leb (vz v) base_z = true) (verts (obj_mesh o))).
Proof.
  intros H2 Hh Hw.
  destruct (is_2d_max a height width H2 Hh Hw) as (x0 & l & Hd & Hmax & _).
  rewrite (create_cube_mesh_ok faces_new_error unique_name self a height width
             w x0 l H2 Hd).
  replace (height + 2)%nat with (S (S height)) by lia.
  replace (width + 2)%nat with (S (S width)) by lia.
  replace (height + 1)%nat with (S height) by lia.
  replace (width + 1)%nat with (S width) by lia.
  eexists. eexists. eexists. exists (fold_left fmax l x0).
  split; [reflexivity|]. split.
  { cbn [objects]. apply list_lookup_middle. reflexivity. }
  split; [exact Hmax|].
  cbn [obj_mesh]. rewrite attempt_verts. unfold grid_mesh.
  rewrite attempt_all_verts. cbn [verts].
  set (c := fold_left fmax l x0).
  assert (Hz : forall x y, (x < S (S width))%nat -> (y < S (S height))%nat ->
            ((x = 0 \/ x = S width \/ y = 0 \/ y = S height)%nat ->
             vz (grid_vertex (pad1 c a) (S (S height)) (S (S width)) y x) = c) /\
            ((1 <= x <= width /\ 1 <= y <= height)%nat ->
             getitem2 a (height - y) (x - 1)
             = Ok (vz (grid_vertex (pad1 c a) (S (S height)) (S (S width)) y x)))).
  { intros x y Hx Hy.
    pose proof (padded_vertex_z a height width x y c H2 Hx Hy) as Hp.
    split.
    - intros Hrim.
      replace ((y =? S height)%nat || (y =? 0)%nat
               || (x =? 0)%nat || (x =? S width)%nat) with true in Hp.
      + congruence.
      + symmetry. rewrite !orb_true_iff, !Nat.eqb_eq. tauto.
    - intros Hin.
      replace ((y =? S height)%nat || (y =? 0)%nat
               || (x =? 0)%nat || (x =? S width)%nat) with false in Hp.
      + congruence.
      + symmetry. rewrite !orb_false_iff, !Nat.eqb_neq. lia. }
  split.
  - intros x y Hx Hy. eexists. split.
    + apply grid_verts_lookup; assumption.
    + apply Hz; assumption.
  - intros Hnan. unfold no_nan in Hnan. rewrite Hd in Hnan.
    apply Forall_cons in Hnan as [Hx0 Hl].
    destruct (fold_fmax_spec l x0 Hx0 Hl) as [Hin Hle]. fold c in Hin, Hle.
    assert (Hc : float_leb c c = true) by (apply Hle, Hin).
    apply Forall_forall. intros v Hv.
    apply list_elem_of_In, in_grid_verts in Hv as (y & x & Hy & Hx & ->).
    destruct (Hz x y Hx Hy) as [Hrim Hin'].
    destruct (Nat.eq_dec x 0%nat) as [Hx0'|Hx0'];
      [rewrite Hrim by lia; exact Hc|].
    destruct (Nat.eq_dec x (S width)) as [Hx1|Hx1];
      [rewrite Hrim by lia; exact Hc|].
    destruct (Nat.eq_dec y 0%nat) as [Hy0|Hy0];
      [rewrite Hrim by lia; exact Hc|].
    destruct (Nat.eq_dec y (S height)) as [Hy1|Hy1];
      [rewrite Hrim by lia; exact Hc|].
    assert (Hget := Hin' ltac:(lia)). apply getitem2_In in Hget.
    rewrite Hd in Hget. apply Hle, Hget.
Qed.

Lemma cube_rim_at_max_witness :
  exists obj w' o base_z,
    create_cube_mesh blender_faces_new_error blender_unique_name
      (unit_scale true) checker empty_world = (Ok obj, w') /\
    objects w' !! obj = Some o /\
    Np.max checker = Ok base_z /\
    (forall x y, (x < 2 + 2)%nat -> (y < 2 + 2)%nat ->
       exists v,
         verts (obj_mesh o) !! (y * (2 + 2) + x)%nat = Some v /\
         ((x = 0 \/ x = 2 + 1 \/ y = 0 \/ y = 2 + 1)%nat -> vz v = base_z) /\
         ((1 <= x <= 2 /\ 1 <= y <= 2)%nat ->
          getitem2 checker (2 - y) (x - 1) = Ok (vz v))) /\
    (no_nan checker ->
     Forall (fun v => float_leb (vz v) base_z = true) (verts (obj_mesh o))).
Proof.
  apply (cube_rim_at_max blender_faces_new_error blender_unique_name
           (unit_scale true) checker 2 2 empty_world).
  - split; reflexivity.
  - lia.
  - lia.
Defined.

(** ** From the array to the mesh: the heights *)

(** The heights of the vertices are the elements of the array. *)
Lemma vertex_heights (a : ndarray float) (height width : nat) (z : float) :
  is_2d a height width ->
  In z (data a) <->
  exists v, In v (grid_verts a height width) /\ vz v = z.
Proof.
  intros H2. split.
  - intros Hz. apply list_elem_of_In, list_elem_of_lookup in Hz as (k & Hk).
    assert (Hlt : (k < height * width)%nat).
    { apply lookup_lt_Some in Hk. destruct H2 as [Hsh Hwf].
      unfold wf in Hwf. rewrite Hsh in Hwf. simpl in Hwf. lia. }
    assert (Hw : (0 < width)%nat) by nia.
    assert (Hdm := Nat.div_mod_eq k width).
    assert (Hm : (k mod width < width)%nat) by (apply Nat.mod_upper_bound; lia).
    assert (Hr : (k / width < height)%nat)
      by (apply Nat.Div0.div_lt_upper_bound; lia).
    exists (grid_vertex a height width (height - 1 - k / width) (k mod width)).
    split.
    + apply list_elem_of_In. eapply list_elem_of_lookup_2.
      apply grid_verts_lookup; [lia|exact Hm].
    + unfold grid_vertex. cbn [vz].
      replace ((height - 1 - (height - 1 - k / width)) * width + k mod width)%nat
        with k by (replace (height - 1 - (height - 1 - k / width))%nat
                     with (k / width)%nat by lia; lia).
      rewrite Hk. reflexivity.
  - intros (v & Hv & <-).
    apply in_grid_verts in Hv as (y & x & Hy & Hx & ->).
    eapply getitem2_In. apply grid_vertex_z; eassumption.
Qed.

(** X13: the relief of the mesh goes from 0 to [depth_scale]: when the
    float64 array is normalised without overflow, every vertex of the
    mesh made from the processed array has a finite z between 0 and
    [depth_scale], one vertex has z = 0 and one has z = [depth_scale]. *)
Theorem relief_spans_scale
    (faces_new_error : bmesh -> face -> option exn) (self : operator)
    (a : ndarray float) (height width : nat) (r : ndarray float) (m : bmesh)
    (lo hi : Q) :
  depth_scale_valid self ->
  is_2d a height width ->
  normalisable a lo hi ->
  process_depth_array self (Float64 a) = Ok r ->
  create_depthmap_bmesh faces_new_error r = Ok m ->
  Forall (fun v => exists q, vz v = Fin q /\ 0 <= q <= depth_scale self)
    (verts m) /\
  (exists v q, In v (verts m) /\ vz v = Fin q /\ q == 0) /\
  (exists v q, In v (verts m) /\ vz v = Fin q /\ q == depth_scale self).
Proof.
  intros Hs H2 Hn Hr Hm.
  assert (H2r : is_2d r height width)
    by (apply (process_depth_array_is_2d self (Float64 a)); [apply H2|apply H2|];
        exact Hr).
  rewrite (create_depthmap_bmesh_ok faces_new_error r height width H2r) in Hm.
  injection Hm as <-. rewrite attempt_all_verts. cbn [verts].
  destruct (process_depth_array_normalised self a lo hi Hs Hn)
    as (x & l & E & -> & -> & Hex).
  destruct Hn as (_ & _ & Hlt & _).
  rewrite Hex in Hr.
  set (d := list_max x l - list_min x l) in *.
  set (f := fun v => (v - list_min x l) / d * depth_scale self) in *.
  assert (Hdata : data r = map Fin (map f (x :: l)))
    by (injection Hr as <-; reflexivity).
  clear Hr Hex.
  assert (Hd : 0 < d) by (apply spread_pos, Hlt).
  assert (Hne : ~ d == 0).
  { intros H0. rewrite H0 in Hd. exact (Qlt_irrefl _ Hd). }
  assert (H0 : f (list_min x l) == 0) by (unfold f; field; exact Hne).
  assert (H1 : f (list_max x l) == depth_scale self)
    by (unfold f; fold d; field; exact Hne).
  destruct (list_min_spec l x) as [Hmin_in _].
  destruct (list_max_spec l x) as [Hmax_in _].
  split; [|split].
  - apply Forall_forall. intros v Hv. apply list_elem_of_In in Hv.
    assert (Hz : In (vz v) (data r))
      by (apply (vertex_heights r height width); [exact H2r|eauto]).
    rewrite Hdata in Hz. apply in_map_iff in Hz as (q & <- & Hq).
    apply in_map_iff in Hq as (u & <- & Hu).
    eexists. split; [reflexivity|].
    apply (normalise_range x l (depth_scale self) u Hlt); [|exact Hu].
    apply Qlt_le_weak, depth_scale_valid_pos, Hs.
  - assert (Hz : In (Fin (f (list_min x l))) (data r))
      by (rewrite Hdata; apply in_map, in_map, Hmin_in).
    apply (vertex_heights r height width _ H2r) in Hz as (v & Hv & Hvz).
    exists v. eexists. split; [exact Hv|]. split; [exact Hvz|exact H0].
  - assert (Hz : In (Fin (f (list_max x l))) (data r))
      by (rewrite Hdata; apply in_map, in_map, Hmax_in).
    apply (vertex_heights r height width _ H2r) in Hz as (v & Hv & Hvz).
    exists v. eexists. split; [exact Hv|]. split; [exact Hvz|exact H1].
Qed.

Lemma relief_spans_scale_witness :
  exists r m,
    process_depth_array (unit_scale false) (Float64 checker) = Ok r /\
    create_depthmap_bmesh blender_faces_new_error r = Ok m /\
    Forall (fun v => exists q, vz v = Fin q /\
                               0 <= q <= depth_scale (unit_scale false))
      (verts m) /\
    (exists v q, In v (verts m) /\ vz v = Fin q /\ q == 0) /\
    (exists v q, In v (verts m) /\ vz v = Fin q /\
                 q == depth_scale (unit_scale false)).
Proof.
  eexists. eexists. split; [vm_compute; reflexivity|].
  split; [vm_compute; reflexivity|].
  eapply (relief_spans_scale blender_faces_new_error (unit_scale false)
            checker 2 2 _ _ 0 1).
  - split; discriminate.
  - split; reflexivity.
  - split; [reflexivity|]. split; [reflexivity|]. split; [reflexivity|].
    vm_compute. discriminate.
  - vm_compute. reflexivity.
  - vm_compute. reflexivity.
Defined.

(** ** The mesh objects and the scene *)

(** X14: [create_plane_mesh] and [create_cube_mesh] add one object at
    the end of the scene, not selected, under the name that Blender
    gives to an object asked for as DepthMap_Plane or DepthMap_Cube, and
    leave the objects that were there, the active object and the reports
    as they were, except that [create_cube_mesh] adds at most one
    report. *)
Theorem mesh_object_is_appended
    (faces_new_error : bmesh -> face -> option exn)
    (unique_name : string -> world -> string) (self : operator)
    (a : ndarray float) (height width : nat) (w : world) :
  is_2d a height width -> (1 <= height)%nat -> (1 <= width)%nat ->
  (exists o,
     create_plane_mesh faces_new_error unique_name self a w
     = (Ok (length (objects w)),
        mk_world (objects w ++ [o]) (active w) (reports w)) /\
     obj_name o = unique_name "DepthMap_Plane" w /\ selected o = false) /\
  (exists o reps,
     create_cube_mesh faces_new_error unique_name self a w
     = (Ok (length (objects w)),
        mk_world (objects w ++ [o]) (active w) (reports w ++ reps)) /\
     obj_name o = unique_name "DepthMap_Cube" w /\ selected o = false /\
     (length reps <= 1)%nat).
Proof.
  intros H2 Hh Hw. split.
  - rewrite (create_plane_mesh_ok faces_new_error unique_name self a
      height width w H2).
    eexists. split; [reflexivity|]. split; reflexivity.
  - destruct (is_2d_max a height width H2 Hh Hw) as (x & l & Hd & _ & _).
    rewrite (create_cube_mesh_ok faces_new_error unique_name self a
        height width w x l H2 Hd).
    eexists. eexists. split; [reflexivity|].
    split; [reflexivity|]. split; [reflexivity|].
    unfold base_face_reports. destruct (faces_new_error _ _); simpl; lia.
Qed.

Lemma mesh_object_is_appended_witness :
  (exists o,
     create_plane_mesh blender_faces_new_error blender_unique_name
         (unit_scale false) checker
       empty_world
     = (Ok (length (objects empty_world)),
        mk_world (objects empty_world ++ [o]) (active empty_world)
          (reports empty_world)) /\
     obj_name o = blender_unique_name "DepthMap_Plane" empty_world /\
     selected o = false) /\
  (exists o reps,
     create_cube_mesh blender_faces_new_error blender_unique_name
         (unit_scale false) checker
       empty_world
     = (Ok (length (objects empty_world)),
        mk_world (objects empty_world ++ [o]) (active empty_world)
          (reports empty_world ++ reps)) /\
     obj_name o = blender_unique_name "DepthMap_Cube" empty_world /\
     selected o = false /\
     (length reps <= 1)%nat).
Proof.
  apply (mesh_object_is_appended blender_faces_new_error blender_unique_name
      (unit_scale false)
           checker 2 2 empty_world).
  - split; reflexivity.
  - lia.
  - lia.
Defined.

(** X15: what the two functions leave behind when they fail.
    [create_cube_mesh] on an array without elements raises the
    ValueError of [np.max] before it touches the scene.
    [create_plane_mesh] on an array that is not 2-dimensional raises a
    ValueError (the shape does not unpack into height and width) after
    it has made and linked the object: the object stays in the scene,
    with an empty mesh. *)
Theorem mesh_functions_on_failure
    (faces_new_error : bmesh -> face -> option exn)
    (unique_name : string -> world -> string) (self : operator)
    (a : ndarray float) (w : world) :
  (data a = [] ->
   create_cube_mesh faces_new_error unique_name self a w
   = (Raise (ValueError
        "zero-size array to reduction operation maximum which has no identity"),
      w)) /\
  (ndim a <> 2%nat ->
   exists msg,
     create_plane_mesh faces_new_error unique_name self a w
     = (Raise (ValueError msg),
        mk_world (objects w
                  ++ [mk_object (unique_name "DepthMap_Plane" w) bmesh_new false])
          (active w) (reports w))).
Proof.
  split.
  - intros Hd. unfold create_cube_mesh, mbind, cmd_bind, seq_cmd, lift, Np.max.
    rewrite Hd. reflexivity.
  - intros Hn. unfold create_plane_mesh, mbind, cmd_bind, seq_cmd, lift,
      new_object, create_depthmap_bmesh, unpack_shape.
    unfold ndim in Hn.
    destruct (shape a) as [|h [|w' [|? ?]]]; cbn [mbind res_bind];
      try (eexists; reflexivity).
    exfalso. apply Hn. reflexivity.
Qed.

Lemma mesh_functions_on_failure_witness :
  (exists msg,
     create_plane_mesh blender_faces_new_error blender_unique_name
         (unit_scale false) cube_1x1x1
       empty_world
     = (Raise (ValueError msg),
        mk_world (objects empty_world
                  ++ [mk_object
                        (blender_unique_name "DepthMap_Plane" empty_world)
                        bmesh_new false])
          (active empty_world) (reports empty_world))) /\
  create_cube_mesh blender_faces_new_error blender_unique_name (unit_scale true)
    (mk_ndarray [0%nat; 3%nat] []) empty_world
  = (Raise (ValueError
       "zero-size array to reduction operation maximum which has no identity"),
     empty_world).
Proof.
  split.
  - apply (mesh_functions_on_failure blender_faces_new_error
             blender_unique_name (unit_scale false) cube_1x1x1 empty_world).
    discriminate.
  - apply (mesh_functions_on_failure blender_faces_new_error
             blender_unique_name
                 (unit_scale true) (mk_ndarray [0%nat; 3%nat] []) empty_world).
    reflexivity.
Defined.

(** ** create_depthmap_bmesh: a regular grid *)

Lemma mesh_size_pos (height width : nat) :
  (1 <= height)%nat -> (1 <= width)%nat ->
  0 < (mesh_size height width).1 /\ 0 < (mesh_size height width).2.
Proof.
  intros Hh Hw.
  assert (Hdiv : forall n m, (1 <= n)%nat -> (1 <= m)%nat ->
                             0 < Qnat n / Qnat m).
  { intros n m Hn Hm. apply Qlt_shift_div_l; [apply Qnat_pos; lia|].
    rewrite Qmult_0_l. apply Qnat_pos. lia. }
  unfold mesh_size.
  destruct (height <? width)%nat; [|destruct (width <? height)%nat];
    cbn [fst snd]; split; try (apply Hdiv; assumption); reflexivity.
Qed.

Lemma Qnat_lt (n m : nat) : (n < m)%nat -> Qnat n < Qnat m.
Proof. intros H. unfold Qnat, Qlt. simpl. lia. Qed.

Lemma norm_increases (n : nat) (size : Q) (i j : nat) :
  0 < size -> (i < j < n)%nat -> x_norm n size i < x_norm n size j.
Proof.
  intros Hs Hij. unfold x_norm.
  replace (1 <? n)%nat with true by (symmetry; apply Nat.ltb_lt; lia).
  apply Qmult_lt_compat_r; [exact Hs|].
  unfold Qdiv. apply Qmult_lt_compat_r; [|apply Qnat_lt; lia].
  apply Qinv_lt_0_compat, Qnat_pos. lia.
Qed.

(** X17: the vertices form a regular grid.  The x coordinate of a vertex
    depends on its column only and grows with the column; the y
    coordinate depends on its row only and grows with the row.  So no
    two vertices of the mesh have the same x and y. *)
Theorem vertices_form_a_grid
    (faces_new_error : bmesh -> face -> option exn) (a : ndarray float)
    (height width : nat) (m : bmesh) (x1 y1 x2 y2 : nat) (v1 v2 : vertex) :
  is_2d a height width ->
  create_depthmap_bmesh faces_new_error a = Ok m ->
  (x1 < width)%nat -> (y1 < height)%nat ->
  (x2 < width)%nat -> (y2 < height)%nat ->
  verts m !! (y1 * width + x1)%nat = Some v1 ->
  verts m !! (y2 * width + x2)%nat = Some v2 ->
  (x1 = x2 -> vx v1 = vx v2) /\ (y1 = y2 -> vy v1 = vy v2) /\
  ((x1 < x2)%nat -> vx v1 < vx v2) /\ ((y1 < y2)%nat -> vy v1 < vy v2) /\
  (vx v1 == vx v2 -> vy v1 == vy v2 -> x1 = x2 /\ y1 = y2).
Proof.
  intros H2 Hm Hx1 Hy1 Hx2 Hy2 Hv1 Hv2.
  rewrite (create_depthmap_bmesh_ok faces_new_error a height width H2) in Hm.
  injection Hm as <-. rewrite attempt_all_verts in Hv1, Hv2.
  cbn [verts] in Hv1, Hv2.
  rewrite grid_verts_lookup in Hv1, Hv2 by assumption.
  injection Hv1 as <-. injection Hv2 as <-.
  unfold grid_vertex. cbn [vx vy].
  change (y_norm height ?s ?y) with (x_norm height s y).
  destruct (mesh_size_pos height width ltac:(lia) ltac:(lia)) as [Hw0 Hh0].
  assert (Hsub : forall p q, p < q -> p - (1 # 2) < q - (1 # 2)).
  { intros p q Hpq. unfold Qminus.
    apply Qplus_lt_le_compat; [exact Hpq|apply Qle_refl]. }
  assert (Hlx : forall i j, (i < j < width)%nat ->
            x_norm width (mesh_size height width).1 i - (1 # 2)
            < x_norm width (mesh_size height width).1 j - (1 # 2))
    by (intros i j Hij; apply Hsub, norm_increases; assumption).
  assert (Hly : forall i j, (i < j < height)%nat ->
            x_norm height (mesh_size height width).2 i - (1 # 2)
            < x_norm height (mesh_size height width).2 j - (1 # 2))
    by (intros i j Hij; apply Hsub, norm_increases; assumption).
  split; [intros ->; reflexivity|]. split; [intros ->; reflexivity|].
  split; [intros H; apply Hlx; lia|]. split; [intros H; apply Hly; lia|].
  intros Hex Hey. split.
  - destruct (Nat.lt_trichotomy x1 x2) as [H|[H|H]]; [|exact H|].
    + exfalso. apply (Qlt_not_eq _ _ (Hlx x1 x2 ltac:(lia))). exact Hex.
    + exfalso. apply (Qlt_not_eq _ _ (Hlx x2 x1 ltac:(lia))).
      symmetry. exact Hex.
  - destruct (Nat.lt_trichotomy y1 y2) as [H|[H|H]]; [|exact H|].
    + exfalso. apply (Qlt_not_eq _ _ (Hly y1 y2 ltac:(lia))). exact Hey.
    + exfalso. apply (Qlt_not_eq _ _ (Hly y2 y1 ltac:(lia))).
      symmetry. exact Hey.
Qed.

Lemma vertices_form_a_grid_witness :
  exists m v1 v2,
    create_depthmap_bmesh blender_faces_new_error zeros_2x3 = Ok m /\
    verts m !! (0 * 3 + 1)%nat = Some v1 /\
    verts m !! (1 * 3 + 2)%nat = Some v2 /\
    (1%nat = 2%nat -> vx v1 = vx v2) /\ (0%nat = 1%nat -> vy v1 = vy v2) /\
    ((1 < 2)%nat -> vx v1 < vx v2) /\ ((0 < 1)%nat -> vy v1 < vy v2) /\
    (vx v1 == vx v2 -> vy v1 == vy v2 -> 1%nat = 2%nat /\ 0%nat = 1%nat).
Proof.
  eexists. eexists. eexists.
  split; [reflexivity|]. split; [reflexivity|]. split; [reflexivity|].
  eapply (vertices_form_a_grid blender_faces_new_error zeros_2x3 2 3 _
            1 0 2 1).
  - split; reflexivity.
  - reflexivity.
  - lia.
  - lia.
  - lia.
  - lia.
  - reflexivity.
  - reflexivity.
Defined.

(** ** process_depth_array: the unit of the depths *)

Lemma finite_values_finite (sh : list nat) (l : list Q) :
  finite_values (finite_array sh l) = l.
Proof.
  unfold finite_values, finite_array. cbn [data].
  rewrite map_map. apply List.map_id.
Qed.

Lemma Forall2_feq_map (f g : Q -> Q) (l : list Q) :
  (forall q, f q == g q) ->
  Forall2 feq (map Fin (map f l)) (map Fin (map g l)).
Proof.
  intros H. induction l as [|q l IH]; simpl; constructor; auto.
  apply H.
Qed.

(** X16: the result does not depend on the unit or on the origin of the
    depths.  For finite depths that are not all equal, the depths
    [k * q + c] with [k] positive give the same result as the depths
    [q] (rounding aside), when the spread of neither array
    overflows. *)
Theorem process_depth_array_affine (self : operator) (sh : list nat)
    (x : Q) (l : list Q) (k c : Q) (r r' : ndarray float) :
  depth_scale_valid self ->
  0 < k ->
  list_min x l < list_max x l ->
  list_max x l - list_min x l <= float_max ->
  k * (list_max x l - list_min x l) <= float_max ->
  process_depth_array self (Float64 (finite_array sh (x :: l))) = Ok r ->
  process_depth_array self
    (Float64 (finite_array sh (map (fun q => k * q + c) (x :: l)))) = Ok r' ->
  shape r' = shape r /\ Forall2 feq (data r') (data r).
Proof.
  intros Hs Hk Hlt Hov Hov' Hr Hr'.
  set (g := fun q => k * q + c) in *.
  assert (Hg : forall u v, In u (x :: l) -> In v (x :: l) ->
                           u <= v -> g u <= g v).
  { intros u v _ _ Huv. unfold g. apply Qplus_le_compat; [|apply Qle_refl].
    rewrite !(Qmult_comm k). apply Qmult_le_compat_r;
      [exact Huv|apply Qlt_le_weak, Hk]. }
  pose proof (list_min_map g x l Hg) as Hmin.
  pose proof (list_max_map g x l Hg) as Hmax.
  assert (Hspread : list_max (g x) (map g l) - list_min (g x) (map g l)
                    == k * (list_max x l - list_min x l)).
  { rewrite Hmin, Hmax. unfold g. ring. }
  assert (Hlt' : list_min (g x) (map g l) < list_max (g x) (map g l)).
  { rewrite Hmin, Hmax. unfold g.
    apply Qplus_lt_le_compat; [|apply Qle_refl].
    rewrite !(Qmult_comm k). apply Qmult_lt_compat_r; assumption. }
  pose proof (Qlt_le_weak _ _ (depth_scale_valid_pos self Hs)) as Hs0.
  pose proof (depth_scale_valid_float self Hs) as Hs1.
  rewrite (process_depth_array_exact self _ x l
             (finite_values_finite sh (x :: l)) Hlt Hov Hs0 Hs1) in Hr.
  rewrite (process_depth_array_exact self _ (g x) (map g l)
             (finite_values_finite sh (map g (x :: l))) Hlt'
             ltac:(rewrite Hspread; exact Hov') Hs0 Hs1) in Hr'.
  injection Hr as <-. injection Hr' as <-. split; [reflexivity|].
  assert (Hne : ~ list_max x l - list_min x l == 0).
  { intros H0. apply spread_pos in Hlt. rewrite H0 in Hlt.
    exact (Qlt_irrefl _ Hlt). }
  assert (Hkne : ~ k == 0)
    by (intros Hk0; rewrite Hk0 in Hk; exact (Qlt_irrefl _ Hk)).
  assert (Hpt : forall q,
            (g q - list_min (g x) (map g l))
            / (list_max (g x) (map g l) - list_min (g x) (map g l))
            * depth_scale self
            == (q - list_min x l) / (list_max x l - list_min x l)
               * depth_scale self).
  { intros q. rewrite Hmin, Hmax. unfold g. field. split.
    - exact Hne.
    - intros H0. apply Hne.
      apply (Qmult_inj_l _ _ k Hkne). rewrite Qmult_0_r. rewrite <- H0. ring. }
  cbn [data map]. constructor; [apply Hpt|].
  rewrite (map_map g). apply Forall2_feq_map. exact Hpt.
Qed.

Lemma process_depth_array_affine_witness :
  exists r r',
    process_depth_array (unit_scale false)
      (Float64 (finite_array [2%nat; 2%nat] (0 :: [1; 1; 0]))) = Ok r /\
    process_depth_array (unit_scale false)
      (Float64 (finite_array [2%nat; 2%nat]
                  (map (fun q => 1000 * q + 5) (0 :: [1; 1; 0])))) = Ok r' /\
    shape r' = shape r /\ Forall2 feq (data r') (data r).
Proof.
  eexists. eexists. split; [vm_compute; reflexivity|].
  split; [vm_compute; reflexivity|].
  eapply (process_depth_array_affine (unit_scale false) [2%nat; 2%nat]
            0 [1; 1; 0] 1000 5).
  - split; discriminate.
  - reflexivity.
  - reflexivity.
  - vm_compute. discriminate.
  - vm_compute. discriminate.
  - vm_compute. reflexivity.
  - vm_compute. reflexivity.
Defined.
